(** * Research-Paper-Bot: ingestion and retrieval pipeline

    A shallow embedding of the RAG core of the repository
    ([rag/ingest.py], [rag/pdf_processor_alt.py], [rag/retriever.py],
    [rag/chain.py]) together with the properties stated about it.

    Python dictionaries with a fixed key set are records, Python lists are
    lists, Python sets of strings are [gset string]; a call returns a value
    or raises, which is the type [Py.outcome].  The services the repository
    calls (text splitter, embedding provider, vector store, language model)
    are not part of it: they are the fields of the class [Collaborators], and
    every theorem of the sections below holds for all of its instances. *)

From stdpp Require Import base strings gmap list pretty.
From Stdlib Require Import ZArith Ascii Lia Sorted.
From Equations Require Import Equations.

Open Scope string_scope.
Open Scope list_scope.

(** ** Python primitives *)

Module Py.

(** [str.isspace] on one character, for code points below 256. *)
Definition isspace (c : ascii) : bool :=
  let n := nat_of_ascii c in
  (Nat.leb 9 n && Nat.leb n 13) || (Nat.leb 28 n && Nat.leb n 32)
  || Nat.eqb n 133 || Nat.eqb n 160.

(** [str.lstrip()] *)
Fixpoint lstrip (s : string) : string :=
  match s with
  | EmptyString => EmptyString
  | String c s' => if isspace c then lstrip s' else s
  end.

(** [str.rstrip()] *)
Fixpoint rstrip (s : string) : string :=
  match s with
  | EmptyString => EmptyString
  | String c s' =>
      match rstrip s' with
      | EmptyString => if isspace c then EmptyString else String c EmptyString
      | r => String c r
      end
  end.

(** [str.strip()] *)
Definition strip (s : string) : string := rstrip (lstrip s).

(** Truth value of a string: [if s:] holds for the non-empty ones. *)
Definition truthy (s : string) : bool :=
  match s with EmptyString => false | String _ _ => true end.

(** Truth value of a list. *)
Definition nonempty {A} (l : list A) : bool :=
  match l with [] => false | _ :: _ => true end.

(** [str(n)] for an [int]. *)
Definition str (n : Z) : string := pretty n.

(** [c in s] for a character [c]. *)
Fixpoint has_char (c : ascii) (s : string) : bool :=
  match s with
  | EmptyString => false
  | String c' s' => bool_decide (c = c') || has_char c s'
  end.

(** Only white space. *)
Fixpoint blank (s : string) : bool :=
  match s with
  | EmptyString => true
  | String c s' => isspace c && blank s'
  end.

(** An exception object: its class name and its message, [str(e)]. *)
Record exn := Exn { exn_class : string; exn_msg : string }.

(** The outcome of a call: a returned value or a raised exception. *)
Inductive outcome (A : Type) : Type :=
  | Returned (a : A)
  | Raised (e : exn).
Arguments Returned {A} a.
Arguments Raised {A} e.

Definition raised {A} (o : outcome A) : bool :=
  match o with Raised _ => true | Returned _ => false end.

Definition ValueError (msg : string) : exn := Exn "ValueError" msg.

(** [range(0, n, step)] for a positive [step]: [0, step, 2*step, ...] below
    [n]. *)
Definition range_step (n step : nat) : list nat :=
  map (λ k, k * step) (seq 0 (Nat.div (n + step - 1) step)).

(** The slice [l[i:j]]. *)
Definition slice {A} (l : list A) (i j : nat) : list A :=
  take (j - i) (drop i l).

End Py.

(** ** Data model *)

(** A page dictionary: [{"page_number": .., "text": ..}]. *)
Module Page.
Record t := mk { page_number : Z; text : string }.
End Page.

(** A chunk dictionary: [{"content": .., "page_number": .., "chunk_index": ..}]. *)
Module Chunk.
Record t := mk { content : string; page_number : Z; chunk_index : nat }.

Definition reindex (k : nat) (c : t) : t :=
  mk (content c) (page_number c) (k + chunk_index c).
End Chunk.

(** The properties of a [PaperChunk] object, the [data_object] dictionary
    of [store_chunks]; the schema of [_create_schema] declares these seven. *)
Module PaperChunk.
Record t := mk {
  content : string;
  paper_id : string;
  paper_title : string;
  page_number : Z;
  chunk_index : nat;
  user_id : string;
  upload_date : string
}.

(** The value of a text property, by its name in the schema. *)
Definition text_prop (o : t) (path : string) : option string :=
  if decide (path = "content") then Some (content o)
  else if decide (path = "paper_id") then Some (paper_id o)
  else if decide (path = "paper_title") then Some (paper_title o)
  else if decide (path = "user_id") then Some (user_id o)
  else None.
End PaperChunk.

(** A retrieved chunk, the dictionary the retriever builds per result item;
    [distance] is present for the vector searches only. *)
Module Retrieved.
Record t (Dist : Type) := mk {
  content : string;
  paper_id : string;
  paper_title : string;
  page_number : Z;
  chunk_index : nat;
  distance : option Dist;
  user_id : string
}.
Arguments mk {Dist}.
Arguments content {Dist}.
Arguments paper_id {Dist}.
Arguments paper_title {Dist}.
Arguments page_number {Dist}.
Arguments chunk_index {Dist}.
Arguments distance {Dist}.
Arguments user_id {Dist}.
End Retrieved.

(** An entry of the paper listing of [get_user_papers]. *)
Module PaperInfo.
Record t := mk { paper_id : string; paper_title : string; upload_date : string }.
End PaperInfo.

(** A source citation: [{"paper": .., "page": ..}]. *)
Module Source.
Record t := mk { paper : string; page : Z }.
End Source.

(** The dictionary the chain returns: [{"answer": .., "sources": ..}]. *)
Module Response.
Record t := mk { answer : string; sources : list Source.t }.
End Response.


(** [self.persona_prompts] of [RAGChain.__init__]. *)
Definition persona_Student : string :=
  "You are a helpful AI assistant explaining research papers to students. 
            Your responses should be:
            - Clear and easy to understand
            - Focus on key concepts and takeaways
            - Avoid overly technical jargon
            - Provide practical insights and applications
            - Use analogies when helpful
            
            Always cite your sources with paper title and page number.".
Definition persona_Professor : string :=
  "You are an AI assistant helping professors analyze research papers. 
            Your responses should be:
            - Critical and analytical
            - Identify research gaps and limitations
            - Discuss methodological strengths and weaknesses
            - Compare with related work when relevant
            - Suggest future research directions
            - Use academic language and terminology
            
            Always cite your sources with paper title and page number.".
Definition persona_General_User : string :=
  "You are a helpful AI assistant explaining research papers to general users. 
            Your responses should be:
            - Written in plain English
            - Focus on real-world implications
            - Avoid technical jargon
            - Be engaging and accessible
            - Highlight why the research matters
            
            Always cite your sources with paper title and page number.".

(** [self.persona_prompts.get(persona, self.persona_prompts["General User"])] *)
Definition persona_prompts_get (persona : string) : string :=
  if decide (persona = "Student") then persona_Student
  else if decide (persona = "Professor") then persona_Professor
  else if decide (persona = "General User") then persona_General_User
  else persona_General_User.

(** The line feed character. *)
Definition LF : string := String (ascii_of_nat 10) EmptyString.

(** [sep.join(parts)] *)
Fixpoint join (sep : string) (parts : list string) : string :=
  match parts with
  | [] => EmptyString
  | [p] => p
  | p :: rest => p +:+ sep +:+ join sep rest
  end.

#[local] Set Warnings "-register-all".

(** A [where] filter of the queries the retriever builds. *)
Inductive where_filter : Type :=
  | Equal (path : string) (valueString : string)
  | And (operands : list where_filter).

(** The elements of [l] whose key was not met before, each at its first
    occurrence: what a loop keeps that skips the keys it has already seen. *)
Fixpoint first_by {A K} `{EqDecision K} (key : A → K) (seen : list K)
    (l : list A) : list A :=
  match l with
  | [] => []
  | x :: l' =>
      if decide (key x ∈ seen) then first_by key seen l'
      else x :: first_by key (key x :: seen) l'
  end.

#[global] Instance Source_eq_dec : EqDecision Source.t.
Proof. solve_decision. Defined.

(** Citation extraction as the specification words it: go through the pairs
    in order and emit each one unless it has been emitted already. *)
Definition citations_spec (pairs : list Source.t) : list Source.t :=
  first_by id [] pairs.

(** The listing of distinct papers as the specification words it:
    deduplicated by [paper_id], the first record seen wins. *)
Definition distinct_papers (records : list PaperChunk.t) : list PaperInfo.t :=
  map (λ r, PaperInfo.mk (PaperChunk.paper_id r) (PaperChunk.paper_title r)
                         (PaperChunk.upload_date r))
      (first_by PaperChunk.paper_id [] records).

(** ** The collaborators

    The services and libraries the repository calls and does not implement:
    the text splitter, the PDF reader, the embedding provider, the language
    model, and the vector store with its client.  None of them is code of the
    repository; what the pipeline relies on is taken as a parameter.  A
    request is identified by the value of the clock when it is issued, so that
    each service may fail at any time.  Embedding vectors and distances are
    opaque to the repository. *)
Class Collaborators (Vec Dist : Type) := {
  (** [self.text_splitter.split_text]: the recursive character splitter
      configured in [__init__] (chunk size 1000, overlap 200). *)
  split_text : string → list string;
  (** [fitz.open(pdf_path)] followed by [get_text()] on each page. *)
  fitz_pages : string → Py.outcome (list string);
  (** [os.path.splitext(os.path.basename(pdf_path))[0]] *)
  path_stem : string → string;
  (** [str(uuid.uuid4())] and [datetime.now(timezone.utc).isoformat()] *)
  uuid4 : nat → string;
  utcnow : nat → string;
  (** [self.embeddings.embed_query] *)
  embed_query : nat → string → Py.outcome Vec;
  (** The store answers the request issued at a given time, or fails. *)
  backend_fault : nat → option Py.exn;
  (** The operator [Equal] of a [where] filter on a text property, asked
      through the client with [valueString]: whether the operand handed to
      the client selects a stored value.  The client rewrites the operand
      before it sends it (a line feed becomes a space) and the store compares
      text by its own rules, so nothing is assumed of it here; a statement
      that needs string equality says so. *)
  equal_text : string → string → bool;
  (** The exception the client's [with_limit] raises on a limit below 1. *)
  limit_error : Py.exn;
  (** Distance of the vector index and its order. *)
  distance : Vec → Vec → Dist;
  dist_leb : Dist → Dist → bool;
  (** [self.llm.invoke([SystemMessage(..), HumanMessage(..)]).content] *)
  llm_invoke : nat → string → string → Py.outcome string;
  (** Whether leaving [with self.client.batch] on an exception still sends
      the objects added so far. *)
  exit_flushes_after_raise : bool
}.

(** ** The pipeline *)

Section Pipeline.

Context {Vec Dist : Type} {C : Collaborators Vec Dist}.

(** *** The chunker: [PDFIngester.chunk_text], [AlternativePDFProcessor.chunk_text] *)

(** Body of the inner loop [for chunk_text in page_chunks]; the state is the
    pair of the local variables [chunks] and [chunk_index]. *)
Definition chunk_step (page_number : Z) (st : list Chunk.t * nat)
    (chunk_text : string) : list Chunk.t * nat :=
  let '(chunks, chunk_index) := st in
  if Py.truthy (Py.strip chunk_text) then
    (chunks ++ [Chunk.mk (Py.strip chunk_text) page_number chunk_index],
     S chunk_index)
  else st.

(** Body of the outer loop [for page in pages]. *)
Definition page_step (st : list Chunk.t * nat) (page : Page.t)
    : list Chunk.t * nat :=
  let page_text := Page.text page in
  let page_number := Page.page_number page in
  let page_chunks := split_text page_text in
  fold_left (chunk_step page_number) page_chunks st.

(** The loop [for page in pages] from a given state. *)
Definition chunk_loop (pages : list Page.t) (st : list Chunk.t * nat) :=
  fold_left page_step pages st.

(** [PDFIngester.chunk_text] *)
Definition chunk_text (pages : list Page.t) : list Chunk.t :=
  fst (chunk_loop pages ([], 0)).

(** [AlternativePDFProcessor.chunk_text]: same loop, same splitter settings. *)
Definition alt_chunk_text (pages : list Page.t) : list Chunk.t :=
  let chunks := [] in
  let chunk_index := 0 in
  fst (fold_left
         (λ st page,
            fold_left (chunk_step (Page.page_number page))
                      (split_text (Page.text page)) st)
         pages (chunks, chunk_index)).

(** The pieces that survive the [if chunk_text.strip()] test, with the page
    they were split from, in emission order. *)
Definition kept_pieces (page : Page.t) : list (Z * string) :=
  map (λ piece, (Page.page_number page, Py.strip piece))
      (filter (λ piece, Py.truthy (Py.strip piece) = true)
              (split_text (Page.text page))).

Definition emitted (pages : list Page.t) : list (Z * string) :=
  flat_map kept_pieces pages.

(** Number the pieces from [k] on. *)
Fixpoint number_from (k : nat) (l : list (Z * string)) : list Chunk.t :=
  match l with
  | [] => []
  | (pn, c) :: l' => Chunk.mk c pn k :: number_from (S k) l'
  end.

(** *** The vector store

    The store and its client are collaborators.  This model of them keeps
    what the pipeline can observe: the objects of the class in the order they
    were stored (the specification's store contract speaks of the natural
    storage order of an exact-match read), a filter decided by [equal_text],
    a ranking by distance, a limit, and a failure at any request. *)

(** A stored object: its properties and the vector supplied with it (the
    class is declared with [vectorizer = none]). *)
Record Obj := mkObj { data_object : PaperChunk.t; vector : Vec }.

(** The state the pipeline runs against: the objects of class [PaperChunk]
    in storage order ([None] when the class does not exist), the number of
    requests issued so far to the collaborators, the prompts sent to the
    language model, and the lines printed. *)
Record World := mkWorld {
  paper_chunks : option (list Obj);
  clock : nat;
  llm_log : list (string * string);
  stdout : list string
}.

Definition stored (w : World) : list Obj := default [] (paper_chunks w).

(** The properties of the stored objects, in storage order. *)
Definition stored_records (w : World) : list PaperChunk.t :=
  map data_object (stored w).

Definition tick (w : World) : World :=
  mkWorld (paper_chunks w) (S (clock w)) (llm_log w) (stdout w).

Definition set_chunks (w : World) (c : option (list Obj)) : World :=
  mkWorld c (clock w) (llm_log w) (stdout w).

(** [print(line)] *)
Definition print (line : string) (w : World) : World :=
  mkWorld (paper_chunks w) (clock w) (llm_log w) (stdout w ++ [line]).

(** [where] filter on one object: [Equal] on a text property, decided by
    the store, and [And]. *)
Fixpoint matches (f : where_filter) (o : PaperChunk.t) : bool :=
  match f with
  | Equal path v =>
      match PaperChunk.text_prop o path with
      | Some s => equal_text v s
      | None => false
      end
  | And operands => forallb (λ g, matches g o) operands
  end.

(** The store compares the operand [v] exactly: it selects the stored values
    equal to [v] and no other. *)
Definition exact_on (v : string) : Prop :=
  ∀ s, equal_text v s = true ↔ s = v.

(** A query under construction: [client.query.get(cls, props)] and the
    [with_...] calls chained on it. *)
Record Query := mkQuery {
  q_class : string;
  q_properties : list string;
  q_near_vector : option Vec;
  q_where : option where_filter;
  q_limit : option nat;
  q_additional : list string
}.

Definition get (cls : string) (props : list string) : Query :=
  mkQuery cls props None None None [].
Definition with_near_vector (v : Vec) (q : Query) : Query :=
  mkQuery (q_class q) (q_properties q) (Some v) (q_where q) (q_limit q)
          (q_additional q).
Definition with_where (f : where_filter) (q : Query) : Query :=
  mkQuery (q_class q) (q_properties q) (q_near_vector q) (Some f) (q_limit q)
          (q_additional q).
(** [with_limit] raises on a limit below 1, before any request. *)
Definition with_limit (n : nat) (q : Query) : Py.outcome Query :=
  if Nat.ltb n 1 then Py.Raised limit_error
  else Py.Returned
         (mkQuery (q_class q) (q_properties q) (q_near_vector q) (q_where q)
                  (Some n) (q_additional q)).
Definition with_additional (a : list string) (q : Query) : Query :=
  mkQuery (q_class q) (q_properties q) (q_near_vector q) (q_where q)
          (q_limit q) a.

(** One element of [result["data"]["Get"]["PaperChunk"]]. *)
Record Item := mkItem {
  item : PaperChunk.t;
  additional_distance : option Dist
}.

(** Ascending by distance to [v], ties in storage order. *)
Fixpoint insert_by (v : Vec) (o : Obj) (l : list Obj) : list Obj :=
  match l with
  | [] => [o]
  | o' :: l' =>
      if dist_leb (distance v (vector o)) (distance v (vector o'))
      then o :: l
      else o' :: insert_by v o l'
  end.

Definition nearest (v : Vec) (l : list Obj) : list Obj :=
  foldr (insert_by v) [] l.

(** What the store answers to a query when it is reachable and the class
    exists: filter, rank, cut. *)
Definition answer (q : Query) (objs : list Obj) : list Item :=
  let hits :=
    match q_where q with
    | Some f => List.filter (λ o, matches f (data_object o)) objs
    | None => objs
    end in
  let ranked :=
    match q_near_vector q with
    | Some v => nearest v hits
    | None => hits
    end in
  let cut :=
    match q_limit q with
    | Some n => take n ranked
    | None => ranked
    end in
  map (λ o, mkItem (data_object o)
              (match q_near_vector q with
               | Some v =>
                   if bool_decide ("distance" ∈ q_additional q)
                   then Some (distance v (vector o)) else None
               | None => None
               end)) cut.

(** [.do()] followed by [result["data"]["Get"]["PaperChunk"]]: raises when
    the store fails, and when the class is missing (the reply then carries
    errors and no data). *)
Definition do (q : Query) (w : World) : World * Py.outcome (list Item) :=
  match backend_fault (clock w) with
  | Some e => (tick w, Py.Raised e)
  | None =>
      match paper_chunks w with
      | None => (tick w, Py.Raised (Py.Exn "KeyError" "data"))
      | Some objs => (tick w, Py.Returned (answer q objs))
      end
  end.



(** Sending the objects of a batch: one request, nothing for an empty batch;
    the objects go to the end of the class, which is created if missing. *)
Definition flush (pending : list Obj) (w : World) : World * Py.outcome unit :=
  match pending with
  | [] => (w, Py.Returned ())
  | _ :: _ =>
      match backend_fault (clock w) with
      | Some e => (tick w, Py.Raised e)
      | None => (tick (set_chunks w (Some (stored w ++ pending))),
                 Py.Returned ())
      end
  end.

(** [batch.add_data_object]: the object joins the batch, which is sent as
    soon as it holds [batch_size] objects. *)
Definition add_data_object (batch_size : nat) (o : Obj)
    (pending : list Obj) (w : World)
    : World * list Obj * Py.outcome unit :=
  let pending' := pending ++ [o] in
  if Nat.leb batch_size (length pending') then
    let '(w', r) := flush pending' w in (w', [], r)
  else (w, pending', Py.Returned ()).

(** *** Ingestion: [rag/ingest.py] *)



(** The loop of [extract_text_from_pdf] over [range(len(doc))]. *)
Fixpoint extract_loop (page_num : nat) (doc : list string) : list Page.t :=
  match doc with
  | [] => []
  | text :: doc' =>
      if Py.truthy (Py.strip text)
      then Page.mk (Z.of_nat page_num + 1) (Py.strip text)
             :: extract_loop (S page_num) doc'
      else extract_loop (S page_num) doc'
  end.

(** [PDFIngester.extract_text_from_pdf] *)
Definition extract_text_from_pdf (pdf_path : string)
    : Py.outcome (list Page.t) :=
  match fitz_pages pdf_path with
  | Py.Raised e => Py.Raised e
  | Py.Returned doc => Py.Returned (extract_loop 0 doc)
  end.

(** The [data_object] dictionary built for one chunk. *)
Definition make_data_object (paper_id paper_title user_id upload_date : string)
    (chunk : Chunk.t) : PaperChunk.t :=
  PaperChunk.mk (Chunk.content chunk) paper_id paper_title
    (Chunk.page_number chunk) (Chunk.chunk_index chunk) user_id upload_date.

Section StoreChunks.

Variables (batch_size : nat) (paper_id paper_title user_id upload_date : string).

(** The loop [for chunk in batch_chunks] inside the [with] block; [pending]
    holds the objects added to the batch and not sent yet. *)
Fixpoint batch_body (batch_chunks : list Chunk.t) (pending : list Obj)
    (w : World) : World * list Obj * Py.outcome unit :=
  match batch_chunks with
  | [] => (w, pending, Py.Returned ())
  | chunk :: rest =>
      match embed_query (clock w) (Chunk.content chunk) with
      | Py.Raised e => (tick w, pending, Py.Raised e)
      | Py.Returned embedding =>
          let data_object :=
            make_data_object paper_id paper_title user_id upload_date chunk in
          match add_data_object batch_size (mkObj data_object embedding)
                                pending (tick w) with
          | (w', pending', Py.Returned _) => batch_body rest pending' w'
          | (w', pending', Py.Raised e) => (w', pending', Py.Raised e)
          end
      end
  end.

(** [with self.client.batch as batch: ...]: leaving the block sends what is
    left in the batch. *)
Definition with_batch (batch_chunks : list Chunk.t) (w : World)
    : World * Py.outcome unit :=
  match batch_body batch_chunks [] w with
  | (w1, pending, Py.Returned _) => flush pending w1
  | (w1, pending, Py.Raised e) =>
      if exit_flushes_after_raise then
        match flush pending w1 with
        | (w2, Py.Returned _) => (w2, Py.Raised e)
        | (w2, Py.Raised e') => (w2, Py.Raised e')
        end
      else (w1, Py.Raised e)
  end.

(** The loop [for i in range(0, len(chunks), batch_size)] with its
    [try ... except Exception as e: print(..); raise]. *)
Fixpoint store_loop (chunks : list Chunk.t) (starts : list nat) (w : World)
    : World * Py.outcome unit :=
  match starts with
  | [] => (w, Py.Returned ())
  | i :: starts' =>
      let batch_chunks := Py.slice chunks i (i + batch_size) in
      match with_batch batch_chunks w with
      | (w', Py.Returned _) => store_loop chunks starts' w'
      | (w', Py.Raised e) =>
          (print ("Error storing batch: " +:+ Py.exn_msg e) w', Py.Raised e)
      end
  end.

End StoreChunks.


(** [PDFIngester.store_chunks] *)
Definition store_chunks (chunks : list Chunk.t)
    (paper_id paper_title user_id : string) (w : World)
    : World * Py.outcome unit :=
  let batch_size := 50 in
  let upload_date := utcnow (clock w) in
  store_loop batch_size paper_id paper_title user_id upload_date chunks
             (Py.range_step (length chunks) batch_size) w.

(** The chunks of a document: what [ingest_pdf] hands to [store_chunks]. *)
Definition document_chunks (pdf_path : string) : list Chunk.t :=
  match extract_text_from_pdf pdf_path with
  | Py.Returned pages => chunk_text pages
  | Py.Raised _ => []
  end.

(** [PDFIngester.ingest_pdf] *)
Definition ingest_pdf (pdf_path user_id : string) (w : World)
    : World * Py.outcome string :=
  let paper_id := uuid4 (clock w) in
  let paper_title := path_stem pdf_path in
  match extract_text_from_pdf pdf_path with
  | Py.Raised e => (w, Py.Raised e)
  | Py.Returned pages =>
      if negb (Py.nonempty pages) then
        (w, Py.Raised (Py.ValueError "No text content found in PDF"))
      else
        let chunks := chunk_text pages in
        if negb (Py.nonempty chunks) then
          (w, Py.Raised (Py.ValueError "No valid chunks created from PDF"))
        else
          match store_chunks chunks paper_id paper_title user_id w with
          | (w', Py.Raised e) => (w', Py.Raised e)
          | (w', Py.Returned _) =>
              (print ("Ingested " +:+ Py.str (Z.of_nat (length chunks))
                      +:+ " chunks from "
                      +:+ Py.str (Z.of_nat (length pages)) +:+ " pages") w',
               Py.Returned paper_id)
          end
  end.

(** *** Retrieval: [rag/retriever.py] *)

Definition chunk_properties : list string :=
  ["content"; "paper_id"; "paper_title"; "page_number"; "chunk_index";
   "user_id"].

(** The dictionary appended per item by the two vector searches. *)
Definition chunk_of_item (it : Item) : Retrieved.t Dist :=
  Retrieved.mk
    (PaperChunk.content (item it))
    (PaperChunk.paper_id (item it))
    (PaperChunk.paper_title (item it))
    (PaperChunk.page_number (item it))
    (PaperChunk.chunk_index (item it))
    (additional_distance it)
    (PaperChunk.user_id (item it)).

(** The dictionary appended per item by [retrieve_by_paper_id]: no
    [distance] key. *)
Definition chunk_of_item_exact (it : Item) : Retrieved.t Dist :=
  Retrieved.mk
    (PaperChunk.content (item it))
    (PaperChunk.paper_id (item it))
    (PaperChunk.paper_title (item it))
    (PaperChunk.page_number (item it))
    (PaperChunk.chunk_index (item it))
    None
    (PaperChunk.user_id (item it)).


(** A chunk handed to the caller of a vector search under [U1], whatever
    [U1] is: the store's filter selects its [user_id] for [U1], and it is the
    projection of a stored object. *)
Definition selected_for (w : World) (U1 : string) (c : Retrieved.t Dist)
    : Prop :=
  equal_text U1 (Retrieved.user_id c) = true
  ∧ ∃ o, o ∈ stored w
         ∧ c = chunk_of_item (mkItem (data_object o) (Retrieved.distance c)).

(** The chunk an exact-match retrieval builds from a stored record. *)
Definition retrieved_of_record (r : PaperChunk.t) : Retrieved.t Dist :=
  Retrieved.mk (PaperChunk.content r) (PaperChunk.paper_id r)
    (PaperChunk.paper_title r) (PaperChunk.page_number r)
    (PaperChunk.chunk_index r) None (PaperChunk.user_id r).

(** The records the store selects for a paper and a user, in storage
    order. *)
Definition records_of_paper (paper_id user_id : string)
    (records : list PaperChunk.t) : list PaperChunk.t :=
  List.filter
    (λ r, equal_text paper_id (PaperChunk.paper_id r)
          && equal_text user_id (PaperChunk.user_id r))
    records.

(** The [try] block shared by [retrieve_relevant_chunks] and
    [search_similar_chunks]: embed the text, search, convert the items. *)
Definition vector_search (text user_id : string) (top_k : nat) (w : World)
    : World * Py.outcome (list (Retrieved.t Dist)) :=
  match embed_query (clock w) text with
  | Py.Raised e => (tick w, Py.Raised e)
  | Py.Returned embedding =>
      match with_limit top_k
              (with_where (Equal "user_id" user_id)
                 (with_near_vector embedding
                    (get "PaperChunk" chunk_properties))) with
      | Py.Raised e => (tick w, Py.Raised e)
      | Py.Returned q =>
          match do (with_additional ["distance"] q) (tick w) with
          | (w', Py.Raised e) => (w', Py.Raised e)
          | (w', Py.Returned result) =>
              let chunks :=
                if Py.nonempty result then map chunk_of_item result else [] in
              (w', Py.Returned chunks)
          end
      end
  end.

(** [RAGRetriever.retrieve_relevant_chunks] *)
Definition retrieve_relevant_chunks (query user_id : string) (top_k : nat)
    (w : World) : World * Py.outcome (list (Retrieved.t Dist)) :=
  match vector_search query user_id top_k w with
  | (w', Py.Returned chunks) => (w', Py.Returned chunks)
  | (w', Py.Raised e) =>
      (print ("Error retrieving chunks: " +:+ Py.exn_msg e) w',
       Py.Returned [])
  end.

(** [RAGRetriever.search_similar_chunks] *)
Definition search_similar_chunks (chunk_content user_id : string)
    (top_k : nat) (w : World)
    : World * Py.outcome (list (Retrieved.t Dist)) :=
  match vector_search chunk_content user_id top_k w with
  | (w', Py.Returned chunks) => (w', Py.Returned chunks)
  | (w', Py.Raised e) =>
      (print ("Error searching similar chunks: " +:+ Py.exn_msg e) w',
       Py.Returned [])
  end.

(** [RAGRetriever.retrieve_by_paper_id] *)
Definition retrieve_by_paper_id (paper_id user_id : string) (top_k : nat)
    (w : World) : World * Py.outcome (list (Retrieved.t Dist)) :=
  let tried :=
    match with_limit top_k
            (with_where
               (And [Equal "paper_id" paper_id; Equal "user_id" user_id])
               (get "PaperChunk" chunk_properties)) with
    | Py.Raised e => (w, Py.Raised e)
    | Py.Returned q => do q w
    end in
  match tried with
  | (w', Py.Returned result) =>
      let chunks :=
        if Py.nonempty result then map chunk_of_item_exact result else [] in
      (w', Py.Returned chunks)
  | (w', Py.Raised e) =>
      (print ("Error retrieving chunks by paper ID: " +:+ Py.exn_msg e) w',
       Py.Returned [])
  end.

(** Body of the loop of [get_user_papers]; the state is the pair of
    [papers] and [seen_papers]. *)
Definition papers_step (st : list PaperInfo.t * gset string) (it : Item)
    : list PaperInfo.t * gset string :=
  let '(papers, seen_papers) := st in
  let paper_id := PaperChunk.paper_id (item it) in
  if decide (paper_id ∉ seen_papers) then
    (papers ++ [PaperInfo.mk paper_id
                  (PaperChunk.paper_title (item it))
                  (PaperChunk.upload_date (item it))],
     seen_papers ∪ {[paper_id]})
  else st.

(** [RAGRetriever.get_user_papers] *)
Definition get_user_papers (user_id : string) (w : World)
    : World * Py.outcome (list PaperInfo.t) :=
  let tried :=
    match with_limit 1000
            (with_where (Equal "user_id" user_id)
               (get "PaperChunk" ["paper_id"; "paper_title"; "upload_date"]))
    with
    | Py.Raised e => (w, Py.Raised e)
    | Py.Returned q => do q w
    end in
  match tried with
  | (w', Py.Returned result) =>
      let papers :=
        if Py.nonempty result then fst (fold_left papers_step result ([], ∅))
        else [] in
      (w', Py.Returned papers)
  | (w', Py.Raised e) =>
      (print ("Error getting user papers: " +:+ Py.exn_msg e) w',
       Py.Returned [])
  end.

(** The records [get_user_papers] looks at: the first 1000 of the objects
    the store selects for the user, in storage order. *)
Definition first_window (user_id : string) (objs : list Obj)
    : list PaperChunk.t :=
  map data_object
    (take 1000
       (List.filter
          (λ o, equal_text user_id (PaperChunk.user_id (data_object o)))
          objs)).

(** *** Answer generation: [rag/chain.py] *)

(** A retrieved chunk of a given paper and page, the other keys empty. *)
Definition chunk_at (paper_title : string) (page_number : Z)
    : Retrieved.t Dist :=
  Retrieved.mk EmptyString EmptyString paper_title page_number 0 None
               EmptyString.


(** The loop of [_format_context] over [enumerate(chunks, 1)]. *)
Fixpoint context_parts (i : nat) (chunks : list (Retrieved.t Dist))
    : list string :=
  match chunks with
  | [] => []
  | chunk :: rest =>
      (LF +:+ "Source " +:+ Py.str (Z.of_nat i) +:+ ": "
       +:+ Retrieved.paper_title chunk
       +:+ " (Page " +:+ Py.str (Retrieved.page_number chunk) +:+ ")" +:+ LF
       +:+ "Content: " +:+ Retrieved.content chunk +:+ LF +:+ "---")
      :: context_parts (S i) rest
  end.

(** [RAGChain._format_context] *)
Definition _format_context (chunks : list (Retrieved.t Dist)) : string :=
  if negb (Py.nonempty chunks) then
    "No relevant information found in the uploaded papers."
  else join LF (context_parts 1 chunks).

(** The key [f"{chunk['paper_title']}_{chunk['page_number']}"]. *)
Definition source_key (chunk : Retrieved.t Dist) : string :=
  Retrieved.paper_title chunk +:+ "_" +:+ Py.str (Retrieved.page_number chunk).

(** The citation built from one chunk. *)
Definition source_of (chunk : Retrieved.t Dist) : Source.t :=
  Source.mk (Retrieved.paper_title chunk) (Retrieved.page_number chunk).

(** Body of the loop of [_extract_sources]; the state is the pair of
    [sources] and [seen_sources]. *)
Definition sources_step (st : list Source.t * gset string)
    (chunk : Retrieved.t Dist) : list Source.t * gset string :=
  let '(sources, seen_sources) := st in
  if decide (source_key chunk ∉ seen_sources) then
    (sources ++ [source_of chunk], seen_sources ∪ {[source_key chunk]})
  else st.

(** [RAGChain._extract_sources] *)
Definition _extract_sources (chunks : list (Retrieved.t Dist))
    : list Source.t :=
  fst (fold_left sources_step chunks ([], ∅)).

(** [self.llm.invoke(messages).content]; the call is recorded. *)
Definition invoke (system_prompt human : string) (w : World)
    : World * Py.outcome string :=
  (mkWorld (paper_chunks w) (S (clock w))
           (llm_log w ++ [(system_prompt, human)]) (stdout w),
   llm_invoke (clock w) system_prompt human).

Definition no_information : string :=
  "I couldn't find any relevant information in your uploaded papers. Please make sure you have uploaded the papers you'd like me to analyze.".

Definition no_paper : string :=
  "I couldn't find the specified paper in your uploaded documents.".

(** The [try] block of [generate_response]. *)
Definition generate_response_try (query persona user_id : string) (w : World)
    : World * Py.outcome Response.t :=
  match retrieve_relevant_chunks query user_id 5 w with
  | (w1, Py.Raised e) => (w1, Py.Raised e)
  | (w1, Py.Returned chunks) =>
      if negb (Py.nonempty chunks) then
        (w1, Py.Returned (Response.mk no_information []))
      else
        let context := _format_context chunks in
        let persona_prompt := persona_prompts_get persona in
        let system_prompt :=
          persona_prompt +:+ LF +:+ LF
          +:+ "You have access to the following information from research papers:"
          +:+ LF +:+ LF +:+ context +:+ LF +:+ LF
          +:+ "Based on this information, answer the user's question. Be thorough but concise. Always cite your sources by mentioning the paper title and page number in your response."
          +:+ LF +:+ LF +:+ "Question: " +:+ query in
        match invoke system_prompt query w1 with
        | (w2, Py.Raised e) => (w2, Py.Raised e)
        | (w2, Py.Returned answer) =>
            let sources := _extract_sources chunks in
            (w2, Py.Returned (Response.mk answer sources))
        end
  end.

(** [RAGChain.generate_response] *)
Definition generate_response (query persona user_id : string) (w : World)
    : World * Py.outcome Response.t :=
  match generate_response_try query persona user_id w with
  | (w', Py.Returned r) => (w', Py.Returned r)
  | (w', Py.Raised e) =>
      (print ("Error generating response: " +:+ Py.exn_msg e) w',
       Py.Returned (Response.mk
         ("I encountered an error while processing your question: "
          +:+ Py.exn_msg e +:+ ". Please try again.") []))
  end.

(** The [try] block of [generate_summary]. *)
Definition generate_summary_try (paper_id user_id persona : string) (w : World)
    : World * Py.outcome Response.t :=
  match retrieve_by_paper_id paper_id user_id 20 w with
  | (w1, Py.Raised e) => (w1, Py.Raised e)
  | (w1, Py.Returned chunks) =>
      match chunks with
      | [] => (w1, Py.Returned (Response.mk no_paper []))
      | chunks_0 :: _ =>
          let context := _format_context chunks in
          let persona_prompt := persona_prompts_get persona in
          let system_prompt :=
            persona_prompt +:+ LF +:+ LF
            +:+ "You have access to the following information from a research paper:"
            +:+ LF +:+ LF +:+ context +:+ LF +:+ LF
            +:+ "Please provide a comprehensive summary of this paper. Include:"
            +:+ LF +:+ "1. Main research question/problem"
            +:+ LF +:+ "2. Methodology used"
            +:+ LF +:+ "3. Key findings"
            +:+ LF +:+ "4. Implications and conclusions"
            +:+ LF +:+ LF
            +:+ "Write the summary in a way that's appropriate for the "
            +:+ persona +:+ " persona." +:+ LF +:+ LF
            +:+ "Paper: " +:+ Retrieved.paper_title chunks_0 in
          match invoke system_prompt "Please summarize this research paper."
                       w1 with
          | (w2, Py.Raised e) => (w2, Py.Raised e)
          | (w2, Py.Returned summary) =>
              let sources := _extract_sources chunks in
              (w2, Py.Returned (Response.mk summary sources))
          end
      end
  end.

(** [RAGChain.generate_summary] *)
Definition generate_summary (paper_id user_id persona : string) (w : World)
    : World * Py.outcome Response.t :=
  match generate_summary_try paper_id user_id persona w with
  | (w', Py.Returned r) => (w', Py.Returned r)
  | (w', Py.Raised e) =>
      (print ("Error generating summary: " +:+ Py.exn_msg e) w',
       Py.Returned (Response.mk
         ("I encountered an error while summarizing the paper: "
          +:+ Py.exn_msg e +:+ ". Please try again.") []))
  end.

End Pipeline.

Arguments Obj : clear implicits.
Arguments World : clear implicits.

(** ** Scenarios *)

(** [os.path.basename]: what follows the last slash. *)
Fixpoint basename (path : string) : string :=
  match path with
  | EmptyString => EmptyString
  | String c rest =>
      if Py.has_char "/" rest then basename rest
      else if bool_decide (c = "/"%char) then rest else path
  end.

(** The root [os.path.splitext] gives for a name without slash: the name up
    to its last dot, unless only dots come before that dot. *)
Fixpoint splitext_root (seen_other : bool) (name : string) : string :=
  match name with
  | EmptyString => EmptyString
  | String c rest =>
      if bool_decide (c = "."%char) && seen_other
         && negb (Py.has_char "." rest)
      then EmptyString
      else String c (splitext_root
                       (seen_other || negb (bool_decide (c = "."%char))) rest)
  end.

(** What the client does to a [valueString] operand before it sends it:
    [value.replace(LF, " ")]. *)
Fixpoint strip_newlines (value : string) : string :=
  match value with
  | EmptyString => EmptyString
  | String c rest =>
      String (if bool_decide (c = ascii_of_nat 10) then " "%char else c)
             (strip_newlines rest)
  end.

(** A laboratory: vectors and distances are numbers, a text is embedded as
    its length, every text is split into the one piece it is (which is what
    the splitter does with a text shorter than the chunk size and free of
    separators), the document [long.pdf] has fifty pages reading [alpha]
    followed by one page reading [beta], and the store compares what the
    client sends, an operand with its line feeds turned into spaces, with the
    stored value. *)
Definition lab (embed : nat → string → Py.outcome nat)
    (fault : nat → option Py.exn) : Collaborators nat nat := {|
  split_text := λ t, [t];
  fitz_pages := λ path,
    if decide (path = "long.pdf")
    then Py.Returned (replicate 50 "alpha" ++ ["beta"])
    else Py.Raised (Py.Exn "FileNotFoundError" path);
  path_stem := λ path, splitext_root false (basename path);
  uuid4 := λ t, "uuid-" +:+ pretty t;
  utcnow := λ _, "2026-01-01T00:00:00+00:00";
  embed_query := embed;
  backend_fault := fault;
  equal_text := λ operand s, bool_decide (strip_newlines operand = s);
  limit_error := Py.ValueError "limit cannot be non-positive (limit >=1).";
  distance := λ a b, (a - b) + (b - a);
  dist_leb := Nat.leb;
  llm_invoke := λ _ _ _, Py.Returned "an answer";
  exit_flushes_after_raise := true
|}.

Definition embed_length : nat → string → Py.outcome nat :=
  λ _ text, Py.Returned (String.length text).


Definition outage : Py.exn := Py.Exn "ConnectionError" "connection refused".

Definition healthy : Collaborators nat nat := lab embed_length (λ _, None).
Definition store_down : Collaborators nat nat :=
  lab embed_length (λ _, Some outage).

(** A store that fails the first two requests and answers from then on. *)
Definition store_blip : Collaborators nat nat :=
  lab embed_length (λ t, if Nat.ltb t 2 then Some outage else None).



(** [n] stored chunks of one paper of one user. *)
Definition paper_objects (user_id paper_id : string) (n : nat)
    : list (Obj nat) :=
  map (λ i, mkObj (PaperChunk.mk "some text" paper_id paper_id 1 i user_id
                                 "2026-01-01T00:00:00+00:00") i)
      (seq 0 n).

Definition world_of (objs : list (Obj nat)) : World nat :=
  mkWorld (Some objs) 0 [] [].

(** Three chunks of [user1] and ten of [user2]. *)
Definition two_users : World nat :=
  world_of (paper_objects "user1" "paper-1" 3
            ++ paper_objects "user2" "paper-2" 10).

(** A thousand chunks of a first paper of [user1], then one chunk of a
    second paper of the same user. *)
Definition two_papers : World nat :=
  world_of (paper_objects "user1" "paper-1" 1000
            ++ paper_objects "user1" "paper-2" 1).


(** * The rest of the pipeline *)

(** The dictionary [get_paper_info] returns: the three properties it asks
    for. *)
Module PaperMeta.
Record t := mk { paper_title : string; user_id : string; upload_date : string }.
End PaperMeta.

Section MorePipeline.

Context {Vec Dist : Type} {C : Collaborators Vec Dist}.

(** [PDFIngester.get_paper_info]: no [try] here, and no [user_id] in the
    filter. *)
Definition get_paper_info (paper_id : string) (w : World Vec)
    : World Vec * Py.outcome (option PaperMeta.t) :=
  let tried :=
    match with_limit 1
            (with_where (Equal "paper_id" paper_id)
               (get "PaperChunk" ["paper_title"; "user_id"; "upload_date"]))
    with
    | Py.Raised e => (w, Py.Raised e)
    | Py.Returned q => do q w
    end in
  match tried with
  | (w', Py.Raised e) => (w', Py.Raised e)
  | (w', Py.Returned result) =>
      match result with
      | result_0 :: _ =>
          (w', Py.Returned
                 (Some (PaperMeta.mk (PaperChunk.paper_title (item result_0))
                                     (PaperChunk.user_id (item result_0))
                                     (PaperChunk.upload_date (item result_0)))))
      | [] => (w', Py.Returned None)
      end
  end.

Definition no_comparison : string :=
  "I couldn't find any relevant information in your uploaded papers for comparison.".

(** The [try] block of [generate_comparison]. *)
Definition generate_comparison_try (query user_id persona : string)
    (w : World Vec) : World Vec * Py.outcome Response.t :=
  match retrieve_relevant_chunks query user_id 10 w with
  | (w1, Py.Raised e) => (w1, Py.Raised e)
  | (w1, Py.Returned chunks) =>
      if negb (Py.nonempty chunks) then
        (w1, Py.Returned (Response.mk no_comparison []))
      else
        let context := _format_context chunks in
        let persona_prompt := persona_prompts_get persona in
        let system_prompt :=
          persona_prompt +:+ LF +:+ LF
          +:+ "You have access to information from multiple research papers:"
          +:+ LF +:+ LF +:+ context +:+ LF +:+ LF
          +:+ "The user is asking for a comparison or analysis across these papers. Please provide a thoughtful comparison that:"
          +:+ LF +:+ "1. Identifies common themes and differences"
          +:+ LF +:+ "2. Highlights strengths and weaknesses of different approaches"
          +:+ LF +:+ "3. Provides insights that are appropriate for the "
          +:+ persona +:+ " persona" +:+ LF +:+ LF
          +:+ "Question: " +:+ query in
        match invoke system_prompt query w1 with
        | (w2, Py.Raised e) => (w2, Py.Raised e)
        | (w2, Py.Returned comparison) =>
            let sources := _extract_sources chunks in
            (w2, Py.Returned (Response.mk comparison sources))
        end
  end.

(** [RAGChain.generate_comparison] *)
Definition generate_comparison (query user_id persona : string) (w : World Vec)
    : World Vec * Py.outcome Response.t :=
  match generate_comparison_try query user_id persona w with
  | (w', Py.Returned r) => (w', Py.Returned r)
  | (w', Py.Raised e) =>
      (print ("Error generating comparison: " +:+ Py.exn_msg e) w',
       Py.Returned (Response.mk
         ("I encountered an error while generating the comparison: "
          +:+ Py.exn_msg e +:+ ". Please try again.") []))
  end.

End MorePipeline.

(** ** The alternative extractor: [rag/pdf_processor_alt.py] *)

Section AlternativeExtractor.

(** [pdfplumber.open(pdf_path)] and [PyPDF2.PdfReader(open(pdf_path))]:
    opening may raise; so may [extract_text()] on a page, which returns a text
    or [None]. *)
Variable pdfplumber_pages : string → Py.outcome (list (Py.outcome (option string))).
Variable pypdf2_pages : string → Py.outcome (list (Py.outcome (option string))).

(** The loop [for page_num, page in enumerate(...)] of either library; it
    appends to [pages] and stops at the first page that raises. *)
Fixpoint alt_extract_loop (page_num : nat)
    (doc : list (Py.outcome (option string))) (pages : list Page.t)
    : list Page.t * option Py.exn :=
  match doc with
  | [] => (pages, None)
  | Py.Raised e :: _ => (pages, Some e)
  | Py.Returned text :: doc' =>
      match text with
      | Some text =>
          if Py.truthy text && Py.truthy (Py.strip text)
          then alt_extract_loop (S page_num) doc'
                 (pages ++ [Page.mk (Z.of_nat page_num + 1) (Py.strip text)])
          else alt_extract_loop (S page_num) doc' pages
      | None => alt_extract_loop (S page_num) doc' pages
      end
  end.

(** One attempt: open, then loop. *)
Definition alt_attempt
    (opened : Py.outcome (list (Py.outcome (option string))))
    (pages : list Page.t) : list Page.t * option Py.exn :=
  match opened with
  | Py.Raised e => (pages, Some e)
  | Py.Returned doc => alt_extract_loop 0 doc pages
  end.

(** [AlternativePDFProcessor.extract_text_from_pdf]; the result comes with
    the lines printed. *)
Definition alt_extract_text_from_pdf (pdf_path : string)
    : list string * Py.outcome (list Page.t) :=
  let pages := [] in
  match alt_attempt (pdfplumber_pages pdf_path) pages with
  | (pages, None) => ([], Py.Returned pages)
  | (pages, Some e) =>
      let out := ["Error extracting text with pdfplumber: " +:+ Py.exn_msg e] in
      match alt_attempt (pypdf2_pages pdf_path) pages with
      | (pages, None) => (out, Py.Returned pages)
      | (pages, Some e2) =>
          (out ++ ["Error extracting text with PyPDF2: " +:+ Py.exn_msg e2],
           Py.Raised (Py.ValueError
                        ("Could not extract text from PDF: " +:+ Py.exn_msg e2)))
      end
  end.

End AlternativeExtractor.

(** ** The fallback accounts: [SimpleAuthService] of [services/auth_service.py] *)

Module SimpleAuthService.

(** A value of [self.users]. *)
Record user := mk_user { password : string; email : string }.

(** [__init__]: the demo account. *)
Definition init : gmap string user :=
  {[ "demo@example.com" := mk_user "demo123" "demo@example.com" ]}.

(** [signup]: the new state of [self.users] and the returned flag. *)
Definition signup (email password : string) (users : gmap string user)
    : gmap string user * bool :=
  match users !! email with
  | Some _ => (users, false)
  | None => (<[email := mk_user password email]> users, true)
  end.

(** [login] *)
Definition login (email password : string) (users : gmap string user) : bool :=
  match users !! email with
  | Some u => bool_decide (SimpleAuthService.password u = password)
  | None => false
  end.

(** [get_user_by_email] *)
Definition get_user_by_email (email : string) (users : gmap string user)
    : option user :=
  users !! email.

End SimpleAuthService.

(** ** Utilities: [utils.py] *)

(** A text as its code points, for the functions that tell characters of
    any code point apart. *)
Definition code_points (s : string) : list N :=
  map N_of_ascii (String.list_ascii_of_string s).

(** A code point in a range of a class, as [[A-Z]]. *)
Definition char_between (lo hi : ascii) (c : N) : bool :=
  N.leb (N_of_ascii lo) c && N.leb c (N_of_ascii hi).

(** A code point among the characters listed in a class. *)
Definition char_among (chars : string) (c : N) : bool :=
  existsb (N.eqb c) (code_points chars).

(** [re.search] of a one-character class: some character satisfies it. *)
Definition re_search_class (cls : N → bool) (s : list N) : bool :=
  existsb cls s.

(** The characters of the class of the fifth test of [validate_password];
    the double quote is character 34. *)
Definition special_characters : string :=
  "!@#$%^&*(),.?" +:+ String (ascii_of_nat 34) ":{}|<>".

(** The dictionary [validate_password] returns. *)
Record PasswordReport := mkPasswordReport {
  valid : bool;
  errors : list string;
  strength : string
}.

Section Password.

(** The class [\d] of a pattern on [str]: the decimal digits of Unicode, a
    table of the [re] module. *)
Variable unicode_decimal : N → bool.

(** [validate_password], on the code points of the password: [len] counts
    them. *)
Definition validate_password (password : list N) : PasswordReport :=
  let valid := true in
  let errors := [] in
  let '(valid, errors) :=
    if Nat.ltb (length password) 8
    then (false, errors ++ ["Password must be at least 8 characters long"])
    else (valid, errors) in
  let errors :=
    if negb (re_search_class (char_between "A" "Z") password)
    then errors ++ ["Password must contain at least one uppercase letter"]
    else errors in
  let errors :=
    if negb (re_search_class (char_between "a" "z") password)
    then errors ++ ["Password must contain at least one lowercase letter"]
    else errors in
  let errors :=
    if negb (re_search_class unicode_decimal password)
    then errors ++ ["Password must contain at least one number"]
    else errors in
  let errors :=
    if negb (re_search_class (char_among special_characters) password)
    then errors ++ ["Password must contain at least one special character"]
    else errors in
  let valid := if Py.nonempty errors then false else valid in
  let strength :=
    if Nat.leb 12 (length password) && Nat.leb (length errors) 1
    then "strong"
    else if Nat.leb 10 (length password) && Nat.leb (length errors) 2
    then "medium"
    else "weak" in
  mkPasswordReport valid errors strength.

End Password.

(** Digits for the scenarios: the ten of ASCII and the ten Arabic-Indic
    ones, code points 1632 to 1641. *)
Definition two_scripts_decimal (c : N) : bool :=
  char_between "0" "9" c || (N.leb 1632 c && N.leb c 1641).

(** Eight ASCII characters followed by the Arabic-Indic digit three. *)
Definition arabic_digit_password : list N :=
  code_points "Abcdefg!" ++ [1635%N].

(** The slice [text[:n]]. *)
Fixpoint str_prefix (n : nat) (text : string) : string :=
  match n, text with
  | S n', String c text' => String c (str_prefix n' text')
  | _, _ => EmptyString
  end.

(** The loop [while left < right] of [truncate_text], with [lo] and [hi]
    for [left] and [right]; [fits mid] is the test
    [count_tokens(text[:mid], model) <= max_tokens]. *)
Equations? truncate_loop (fits : nat → bool) (lo hi : nat) : nat
    by wf (hi - lo) lt :=
  truncate_loop fits lo hi with decide (lo < hi) := {
    | left _ =>
        if fits (Nat.div (lo + hi + 1) 2)
        then truncate_loop fits (Nat.div (lo + hi + 1) 2) hi
        else truncate_loop fits lo (Nat.div (lo + hi + 1) 2 - 1);
    | right _ => lo
  }.
Proof.
  all: change (fst (Nat.divmod (lo + hi + 1) 1 0 1))
         with (Nat.div (lo + hi + 1) 2);
       pose proof (Nat.div_mod_eq (lo + hi + 1) 2);
       pose proof (Nat.mod_upper_bound (lo + hi + 1) 2); lia.
Qed.

Section Truncate.

(** [len(tiktoken.encoding_for_model(model).encode(text))], which may
    raise. *)
Variable tiktoken_count : string → string → Py.outcome nat.

(** [count_tokens]: the bare [except] falls back to a quarter of the
    length. *)
Definition count_tokens (text model : string) : nat :=
  match tiktoken_count model text with
  | Py.Returned n => n
  | Py.Raised _ => Nat.div (String.length text) 4
  end.

(** [truncate_text] *)
Definition truncate_text (text : string) (max_tokens : Z) (model : string)
    : string :=
  if Z.leb (Z.of_nat (count_tokens text model)) max_tokens then text
  else
    let left :=
      truncate_loop
        (λ mid, Z.leb (Z.of_nat (count_tokens (str_prefix mid text) model))
                      max_tokens)
        0 (String.length text) in
    str_prefix left text.

End Truncate.

(** ** Sentence chunks and file names *)

(** [re.split(cls+, text)], as a first piece and the pieces after it;
    [after_sep] tells that the character before was of the class, so that a
    run of them separates once. *)
Fixpoint re_split_from (cls : ascii → bool) (after_sep : bool) (text : string)
    : string * list string :=
  match text with
  | EmptyString => (EmptyString, [])
  | String c rest =>
      let '(piece, pieces) := re_split_from cls (cls c) rest in
      if cls c then
        if after_sep then (piece, pieces) else (EmptyString, piece :: pieces)
      else (String c piece, pieces)
  end.

Definition re_split (cls : ascii → bool) (text : string) : list string :=
  let '(piece, pieces) := re_split_from cls false text in piece :: pieces.

(** The class [[.!?]] *)
Definition sentence_end (c : ascii) : bool := Py.has_char c ".!?".

(** The body of the loop of [chunk_text_by_sentences] on [chunks] and
    [current_chunk]. *)
Definition sentence_step (max_chunk_size : Z) (st : list string * string)
    (sentence : string) : list string * string :=
  let '(chunks, current_chunk) := st in
  let sentence := Py.strip sentence in
  if negb (Py.truthy sentence) then (chunks, current_chunk)
  else
    let sentence := sentence +:+ "." in
    if Z.leb (Z.of_nat (String.length current_chunk + String.length sentence))
             max_chunk_size
    then (chunks, current_chunk +:+ sentence +:+ " ")
    else
      let chunks :=
        if Py.truthy current_chunk
        then chunks ++ [Py.strip current_chunk] else chunks in
      (chunks, sentence +:+ " ").

(** [chunk_text_by_sentences] *)
Definition chunk_text_by_sentences (text : string) (max_chunk_size : Z)
    : list string :=
  let sentences := re_split sentence_end text in
  let '(chunks, current_chunk) :=
    fold_left (sentence_step max_chunk_size) sentences ([], EmptyString) in
  if Py.truthy current_chunk
  then chunks ++ [Py.strip current_chunk] else chunks.

(** The sentences the loop keeps, each with its full stop. *)
Definition kept_sentences (sentences : list string) : list string :=
  map (λ s, Py.strip s +:+ ".")
      (List.filter (λ s, Py.truthy (Py.strip s)) sentences).

(** Every string followed by a space, in a row. *)
Fixpoint spaced (parts : list string) : string :=
  match parts with
  | [] => EmptyString
  | p :: rest => p +:+ " " +:+ spaced rest
  end.

(** Starts and ends with a character that is not white space. *)
Definition tight (s : string) : Prop :=
  s ≠ EmptyString ∧ Py.strip s = s.

(** What the loop keeps true of [chunks] and [current_chunk], with [done]
    the sentences taken so far: nothing is lost, and a chunk is over the
    size only when it is one sentence. *)
Definition sentence_inv (max_chunk_size : Z) (done : list string)
    (st : list string * string) : Prop :=
  spaced st.1 +:+ st.2 = spaced done
  ∧ (st.2 = EmptyString
     ∨ ∃ x, st.2 = x +:+ " " ∧ tight x
            ∧ ((Z.of_nat (String.length x) ≤ max_chunk_size)%Z ∨ x ∈ done))
  ∧ Forall (λ c, tight c
                 ∧ ((Z.of_nat (String.length c) ≤ max_chunk_size)%Z
                    ∨ c ∈ done)) st.1.

(** The characters of the class of [sanitize_filename]; the double quote is
    character 34. *)
Definition unsafe_characters : string :=
  "<>:" +:+ String (ascii_of_nat 34) "/\|?*".

(** [re.sub(cls, repl, s)] for a class of characters and one character. *)
Fixpoint re_sub_class (cls : ascii → bool) (repl : ascii) (s : string)
    : string :=
  match s with
  | EmptyString => EmptyString
  | String c s' =>
      String (if cls c then repl else c) (re_sub_class cls repl s')
  end.

(** [s.lstrip(chars)] *)
Fixpoint lstrip_chars (chars : string) (s : string) : string :=
  match s with
  | EmptyString => EmptyString
  | String c s' => if Py.has_char c chars then lstrip_chars chars s' else s
  end.

(** [s.rstrip(chars)] *)
Fixpoint rstrip_chars (chars : string) (s : string) : string :=
  match s with
  | EmptyString => EmptyString
  | String c s' =>
      match rstrip_chars chars s' with
      | EmptyString =>
          if Py.has_char c chars then EmptyString else String c EmptyString
      | r => String c r
      end
  end.

(** [s.strip(chars)] *)
Definition strip_chars (chars : string) (s : string) : string :=
  rstrip_chars chars (lstrip_chars chars s).

(** [s.rsplit(sep, 1)] when [sep] occurs in [s]: what is before and after
    its last occurrence. *)
Fixpoint rsplit1 (sep : ascii) (s : string) : option (string * string) :=
  match s with
  | EmptyString => None
  | String c s' =>
      match rsplit1 sep s' with
      | Some (name, ext) => Some (String c name, ext)
      | None => if bool_decide (c = sep) then Some (EmptyString, s') else None
      end
  end.

(** The slice [s[:k]]; a negative [k] counts from the end. *)
Definition str_slice_to (k : Z) (s : string) : string :=
  if Z.ltb k 0
  then str_prefix (Z.to_nat (Z.of_nat (String.length s) + k)) s
  else str_prefix (Z.to_nat k) s.

(** [name, ext = filename.rsplit('.', 1) if '.' in filename else
    (filename, '')] *)
Definition name_and_ext (filename : string) : string * string :=
  if Py.has_char "." filename
  then default (filename, EmptyString) (rsplit1 "." filename)
  else (filename, EmptyString).

(** [sanitize_filename] *)
Definition sanitize_filename (filename : string) : string :=
  let filename :=
    re_sub_class (λ c, Py.has_char c unsafe_characters) "_" filename in
  let filename := strip_chars ". " filename in
  if Nat.ltb 255 (String.length filename)
  then
    let '(name, ext) := name_and_ext filename in
    if Py.truthy ext
    then str_slice_to (255 - Z.of_nat (String.length ext) - 1) name
         +:+ "." +:+ ext
    else str_slice_to 255 name
  else filename.

(** The cleaned name of [sanitize_filename], before its length is
    limited. *)
Definition cleaned_filename (filename : string) : string :=
  strip_chars ". "
    (re_sub_class (λ c, Py.has_char c unsafe_characters) "_" filename).

(** ** More scenarios *)

(** What [get_paper_info] reports of a stored record. *)
Definition meta_of_record (r : PaperChunk.t) : PaperMeta.t :=
  PaperMeta.mk (PaperChunk.paper_title r) (PaperChunk.user_id r)
               (PaperChunk.upload_date r).

(** The chunk [retrieve_by_paper_id] returns for a chunk ingested under the
    given paper and user. *)
Definition retrieved_of_chunk {Dist : Type}
    (paper_id paper_title user_id : string) (c : Chunk.t) : Retrieved.t Dist :=
  Retrieved.mk (Chunk.content c) paper_id paper_title (Chunk.page_number c)
               (Chunk.chunk_index c) None user_id.

(** The laboratory with a reachable store, a given document behind every
    path and a given language model. *)
Definition lab_with (doc : Py.outcome (list string))
    (llm : nat → string → string → Py.outcome string)
    : Collaborators nat nat := {|
  split_text := λ t, [t];
  fitz_pages := λ _, doc;
  path_stem := λ path, splitext_root false (basename path);
  uuid4 := λ t, "uuid-" +:+ pretty t;
  utcnow := λ _, "2026-01-01T00:00:00+00:00";
  embed_query := embed_length;
  backend_fault := λ _, None;
  equal_text := λ operand s, bool_decide (strip_newlines operand = s);
  limit_error := Py.ValueError "limit cannot be non-positive (limit >=1).";
  distance := λ a b, (a - b) + (b - a);
  dist_leb := Nat.leb;
  llm_invoke := llm;
  exit_flushes_after_raise := true
|}.

(** A scanned document: three pages without text. *)
Definition blank_document : Collaborators nat nat :=
  lab_with (Py.Returned ["   "; ""; String (ascii_of_nat 10) " "])
           (λ _ _ _, Py.Returned "an answer").

(** A language model that is out of quota. *)
Definition llm_down : Collaborators nat nat :=
  lab_with (Py.Returned ["alpha"])
           (λ _ _ _, Py.Raised (Py.Exn "ResourceExhausted" "quota exceeded")).

(** The first character is not white space (or there is none). *)
Definition lstripped (s : string) : Prop :=
  match s with
  | EmptyString => True
  | String c _ => Py.isspace c = false
  end.

(** The text of a page as the alternative extractor sees it: [None] reads
    as no text. *)
Definition page_text (page : Py.outcome (option string)) : string :=
  match page with
  | Py.Returned (Some text) => text
  | _ => EmptyString
  end.

(** The states of the fallback accounts a run can reach: the initial one,
    and what a [signup] makes of a state reached before. *)
Inductive reachable_users : gmap string SimpleAuthService.user → Prop :=
  | reachable_init : reachable_users SimpleAuthService.init
  | reachable_signup users email password :
      reachable_users users →
      reachable_users (fst (SimpleAuthService.signup email password users)).

(** A tokenizer that cannot be loaded: [count_tokens] then counts a quarter
    of the characters. *)
Definition no_tiktoken : string → string → Py.outcome nat :=
  λ _ _, Py.Raised (Py.Exn "KeyError" "no tokenizer for this model").

(** A document whose second page breaks pdfplumber, and the same document
    as PyPDF2 reads it. *)
Definition plumber_breaks : string → Py.outcome (list (Py.outcome (option string))) :=
  λ _, Py.Returned [Py.Returned (Some "one");
                    Py.Raised (Py.Exn "PDFSyntaxError" "bad page")].
Definition plumber_reads : string → Py.outcome (list (Py.outcome (option string))) :=
  λ _, Py.Returned [Py.Returned (Some " one "); Py.Returned None;
                    Py.Returned (Some "three")].
Definition pypdf2_reads : string → Py.outcome (list (Py.outcome (option string))) :=
  λ _, Py.Returned [Py.Returned (Some "one"); Py.Returned (Some "two")].

(** A file name of 300 letters and an extension. *)
Definition long_name : string :=
  String.concat EmptyString (replicate 300 "a") +:+ ".pdf".

(** * Properties *)

(** ** White space stripping *)

Lemma app_String c (a b : string) : String c a +:+ b = String c (a +:+ b).
Proof. reflexivity. Qed.

Lemma app_Empty (b : string) : EmptyString +:+ b = b.
Proof. reflexivity. Qed.

Lemma app_Empty_r (a : string) : a +:+ EmptyString = a.
Proof. induction a as [|c a IH]; [done|]. by rewrite app_String, IH. Qed.

Lemma string_app_assoc (a b c : string) : (a +:+ b) +:+ c = a +:+ (b +:+ c).
Proof.
  induction a as [|x a IH]; [done|]. by rewrite !app_String, IH.
Qed.

Lemma lstrip_split (s : string) :
  ∃ pre, s = pre +:+ Py.lstrip s ∧ Py.blank pre = true.
Proof.
  induction s as [|c s IH]; simpl.
  - by exists EmptyString.
  - destruct (Py.isspace c) eqn:Hc.
    + destruct IH as (pre & Heq & Hpre).
      exists (String c pre). simpl. rewrite Hc, Hpre. split; [|done].
      by rewrite app_String, <- Heq.
    + by exists EmptyString.
Qed.

Lemma rstrip_split (s : string) :
  ∃ suf, s = Py.rstrip s +:+ suf ∧ Py.blank suf = true.
Proof.
  induction s as [|c s IH]; simpl.
  - by exists EmptyString.
  - destruct IH as (suf & Heq & Hsuf).
    destruct (Py.rstrip s) as [|c' r] eqn:Hr.
    + rewrite app_Empty in Heq. subst suf.
      destruct (Py.isspace c) eqn:Hc.
      * exists (String c s). simpl. by rewrite Hc, Hsuf.
      * exists s. by rewrite app_String, app_Empty.
    + exists suf. split; [|done]. by rewrite app_String, <- Heq.
Qed.

(** [s.strip()] is [s] without a blank prefix and a blank suffix. *)
Lemma strip_infix (s : string) :
  ∃ pre suf, s = pre +:+ Py.strip s +:+ suf
             ∧ Py.blank pre = true ∧ Py.blank suf = true.
Proof.
  destruct (lstrip_split s) as (pre & Hs & Hpre).
  destruct (rstrip_split (Py.lstrip s)) as (suf & Hl & Hsuf).
  exists pre, suf. unfold Py.strip. by rewrite <- Hl, <- Hs.
Qed.

(** ** The chunker *)

Section ChunkerFacts.

Context {Vec Dist : Type} {C : Collaborators Vec Dist}.

Lemma number_from_app k (a b : list (Z * string)) :
  number_from k (a ++ b) = number_from k a ++ number_from (k + length a) b.
Proof.
  revert k. induction a as [|[pn c] a IH]; intros k; simpl.
  - by rewrite Nat.add_0_r.
  - rewrite IH. do 3 f_equal. lia.
Qed.

Lemma number_from_length k l : length (number_from k l) = length l.
Proof.
  revert k. induction l as [|[pn c] l IH]; intros k; simpl; [done|].
  by rewrite IH.
Qed.

Lemma number_from_index k l :
  map Chunk.chunk_index (number_from k l) = seq k (length l).
Proof.
  revert k. induction l as [|[pn c] l IH]; intros k; simpl; [done|].
  by rewrite IH.
Qed.

Lemma number_from_reindex k l :
  number_from k l = map (Chunk.reindex k) (number_from 0 l).
Proof.
  assert (∀ j, number_from (k + j) l
               = map (Chunk.reindex k) (number_from j l)) as Hgen.
  { induction l as [|[pn c] l IH]; intros j; simpl; [done|].
    unfold Chunk.reindex at 1. simpl. f_equal.
    rewrite <- IH. f_equal. lia. }
  specialize (Hgen 0). by rewrite Nat.add_0_r in Hgen.
Qed.

(** The inner loop appends the surviving pieces of one page, numbered from
    the current [chunk_index]. *)
Lemma chunk_step_fold page pieces chunks chunk_index :
  fold_left (chunk_step (Page.page_number page)) pieces (chunks, chunk_index)
  = let kept :=
      map (λ piece, (Page.page_number page, Py.strip piece))
          (filter (λ piece, Py.truthy (Py.strip piece) = true) pieces) in
    (chunks ++ number_from chunk_index kept, chunk_index + length kept).
Proof.
  revert chunks chunk_index.
  induction pieces as [|piece pieces IH]; intros chunks k; simpl.
  - by rewrite app_nil_r, Nat.add_0_r.
  - rewrite filter_cons. destruct (Py.truthy (Py.strip piece)) eqn:Ht.
    + rewrite decide_True by done. rewrite IH. simpl.
      rewrite <- app_assoc. simpl. f_equal. lia.
    + rewrite decide_False by done. by rewrite IH.
Qed.

Lemma chunk_loop_spec pages chunks chunk_index :
  chunk_loop pages (chunks, chunk_index)
  = (chunks ++ number_from chunk_index (emitted pages),
     chunk_index + length (emitted pages)).
Proof.
  revert chunks chunk_index.
  induction pages as [|page pages IH]; intros chunks k; simpl.
  - by rewrite app_nil_r, Nat.add_0_r.
  - unfold chunk_loop in *. simpl. unfold page_step at 2.
    rewrite chunk_step_fold. cbv zeta. rewrite IH.
    fold (kept_pieces page). rewrite number_from_app, length_app.
    rewrite <- app_assoc. f_equal. lia.
Qed.

Lemma chunk_text_spec pages : chunk_text pages = number_from 0 (emitted pages).
Proof. unfold chunk_text. by rewrite chunk_loop_spec. Qed.

Lemma alt_chunk_text_eq pages : alt_chunk_text pages = chunk_text pages.
Proof. reflexivity. Qed.

Lemma chunk_text_app ps1 ps2 :
  chunk_text (ps1 ++ ps2)
  = chunk_text ps1
    ++ map (Chunk.reindex (length (chunk_text ps1))) (chunk_text ps2).
Proof.
  rewrite !chunk_text_spec. unfold emitted. rewrite flat_map_app.
  rewrite number_from_app, number_from_length. simpl.
  by rewrite <- number_from_reindex.
Qed.

Lemma number_from_elem k l c :
  c ∈ number_from k l → (Chunk.page_number c, Chunk.content c) ∈ l.
Proof.
  revert k. induction l as [|[pn s] l IH]; intros k; simpl.
  - by intros ?%elem_of_nil.
  - intros [->|Hc]%elem_of_cons; [by left|]. right. by eapply IH.
Qed.

Lemma emitted_elem pages pn s :
  (pn, s) ∈ emitted pages →
  ∃ page piece, page ∈ pages ∧ piece ∈ split_text (Page.text page)
                ∧ pn = Page.page_number page ∧ s = Py.strip piece
                ∧ Py.truthy s = true.
Proof.
  unfold emitted. rewrite list_elem_of_In, in_flat_map.
  intros (page & Hpage & Hin). unfold kept_pieces in Hin.
  apply in_map_iff in Hin as (piece & [= <- <-] & Hpiece).
  apply list_elem_of_In, list_elem_of_filter in Hpiece as [Ht Hpiece].
  exists page, piece. by rewrite list_elem_of_In.
Qed.

(** C5: [chunk_index] runs over the whole document in emission order: the
    emitted chunks are the pieces that are non-empty after stripping
    ([emitted]: the blank ones are filtered out and take no index), numbered
    0, 1, ..., N-1, and the numbering goes on from one page to the next
    instead of starting again. *)
Theorem chunk_index_contiguous (pages more : list Page.t) :
  chunk_text pages = number_from 0 (emitted pages)
  ∧ length (chunk_text pages) = length (emitted pages)
  ∧ map Chunk.chunk_index (chunk_text pages)
    = seq 0 (length (chunk_text pages))
  ∧ map Chunk.chunk_index (chunk_text (pages ++ more))
    = seq 0 (length (chunk_text pages))
      ++ seq (length (chunk_text pages)) (length (chunk_text more)).
Proof.
  assert (∀ ps, map Chunk.chunk_index (chunk_text ps)
                = seq 0 (length (chunk_text ps))) as Hseq.
  { intros ps. rewrite chunk_text_spec.
    by rewrite number_from_index, number_from_length. }
  split; [apply chunk_text_spec|].
  split; [by rewrite chunk_text_spec, number_from_length|].
  split; [apply Hseq|].
  rewrite Hseq, chunk_text_app, length_app, length_map.
  by rewrite seq_app.
Qed.

(** C6: every emitted chunk carries the page number of one page of the
    input and its content is a stripped piece of the split of that page's
    text alone (hence a part of that text's piece, up to the blank ends), for
    both chunkers; the chunks of a page do not depend on the pages around it:
    in any document they are the chunks the page yields on its own, so
    nothing, overlap included, comes from a neighbouring page. *)
Theorem chunk_page_attribution (pages : list Page.t) :
  let from_one_page (c : Chunk.t) :=
    ∃ page piece pre suf,
      page ∈ pages ∧ piece ∈ split_text (Page.text page)
      ∧ Chunk.page_number c = Page.page_number page
      ∧ Chunk.content c = Py.strip piece
      ∧ piece = pre +:+ Chunk.content c +:+ suf
      ∧ Py.blank pre = true ∧ Py.blank suf = true in
  Forall from_one_page (chunk_text pages)
  ∧ Forall from_one_page (alt_chunk_text pages)
  ∧ ∀ before page after,
      let n := length (chunk_text before) in
      let m := length (chunk_text [page]) in
      chunk_text (before ++ page :: after)
      = chunk_text before
        ++ map (Chunk.reindex n) (chunk_text [page])
        ++ map (Chunk.reindex (n + m)) (chunk_text after)
      ∧ alt_chunk_text (before ++ page :: after)
        = alt_chunk_text before
          ++ map (Chunk.reindex n) (alt_chunk_text [page])
          ++ map (Chunk.reindex (n + m)) (alt_chunk_text after).
Proof.
  intros from_one_page.
  assert (Forall from_one_page (chunk_text pages)) as Hall.
  { apply Forall_forall. intros c Hc. rewrite chunk_text_spec in Hc.
    apply number_from_elem, emitted_elem in Hc
      as (page & piece & Hpage & Hpiece & Hpn & Hs & _).
    destruct (strip_infix piece) as (pre & suf & Heq & Hpre & Hsuf).
    exists page, piece, pre, suf. repeat split; try done. congruence. }
  split; [done|]. split; [by rewrite alt_chunk_text_eq|].
  intros before page after n m.
  repeat match goal with
         | |- context [alt_chunk_text ?x] =>
             change (alt_chunk_text x) with (chunk_text x)
         end.
  assert (chunk_text (before ++ page :: after)
          = chunk_text before
            ++ map (Chunk.reindex n) (chunk_text [page])
            ++ map (Chunk.reindex (n + m)) (chunk_text after)) as Heq; [|done].
  change (page :: after) with ([page] ++ after).
  rewrite chunk_text_app. fold n. f_equal.
  rewrite chunk_text_app. fold m. rewrite map_app, map_map. f_equal.
  apply map_ext. intros c. unfold Chunk.reindex. simpl. f_equal. lia.
Qed.

End ChunkerFacts.

(** ** Loops that skip what they have seen *)

Lemma first_by_map {A B} `{EqDecision B} (f : A → B) seen (l : list A) :
  first_by id seen (map f l) = map f (first_by f seen l).
Proof.
  revert seen. induction l as [|x l IH]; intros seen; simpl; [done|].
  unfold id at 1. destruct (decide (f x ∈ seen)); simpl; by rewrite IH.
Qed.

Lemma first_by_elem {A K} `{EqDecision K} (key : A → K) seen l x :
  x ∈ first_by key seen l → x ∈ l ∧ key x ∉ seen.
Proof.
  revert seen. induction l as [|y l IH]; intros seen; simpl.
  - by intros ?%elem_of_nil.
  - destruct (decide (key y ∈ seen)) as [Hy|Hy].
    + intros [??]%IH. split; [by right | done].
    + intros [->|Hx]%elem_of_cons; [split; [by left | done]|].
      apply IH in Hx as [? Hnot]. split; [by right|].
      intros ?. apply Hnot. by right.
Qed.

Lemma first_by_complete {A K} `{EqDecision K} (key : A → K) seen l x :
  x ∈ l → key x ∉ seen → key x ∈ map key (first_by key seen l).
Proof.
  revert seen. induction l as [|y l IH]; intros seen; simpl.
  - by intros ?%elem_of_nil.
  - intros [->|Hx]%elem_of_cons Hnot.
    + rewrite decide_False by done. simpl. by left.
    + destruct (decide (key y ∈ seen)); [by apply IH|]. simpl.
      destruct (decide (key x = key y)) as [->|Hne]; [by left|].
      right. apply IH; [done|]. by intros [?|?]%elem_of_cons.
Qed.

Lemma first_by_NoDup {A K} `{EqDecision K} (key : A → K) seen l :
  NoDup (map key (first_by key seen l)).
Proof.
  revert seen. induction l as [|y l IH]; intros seen; simpl.
  - constructor.
  - destruct (decide (key y ∈ seen)); [done|]. simpl. constructor; [|done].
    rewrite list_elem_of_In, in_map_iff. intros (x & Hkey & Hx).
    apply list_elem_of_In, first_by_elem in Hx as [_ Hnot].
    apply Hnot. rewrite Hkey. by left.
Qed.

(** A loop over [l] that keeps a list of results and a set of string keys,
    and appends [f x] when the key [k x] is not in the set, computes
    [first_by] for any key [k2] that identifies the same elements as [k]. *)
Lemma seen_loop_spec {A B K} `{EqDecision K}
    (k : A → string) (k2 : A → K) (f : A → B)
    (step : list B * gset string → A → list B * gset string) :
  (∀ acc seen x,
     step (acc, seen) x
     = if decide (k x ∉ seen) then (acc ++ [f x], seen ∪ {[k x]})
       else (acc, seen)) →
  (∀ x y, k x = k y ↔ k2 x = k2 y) →
  ∀ l acc seen seen2,
    (∀ x, k x ∈ seen ↔ k2 x ∈ seen2) →
    fst (fold_left step l (acc, seen)) = acc ++ map f (first_by k2 seen2 l).
Proof.
  intros Hstep Hkey. induction l as [|x l IH]; intros acc seen seen2 Hseen.
  - simpl. by rewrite app_nil_r.
  - simpl. rewrite Hstep. destruct (decide (k x ∉ seen)) as [Hx|Hx].
    + rewrite decide_False by (by rewrite <- Hseen).
      rewrite (IH _ _ (k2 x :: seen2)).
      * by rewrite <- app_assoc.
      * intros y. rewrite elem_of_union, elem_of_singleton, elem_of_cons.
        rewrite Hseen, Hkey. tauto.
    + apply dec_stable in Hx. rewrite decide_True by (by rewrite <- Hseen).
      by apply IH.
Qed.

(** ** The vector store and the retriever *)

Section RetrieverFacts.

Context {Vec Dist : Type} {C : Collaborators Vec Dist}.

Lemma insert_by_elem v o l x : x ∈ insert_by v o l ↔ x = o ∨ x ∈ l.
Proof.
  induction l as [|o' l IH]; simpl.
  - by rewrite !elem_of_cons.
  - destruct (dist_leb _ _); [by rewrite !elem_of_cons|].
    rewrite !elem_of_cons, IH. tauto.
Qed.

Lemma nearest_elem v l x : x ∈ nearest v l ↔ x ∈ l.
Proof.
  unfold nearest. induction l as [|o l IH]; simpl; [done|].
  by rewrite insert_by_elem, IH, elem_of_cons.
Qed.

Lemma nearest_length v l : length (nearest v l) = length l.
Proof.
  assert (∀ o l', length (insert_by v o l') = S (length l')) as Hins.
  { intros o l'. induction l' as [|o' l' IH]; simpl; [done|].
    destruct (dist_leb _ _); simpl; [done | by rewrite IH]. }
  unfold nearest. induction l as [|o l IH]; simpl; [done|].
  by rewrite Hins, IH.
Qed.

Lemma matches_user_id u o :
  matches (Equal "user_id" u) o = equal_text u (PaperChunk.user_id o).
Proof. reflexivity. Qed.

Lemma matches_paper_id p o :
  matches (Equal "paper_id" p) o = equal_text p (PaperChunk.paper_id o).
Proof. reflexivity. Qed.

Lemma matches_paper_and_user p u o :
  matches (And [Equal "paper_id" p; Equal "user_id" u]) o
  = equal_text p (PaperChunk.paper_id o)
    && equal_text u (PaperChunk.user_id o).
Proof.
  change (matches (And [Equal "paper_id" p; Equal "user_id" u]) o)
    with (matches (Equal "paper_id" p) o
          && (matches (Equal "user_id" u) o && true)).
  by rewrite andb_true_r.
Qed.

Lemma with_limit_pos n q :
  (1 ≤ n)%nat →
  with_limit n q
  = Py.Returned (mkQuery (q_class q) (q_properties q) (q_near_vector q)
                         (q_where q) (Some n) (q_additional q)).
Proof.
  intros Hn. unfold with_limit.
  destruct (Nat.ltb_spec n 1) as [?|_]; [lia|done].
Qed.

Lemma with_limit_zero q : with_limit 0 q = Py.Raised limit_error.
Proof. reflexivity. Qed.

(** What [with_limit] returns has the limit it was given and is otherwise
    the query it was given. *)
Lemma with_limit_returned n q q' :
  with_limit n q = Py.Returned q' →
  (1 ≤ n)%nat
  ∧ q' = mkQuery (q_class q) (q_properties q) (q_near_vector q) (q_where q)
                 (Some n) (q_additional q).
Proof.
  unfold with_limit. destruct (Nat.ltb_spec n 1) as [?|?]; [done|].
  by intros [= <-].
Qed.

(** Every item of an answer comes from a stored object that passes the
    [where] filter of the query. *)
Lemma answer_elem q objs it :
  it ∈ answer q objs →
  ∃ o, o ∈ objs ∧ item it = data_object o
       ∧ ∀ f, q_where q = Some f → matches f (data_object o) = true.
Proof.
  unfold answer. rewrite list_elem_of_In, in_map_iff.
  intros (o & <- & Ho). exists o. simpl.
  assert (o ∈ match q_near_vector q with
              | Some v =>
                  nearest v
                    match q_where q with
                    | Some f => List.filter (λ o, matches f (data_object o)) objs
                    | None => objs
                    end
              | None =>
                  match q_where q with
                  | Some f => List.filter (λ o, matches f (data_object o)) objs
                  | None => objs
                  end
              end) as Hranked.
  { destruct (q_limit q); [|by apply list_elem_of_In].
    eapply subseteq_take. by apply list_elem_of_In. }
  assert (o ∈ match q_where q with
              | Some f => List.filter (λ o, matches f (data_object o)) objs
              | None => objs
              end) as Hhits.
  { destruct (q_near_vector q); [by apply nearest_elem in Hranked | done]. }
  destruct (q_where q) as [f|].
  - apply list_elem_of_In, filter_In in Hhits as [Hin Hm].
    split; [by apply list_elem_of_In|]. split; [done|]. by intros ? [= <-].
  - split; [done|]. split; [done|]. by intros ? [=].
Qed.

(** A query whose filter no stored object passes has an empty answer. *)
Lemma answer_no_match q objs f :
  q_where q = Some f →
  Forall (λ o, matches f (data_object o) = false) objs →
  answer q objs = [].
Proof.
  intros Hf Hnone. unfold answer. rewrite Hf.
  assert (List.filter (λ o, matches f (data_object o)) objs = []) as ->.
  { induction Hnone as [|o objs Ho _ IH]; simpl; [done|]. by rewrite Ho. }
  destruct (q_near_vector q), (q_limit q); simpl; by rewrite ?take_nil.
Qed.

Lemma vector_search_selected text U1 top_k w w' chunks :
  vector_search text U1 top_k w = (w', Py.Returned chunks) →
  Forall (selected_for w U1) chunks.
Proof.
  unfold vector_search, do.
  destruct (embed_query (clock w) text) as [v|e]; [|by intros [=]].
  destruct (with_limit top_k _) as [q|e] eqn:Hq; [|by intros [=]].
  apply with_limit_returned in Hq as [_ ->].
  cbn [clock tick]. destruct (backend_fault _); [by intros [=]|].
  cbn [paper_chunks tick].
  destruct (paper_chunks w) as [objs|] eqn:Hobjs; [|by intros [=]].
  intros [= _ <-]. destruct (answer _ objs) as [|it0 items] eqn:Hitems.
  { constructor. }
  cbn [Py.nonempty]. rewrite <- Hitems. clear Hitems.
  apply Forall_forall. intros c Hc.
  apply list_elem_of_In, in_map_iff in Hc as (it & <- & Hit).
  apply list_elem_of_In, answer_elem in Hit as (o & Ho & Hitem & Hwhere).
  specialize (Hwhere _ eq_refl). rewrite matches_user_id in Hwhere.
  unfold selected_for, stored. rewrite Hobjs. destruct it as [props d].
  simpl in *. subst props. split; [done|]. by exists o.
Qed.




Lemma answer_nil q : answer q [] = [].
Proof.
  unfold answer. destruct (q_where q), (q_near_vector q), (q_limit q);
    simpl; by rewrite ?take_nil.
Qed.

(** When no stored record passes the filter of a query, the query, if it
    returns, returns no item. *)
Lemma do_no_match q f w w' items :
  q_where q = Some f →
  Forall (λ r, matches f r = false) (stored_records w) →
  do q w = (w', Py.Returned items) → items = [].
Proof.
  intros Hf Hnone. unfold do. destruct (backend_fault _); [by intros [=]|].
  unfold stored_records, stored in Hnone.
  destruct (paper_chunks w) as [objs|]; [|by intros [=]].
  simpl in Hnone. intros [= _ <-]. apply (answer_no_match _ _ f Hf).
  by apply Forall_map in Hnone.
Qed.

Lemma vector_search_no_match text U1 top_k w w' chunks :
  Forall (λ r, equal_text U1 (PaperChunk.user_id r) = false)
         (stored_records w) →
  vector_search text U1 top_k w = (w', Py.Returned chunks) → chunks = [].
Proof.
  intros Hnone. unfold vector_search.
  destruct (embed_query _ _); [|by intros [=]].
  destruct (with_limit top_k _) as [q|e] eqn:Hq; [|by intros [=]].
  apply with_limit_returned in Hq as [_ ->].
  destruct (do _ (tick w)) as [w1 [items|e]] eqn:Hdo; [|by intros [=]].
  apply (do_no_match _ (Equal "user_id" U1)) in Hdo as ->; [|done|done].
  by intros [= _ <-].
Qed.

(** When the store selects no stored record for the user, or for the paper
    and the user, the retrievals return the empty list. *)
Lemma no_match_retrieval (text paper_id user_id : string) (top_k : nat)
    (w : World Vec) :
  (Forall (λ r, equal_text user_id (PaperChunk.user_id r) = false)
          (stored_records w) →
   snd (retrieve_relevant_chunks text user_id top_k w) = Py.Returned []
   ∧ snd (search_similar_chunks text user_id top_k w) = Py.Returned []
   ∧ snd (get_user_papers user_id w) = Py.Returned [])
  ∧ (Forall (λ r, equal_text paper_id (PaperChunk.paper_id r)
                  && equal_text user_id (PaperChunk.user_id r) = false)
            (stored_records w) →
     snd (retrieve_by_paper_id paper_id user_id top_k w) = Py.Returned []).
Proof.
  split.
  - intros Hnone. repeat split.
    + unfold retrieve_relevant_chunks.
      destruct (vector_search _ _ _ w) as [? [?|?]] eqn:Hs; [|done].
      by apply vector_search_no_match in Hs as ->.
    + unfold search_similar_chunks.
      destruct (vector_search _ _ _ w) as [? [?|?]] eqn:Hs; [|done].
      by apply vector_search_no_match in Hs as ->.
    + unfold get_user_papers. rewrite with_limit_pos by lia.
      destruct (do _ w) as [? [?|?]] eqn:Hdo; [|done].
      by apply (do_no_match _ (Equal "user_id" user_id)) in Hdo as ->.
  - intros Hnone. unfold retrieve_by_paper_id.
    destruct (with_limit top_k _) as [q|e] eqn:Hq; [|done].
    apply with_limit_returned in Hq as [_ ->].
    destruct (do _ w) as [? [?|?]] eqn:Hdo; [|done].
    apply (do_no_match _ (And [Equal "paper_id" paper_id;
                                Equal "user_id" user_id])) in Hdo as ->;
      [done|done|].
    eapply Forall_impl; [exact Hnone|]. intros r Hr.
    by rewrite matches_paper_and_user.
Qed.


(** A vector search whose request to the store fails raises, and prints
    nothing itself. *)
Lemma vector_search_down text U1 top_k w e :
  backend_fault (S (clock w)) = Some e →
  ∃ w' e', vector_search text U1 top_k w = (w', Py.Raised e')
           ∧ stdout w' = stdout w.
Proof.
  intros Hdown. unfold vector_search, do.
  destruct (embed_query _ _) as [v|e']; [|by eexists _, _].
  destruct (with_limit top_k _) as [q|e']; [|by eexists _, _].
  cbn [clock tick]. rewrite Hdown. by eexists _, _.
Qed.

(** C2 (as amended): when the request an operation sends to the store
    fails, the operation catches the exception, prints a line and returns the
    empty list; a vector search sends its request after the embedding
    request, an exact-match read sends it first.  None of the three ever
    raises; and the empty list is also what each returns when the store
    selects no stored chunk for the filter, so the caller cannot tell the two
    apart by the returned value. *)
Theorem retrieval_swallows_backend_failure
    (text user_id paper_id : string) (top_k : nat) (w : World Vec)
    (e : Py.exn) :
  (backend_fault (S (clock w)) = Some e →
   (snd (retrieve_relevant_chunks text user_id top_k w) = Py.Returned []
    ∧ ∃ msg, stdout (fst (retrieve_relevant_chunks text user_id top_k w))
             = stdout w ++ ["Error retrieving chunks: " +:+ msg])
   ∧ (snd (search_similar_chunks text user_id top_k w) = Py.Returned []
      ∧ ∃ msg, stdout (fst (search_similar_chunks text user_id top_k w))
               = stdout w ++ ["Error searching similar chunks: " +:+ msg]))
  ∧ (backend_fault (clock w) = Some e →
     retrieve_by_paper_id paper_id user_id top_k w
     = if Nat.ltb top_k 1
       then (print ("Error retrieving chunks by paper ID: "
                    +:+ Py.exn_msg limit_error) w,
             Py.Returned [])
       else (print ("Error retrieving chunks by paper ID: " +:+ Py.exn_msg e)
                   (tick w),
             Py.Returned []))
  ∧ (∀ w0 : World Vec,
       Py.raised (snd (retrieve_relevant_chunks text user_id top_k w0)) = false
       ∧ Py.raised (snd (search_similar_chunks text user_id top_k w0)) = false
       ∧ Py.raised (snd (retrieve_by_paper_id paper_id user_id top_k w0))
         = false)
  ∧ (∀ w0 : World Vec,
       Forall (λ r, equal_text user_id (PaperChunk.user_id r) = false)
              (stored_records w0) →
       snd (retrieve_relevant_chunks text user_id top_k w0) = Py.Returned []
       ∧ snd (search_similar_chunks text user_id top_k w0) = Py.Returned [])
  ∧ (∀ w0 : World Vec,
       Forall (λ r, equal_text paper_id (PaperChunk.paper_id r)
                    && equal_text user_id (PaperChunk.user_id r) = false)
              (stored_records w0) →
       snd (retrieve_by_paper_id paper_id user_id top_k w0)
       = Py.Returned []).
Proof.
  split; [|split; [|split; [|split]]].
  - intros Hdown.
    destruct (vector_search_down text user_id top_k w e Hdown)
      as (w' & e' & Hsearch & Hout).
    unfold retrieve_relevant_chunks, search_similar_chunks.
    rewrite Hsearch. simpl. rewrite Hout.
    split; (split; [done|by exists (Py.exn_msg e')]).
  - intros Hdown. unfold retrieve_by_paper_id, with_limit, do.
    destruct (Nat.ltb top_k 1); [done|]. by rewrite Hdown.
  - intros w0. repeat split.
    + unfold retrieve_relevant_chunks.
      by destruct (vector_search _ _ _ w0) as [? [?|?]].
    + unfold search_similar_chunks.
      by destruct (vector_search _ _ _ w0) as [? [?|?]].
    + unfold retrieve_by_paper_id.
      destruct (with_limit top_k _); [|done].
      by destruct (do _ w0) as [? [?|?]].
  - intros w0 Hnone.
    destruct (proj1 (no_match_retrieval text paper_id user_id top_k w0) Hnone)
      as (? & ? & _). done.
  - intros w0 Hnone.
    exact (proj2 (no_match_retrieval text paper_id user_id top_k w0) Hnone).
Qed.

Lemma answer_exact_scan q objs f n :
  q_where q = Some f → q_near_vector q = None → q_limit q = Some n →
  map item (answer q objs)
  = map data_object (take n (List.filter (λ o, matches f (data_object o)) objs)).
Proof.
  intros Hf Hv Hn. unfold answer. rewrite Hf, Hv, Hn, map_map. done.
Qed.

Lemma filter_map_records {A B} (f : B → bool) (g : A → B) (l : list A) :
  List.filter f (map g l) = map g (List.filter (λ x, f (g x)) l).
Proof.
  induction l as [|x l IH]; simpl; [done|].
  destruct (f (g x)); simpl; by rewrite IH.
Qed.

(** When the store answers a limit of at least 1, [retrieve_by_paper_id]
    returns the first [top_k] stored records the store selects for the paper
    and the user. *)
Lemma retrieve_by_paper_id_spec paper_id user_id top_k w objs :
  (1 ≤ top_k)%nat →
  backend_fault (clock w) = None → paper_chunks w = Some objs →
  retrieve_by_paper_id paper_id user_id top_k w
  = (tick w,
     Py.Returned
       (map retrieved_of_record
          (take top_k (records_of_paper paper_id user_id (stored_records w))))).
Proof.
  intros Hk Hup Hobjs. unfold retrieve_by_paper_id.
  rewrite with_limit_pos by done. unfold do. rewrite Hup, Hobjs.
  f_equal. f_equal. set (q := mkQuery _ _ _ _ _ _).
  assert (map item (answer q objs)
          = take top_k (records_of_paper paper_id user_id (stored_records w)))
    as Hitems.
  { rewrite (answer_exact_scan q objs
               (And [Equal "paper_id" paper_id; Equal "user_id" user_id])
               top_k) by done.
    unfold records_of_paper, stored_records, stored. rewrite Hobjs.
    change (default [] (Some objs)) with objs.
    rewrite filter_map_records, firstn_map. do 2 f_equal.
    apply filter_ext. intros o. cbv beta. apply matches_paper_and_user. }
  rewrite <- Hitems.
  assert (∀ items : list (Item (Dist:=Dist)),
            map chunk_of_item_exact items
            = map retrieved_of_record (map item items)) as Hmap.
  { intros items. rewrite map_map. done. }
  destruct (answer q objs) as [|it items]; [done|].
  cbn [Py.nonempty]. apply Hmap.
Qed.

(** When the store answers, the listing is computed from the first 1000
    objects the store selects for the user and from nothing else. *)
Lemma get_user_papers_spec user_id w objs :
  backend_fault (clock w) = None → paper_chunks w = Some objs →
  get_user_papers user_id w
  = (tick w, Py.Returned (distinct_papers (first_window user_id objs))).
Proof.
  intros Hup Hobjs. unfold get_user_papers.
  rewrite with_limit_pos by lia. unfold do. rewrite Hup, Hobjs.
  f_equal. f_equal.
  set (q := mkQuery _ _ _ _ _ _).
  assert (map item (answer q objs) = first_window user_id objs) as Hitems.
  { rewrite (answer_exact_scan q objs (Equal "user_id" user_id) 1000)
      by done.
    unfold first_window. do 2 f_equal. }
  rewrite <- Hitems. clear Hitems.
  destruct (answer q objs) as [|it items] eqn:Hans; [done|].
  cbn [Py.nonempty]. rewrite <- Hans. clear Hans.
  unfold distinct_papers.
  rewrite (seen_loop_spec (λ it, PaperChunk.paper_id (item it))
             (λ it, PaperChunk.paper_id (item it))
             (λ it, PaperInfo.mk (PaperChunk.paper_id (item it))
                      (PaperChunk.paper_title (item it))
                      (PaperChunk.upload_date (item it)))
             papers_step) with (seen2 := []).
  - simpl. generalize (@nil string) as seen.
    induction (answer q objs) as [|x l IH]; intros seen; simpl; [done|].
    destruct (decide (_ ∈ seen)); simpl; by rewrite IH.
  - intros acc seen x. unfold papers_step. by destruct (decide _).
  - done.
  - intros x. by rewrite elem_of_empty, elem_of_nil.
Qed.

End RetrieverFacts.

(** ** Decimal numerals and the keys built from them *)

Lemma has_char_app c (a b : string) :
  Py.has_char c (a +:+ b) = Py.has_char c a || Py.has_char c b.
Proof.
  induction a as [|x a IH]; [done|].
  rewrite app_String. simpl. by rewrite IH, orb_assoc.
Qed.

Lemma pretty_N_go_underscore (x : N) (s : string) :
  Py.has_char "_" s = false → Py.has_char "_" (pretty_N_go x s) = false.
Proof.
  revert s. induction (N.lt_wf_0 x) as [x _ IH]; intros s Hs.
  assert (x = 0 ∨ 0 < x)%N as [->|Hpos] by lia.
  - by rewrite pretty_N_go_0.
  - rewrite pretty_N_go_step by done. apply IH.
    { by apply N.div_lt. }
    simpl. rewrite Hs. unfold pretty_N_char. by repeat case_match.
Qed.

(** A decimal numeral holds no underscore. *)
Lemma str_underscore (n : Z) : Py.has_char "_" (Py.str n) = false.
Proof.
  assert (∀ p : positive, Py.has_char "_" (pretty p) = false) as Hpos.
  { intros p. unfold pretty, pretty_positive, pretty, pretty_N.
    case_decide; [done|]. by apply pretty_N_go_underscore. }
  unfold Py.str, pretty, pretty_Z. destruct n as [|p|p]; [done|apply Hpos|].
  rewrite has_char_app, Hpos. done.
Qed.

(** The last underscore of [title_number] separates the two parts. *)
Lemma underscore_key_inj (t1 t2 d1 d2 : string) :
  Py.has_char "_" d1 = false → Py.has_char "_" d2 = false →
  t1 +:+ "_" +:+ d1 = t2 +:+ "_" +:+ d2 → t1 = t2 ∧ d1 = d2.
Proof.
  intros H1 H2. revert t2.
  induction t1 as [|c t1 IH]; intros [|c' t2]; rewrite ?app_String, ?app_Empty.
  - by intros [= ->].
  - intros [= <- ->]. rewrite !has_char_app in H1. simpl in H1.
    by rewrite orb_true_r in H1.
  - intros [= -> <-]. rewrite !has_char_app in H2. simpl in H2.
    by rewrite orb_true_r in H2.
  - intros [= -> Heq]. by destruct (IH _ Heq) as [-> ->].
Qed.

(** ** Answer generation *)

Section ChainFacts.

Context {Vec Dist : Type} {C : Collaborators Vec Dist}.

(** The string key identifies the title and page pair. *)
Lemma source_key_inj (c1 c2 : Retrieved.t Dist) :
  source_key c1 = source_key c2 ↔ source_of c1 = source_of c2.
Proof.
  unfold source_key, source_of. split.
  - intros Heq. apply underscore_key_inj in Heq as [-> Hpage];
      [|apply str_underscore..].
    apply (inj pretty) in Hpage. by rewrite Hpage.
  - by intros [= -> ->].
Qed.

Lemma extract_sources_spec (chunks : list (Retrieved.t Dist)) :
  _extract_sources chunks = citations_spec (map source_of chunks).
Proof.
  unfold _extract_sources, citations_spec.
  rewrite (seen_loop_spec source_key source_of source_of sources_step)
    with (seen2 := []).
  - simpl. by rewrite first_by_map.
  - intros acc seen x. unfold sources_step. by destruct (decide _).
  - apply source_key_inj.
  - intros x. by rewrite elem_of_empty, elem_of_nil.
Qed.

(** C7: citation extraction goes through the chunks in order and keeps the
    pair of a chunk unless the same (paper, page) pair has been emitted
    before ([citations_spec]); the result has no repeat, holds exactly the
    pairs of the chunks, and on (PaperA,1), (PaperA,1), (PaperA,2),
    (PaperB,1) it is (PaperA,1), (PaperA,2), (PaperB,1). *)
Theorem extract_sources_dedup (chunks : list (Retrieved.t Dist)) :
  _extract_sources chunks = citations_spec (map source_of chunks)
  ∧ NoDup (_extract_sources chunks)
  ∧ (∀ s, s ∈ _extract_sources chunks ↔ s ∈ map source_of chunks)
  ∧ _extract_sources (Dist:=Dist)
      [chunk_at "PaperA" 1; chunk_at "PaperA" 1; chunk_at "PaperA" 2;
       chunk_at "PaperB" 1]
    = [Source.mk "PaperA" 1; Source.mk "PaperA" 2; Source.mk "PaperB" 1].
Proof.
  split; [apply extract_sources_spec|].
  split.
  { rewrite extract_sources_spec. unfold citations_spec.
    rewrite <- (map_id (first_by id [] _)). apply first_by_NoDup. }
  split.
  { intros s. rewrite extract_sources_spec. unfold citations_spec. split.
    - by intros [? _]%first_by_elem.
    - intros Hs.
      apply (first_by_complete id []) in Hs; [|by intros ?%elem_of_nil].
      by rewrite map_id in Hs. }
  rewrite extract_sources_spec. reflexivity.
Qed.

Lemma do_llm_log q (w : World Vec) : llm_log (fst (do q w)) = llm_log w.
Proof.
  unfold do. destruct (backend_fault _); [done|].
  by destruct (paper_chunks w).
Qed.

Lemma vector_search_llm_log text U1 top_k (w : World Vec) :
  llm_log (fst (vector_search text U1 top_k w)) = llm_log w.
Proof.
  unfold vector_search. destruct (embed_query _ _); [|done].
  destruct (with_limit top_k _) as [q|e]; [|done].
  pose proof (do_llm_log (with_additional ["distance"] q) (tick w)) as Hlog.
  by destruct (do _ (tick w)) as [w' [?|?]].
Qed.

Lemma retrieve_relevant_chunks_llm_log query U1 top_k (w : World Vec) :
  llm_log (fst (retrieve_relevant_chunks query U1 top_k w)) = llm_log w.
Proof.
  unfold retrieve_relevant_chunks.
  pose proof (vector_search_llm_log query U1 top_k w) as Hlog.
  by destruct (vector_search _ _ _ w) as [w' [?|?]].
Qed.

Lemma retrieve_by_paper_id_llm_log paper_id U1 top_k (w : World Vec) :
  llm_log (fst (retrieve_by_paper_id paper_id U1 top_k w)) = llm_log w.
Proof.
  unfold retrieve_by_paper_id.
  destruct (with_limit top_k _) as [q|e]; [|done].
  pose proof (do_llm_log q w) as Hlog.
  by destruct (do _ w) as [w' [?|?]].
Qed.

(** C8: when retrieval yields no chunk, [generate_response] returns the
    fixed answer [no_information] with no source, for every persona and
    query, and the language model has not been called: the log of its calls is
    the one before the request.  [generate_summary] does the same with its
    own fixed answer [no_paper]. *)
Theorem empty_retrieval_short_circuits
    (query persona user_id paper_id : string) (w : World Vec) :
  (snd (retrieve_relevant_chunks query user_id 5 w) = Py.Returned [] →
   generate_response query persona user_id w
   = (fst (retrieve_relevant_chunks query user_id 5 w),
      Py.Returned (Response.mk no_information []))
   ∧ llm_log (fst (generate_response query persona user_id w)) = llm_log w)
  ∧ (snd (retrieve_by_paper_id paper_id user_id 20 w) = Py.Returned [] →
     generate_summary paper_id user_id persona w
     = (fst (retrieve_by_paper_id paper_id user_id 20 w),
        Py.Returned (Response.mk no_paper []))
     ∧ llm_log (fst (generate_summary paper_id user_id persona w))
       = llm_log w).
Proof.
  split.
  - intros Hempty.
    pose proof (retrieve_relevant_chunks_llm_log query user_id 5 w) as Hlog.
    unfold generate_response, generate_response_try.
    destruct (retrieve_relevant_chunks query user_id 5 w) as [w1 r].
    simpl in Hempty, Hlog. subst r. done.
  - intros Hempty.
    pose proof (retrieve_by_paper_id_llm_log paper_id user_id 20 w) as Hlog.
    unfold generate_summary, generate_summary_try.
    destruct (retrieve_by_paper_id paper_id user_id 20 w) as [w1 r].
    simpl in Hempty, Hlog. subst r. done.
Qed.

End ChainFacts.

(** ** Ingestion *)

Section IngestFacts.

Context {Vec Dist : Type} {C : Collaborators Vec Dist}.

Lemma stored_records_tick (w : World Vec) :
  stored_records (tick w) = stored_records w.
Proof. done. Qed.

Lemma stored_records_print line (w : World Vec) :
  stored_records (print line w) = stored_records w.
Proof. done. Qed.

(** Sending a batch appends its objects, or fails and changes nothing. *)
Lemma flush_records pending (w w' : World Vec) r :
  flush pending w = (w', r) →
  match r with
  | Py.Returned _ =>
      stored_records w' = stored_records w ++ map data_object pending
  | Py.Raised _ => stored_records w' = stored_records w ∧ pending ≠ []
  end.
Proof.
  unfold flush. destruct pending as [|o pending].
  - intros [= <- <-]. by rewrite app_nil_r.
  - destruct (backend_fault _); intros [= <- <-].
    + done.
    + unfold stored_records, stored. simpl. by rewrite map_app.
Qed.

Lemma add_data_object_records bs o pending (w w' : World Vec) pending' r :
  add_data_object bs o pending w = (w', pending', r) →
  match r with
  | Py.Returned _ =>
      (w' = w ∧ pending' = pending ++ [o])
      ∨ (stored_records w'
         = stored_records w ++ map data_object (pending ++ [o])
         ∧ pending' = [])
  | Py.Raised _ => stored_records w' = stored_records w ∧ pending' = []
  end.
Proof.
  unfold add_data_object. destruct (Nat.leb _ _).
  - destruct (flush _ w) as [w1 r1] eqn:Hflush. intros [= <- <- <-].
    apply flush_records in Hflush. destruct r1; [by right|].
    by destruct Hflush.
  - intros [= <- <- <-]. by left.
Qed.

Section Batches.

Variables (bs : nat) (paper_id paper_title user_id upload_date : string).

#[local] Abbreviation D :=
  (make_data_object paper_id paper_title user_id upload_date).

(** The loop over one batch: the store has received a prefix of the records
    the loop was given, and the batch holds the records that follow it; on an
    exception some record is in neither. *)
Lemma batch_body_records chunks pending (w w' : World Vec) pending' r :
  batch_body bs paper_id paper_title user_id upload_date chunks pending w
  = (w', pending', r) →
  let L := map data_object pending ++ map D chunks in
  ∃ m j,
    stored_records w' = stored_records w ++ take m L
    ∧ map data_object pending' = take j (drop m L)
    ∧ match r with
      | Py.Returned _ => m + j = length L
      | Py.Raised _ => m + j < length L
      end.
Proof.
  revert pending w. induction chunks as [|chunk rest IH]; intros pending w.
  - simpl. intros [= <- <- <-]. exists 0, (length pending).
    rewrite take_0, drop_0, !app_nil_r, length_map.
    rewrite take_ge by (by rewrite length_map). done.
  - cbn [batch_body]. intros Hbody.
    set (L := map data_object pending ++ map D (chunk :: rest)).
    assert (length L = length pending + S (length rest)) as HL.
    { unfold L. by rewrite length_app, !length_map. }
    destruct (embed_query (clock w) (Chunk.content chunk)) as [v|e].
    2:{ injection Hbody as <- <- <-. exists 0, (length pending).
        rewrite take_0, drop_0, app_nil_r, stored_records_tick.
        split; [done|]. split; [|lia]. unfold L.
        by rewrite take_app_length' by (by rewrite length_map). }
    destruct (add_data_object _ _ pending (tick w)) as [[w1 p1] r1] eqn:Hadd.
    apply add_data_object_records in Hadd.
    rewrite stored_records_tick in Hadd. destruct r1 as [[]|e1].
    2:{ injection Hbody as <- <- <-. destruct Hadd as [-> ->].
        exists 0, 0. rewrite take_0, app_nil_r. split; [done|].
        split; [done|]. lia. }
    apply IH in Hbody as (m & j & Hrec & Hpend & Hr).
    destruct Hadd as [[-> ->]|[Hw1 ->]].
    + rewrite stored_records_tick in Hrec.
      assert (map data_object (pending ++ [mkObj (D chunk) v]) ++ map D rest
              = L) as HL1.
      { rewrite map_app, <- app_assoc. done. }
      rewrite HL1 in Hrec, Hpend, Hr. by exists m, j.
    + simpl in Hrec, Hpend, Hr. rewrite Hw1 in Hrec.
      set (X := map data_object (pending ++ [mkObj (D chunk) v])) in *.
      assert (L = X ++ map D rest) as HX.
      { unfold L, X. rewrite map_app, <- app_assoc. done. }
      assert (length X = S (length pending)) as HlenX.
      { unfold X. rewrite length_map, length_app. simpl. lia. }
      exists (length X + m), j. rewrite HX.
      rewrite take_app_add, drop_app_add.
      split; [by rewrite Hrec, <- app_assoc|]. split; [done|].
      rewrite length_app, length_map in *. destruct r; lia.
Qed.

(** One batch of the loop of [store_chunks]: all its records are stored, or
    an exception leaves a strict prefix of them in the store. *)
Lemma with_batch_records chunks (w w' : World Vec) r :
  with_batch bs paper_id paper_title user_id upload_date chunks w = (w', r) →
  ∃ n,
    stored_records w' = stored_records w ++ take n (map D chunks)
    ∧ match r with
      | Py.Returned _ => n = length chunks
      | Py.Raised _ => n < length chunks
      end.
Proof.
  unfold with_batch.
  destruct (batch_body _ _ _ _ _ chunks [] w) as [[w1 pending] r1] eqn:Hbody.
  apply batch_body_records in Hbody as (m & j & Hrec & Hpend & Hr).
  simpl in Hrec, Hpend, Hr. rewrite length_map in Hr.
  assert (stored_records w1 ++ map data_object pending
          = stored_records w ++ take (m + j) (map D chunks)) as Hboth.
  { by rewrite Hrec, Hpend, <- app_assoc, take_take_drop. }
  assert (pending ≠ [] → 0 < j) as Hj.
  { intros Hne. destruct j; [|lia]. rewrite take_0 in Hpend.
    by destruct pending. }
  destruct r1 as [[]|e1].
  - destruct (flush pending w1) as [w2 r2] eqn:Hflush. intros [= <- <-].
    apply flush_records in Hflush. destruct r2 as [[]|e2].
    + exists (m + j). by rewrite Hflush, Hboth.
    + destruct Hflush as [-> Hne]. exists m. split; [done|].
      apply Hj in Hne. lia.
  - destruct exit_flushes_after_raise.
    + destruct (flush pending w1) as [w2 r2] eqn:Hflush.
      apply flush_records in Hflush. destruct r2 as [[]|e2]; intros [= <- <-].
      * exists (m + j). by rewrite Hflush, Hboth.
      * destruct Hflush as [-> _]. exists m. split; [done|]. lia.
    + intros [= <- <-]. exists m. split; [done|]. lia.
Qed.

(** The loop over the batches, from batch [a] on: when it returns, the
    records of the batches it went through are stored; when it raises, a
    strict prefix of the records that were left is. *)
Lemma store_loop_records chunks cnt a (w w' : World Vec) r :
  store_loop bs paper_id paper_title user_id upload_date chunks
             (map (λ k, k * bs) (seq a cnt)) w = (w', r) →
  match r with
  | Py.Returned _ =>
      stored_records w'
      = stored_records w ++ take (cnt * bs) (drop (a * bs) (map D chunks))
  | Py.Raised _ =>
      ∃ n, n < length chunks - a * bs
           ∧ stored_records w'
             = stored_records w ++ take n (drop (a * bs) (map D chunks))
  end.
Proof.
  revert a w. induction cnt as [|cnt IH]; intros a w.
  - simpl. intros [= <- <-]. by rewrite take_0, app_nil_r.
  - cbn [seq map store_loop]. unfold Py.slice.
    replace (a * bs + bs - a * bs) with bs by lia.
    set (X := drop (a * bs) (map D chunks)).
    assert (map D (take bs (drop (a * bs) chunks)) = take bs X) as HB.
    { unfold X. by rewrite <- firstn_map, <- skipn_map. }
    assert (length X = length chunks - a * bs) as HX.
    { unfold X. by rewrite length_drop, length_map. }
    assert (drop (S a * bs) (map D chunks) = drop bs X) as Hnext.
    { unfold X. rewrite drop_drop. f_equal. simpl. lia. }
    destruct (with_batch _ _ _ _ _ _ w) as [w1 r1] eqn:Hbatch.
    apply with_batch_records in Hbatch as (n0 & Hrec & Hn0).
    rewrite HB in Hrec. rewrite length_take, length_drop in Hn0.
    destruct r1 as [[]|e1].
    + intros Hloop. apply IH in Hloop. rewrite Hnext in Hloop.
      assert (stored_records w1 = stored_records w ++ take bs X) as Hw1.
      { rewrite Hrec, take_take. f_equal.
        destruct (decide (bs ≤ length X)%nat); [f_equal; lia|].
        by rewrite !take_ge by lia. }
      destruct r as [[]|e].
      * rewrite Hloop, Hw1, <- app_assoc, take_take_drop. done.
      * destruct Hloop as (n & Hn & Hloop). exists (bs + n).
        rewrite Hloop, Hw1, <- app_assoc, take_take_drop.
        split; [|done]. simpl in Hn. lia.
    + intros [= <- <-]. exists n0. rewrite stored_records_print, Hrec.
      rewrite take_take. split; [lia|]. do 2 f_equal. lia.
Qed.

End Batches.

Lemma range_step_covers n : (n ≤ (n + 50 - 1) `div` 50 * 50)%nat.
Proof.
  pose proof (Nat.div_mod_eq (n + 50 - 1) 50) as Hdiv.
  pose proof (Nat.mod_upper_bound (n + 50 - 1) 50). lia.
Qed.

(** [store_chunks] appends the records of the chunks in order: all of them
    when it returns, those of a strict prefix when it raises. *)
Lemma store_chunks_records chunks paper_id paper_title user_id
    (w w' : World Vec) r :
  store_chunks chunks paper_id paper_title user_id w = (w', r) →
  ∃ n,
    stored_records w'
    = stored_records w
      ++ take n (map (make_data_object paper_id paper_title user_id
                                        (utcnow (clock w))) chunks)
    ∧ match r with
      | Py.Returned _ => n = length chunks
      | Py.Raised _ => n < length chunks
      end.
Proof.
  unfold store_chunks, Py.range_step. intros Hloop.
  apply store_loop_records in Hloop. rewrite drop_0 in Hloop.
  destruct r as [[]|e].
  - exists (length chunks). split; [|done]. rewrite Hloop. f_equal.
    pose proof (range_step_covers (length chunks)).
    rewrite !take_ge by (rewrite length_map; lia). done.
  - destruct Hloop as (n & Hn & Hloop). exists n. split; [done|]. lia.
Qed.

Section Runs.

Variables (bs : nat) (paper_id paper_title user_id upload_date : string).
Hypothesis Hbs : 0 < bs.

#[local] Abbreviation R :=
  (make_data_object paper_id paper_title user_id upload_date).










End Runs.







End IngestFacts.

(** * The scenarios, checked *)

(** The scenario of the specification: against three chunks of [user1] and
    ten of [user2], a search by [user1] returns three chunks, all of
    [user1]. *)
Example retrieve_two_users :
  ∃ w' chunks,
    retrieve_relevant_chunks (C:=healthy) "x" "user1" 5 two_users
    = (w', Py.Returned chunks)
    ∧ length chunks = 3
    ∧ map Retrieved.user_id chunks = ["user1"; "user1"; "user1"].
Proof. eexists _, _. split; [reflexivity|]. by vm_compute. Qed.

Lemma strip_newlines_id (v : string) :
  Py.has_char (ascii_of_nat 10) v = false → strip_newlines v = v.
Proof.
  induction v as [|c v IH]; cbn [Py.has_char strip_newlines]; [done|].
  intros [Hc Hv]%orb_false_iff. rewrite IH by done.
  apply bool_decide_eq_false in Hc.
  case_bool_decide as Hlf; [|done]. by subst c.
Qed.

(** The store of the laboratory compares exactly every operand without
    a line feed. *)
Lemma lab_exact_on embed fault (v : string) :
  Py.has_char (ascii_of_nat 10) v = false →
  exact_on (C:=lab embed fault) v.
Proof.
  intros Hv s. unfold equal_text, lab. rewrite bool_decide_eq_true.
  rewrite strip_newlines_id by done. split; congruence.
Qed.

Lemma lab_with_exact_on doc llm (v : string) :
  Py.has_char (ascii_of_nat 10) v = false →
  exact_on (C:=lab_with doc llm) v.
Proof.
  intros Hv s. unfold equal_text, lab_with. rewrite bool_decide_eq_true.
  rewrite strip_newlines_id by done. split; congruence.
Qed.



(** C2, counterexample: with the store unreachable and thirteen chunks in
    it, [retrieve_relevant_chunks] does not raise; it returns the empty list,
    which is also what it returns from a reachable store that holds nothing.
    The same goes for [retrieve_by_paper_id]. *)
Lemma retrieval_failure_not_surfaced :
  backend_fault (Collaborators:=store_down) 1 = Some outage
  ∧ length (stored two_users) = 13
  ∧ snd (retrieve_relevant_chunks (C:=store_down) "x" "user1" 5 two_users)
    = Py.Returned []
  ∧ snd (retrieve_relevant_chunks (C:=healthy) "x" "user1" 5 (world_of []))
    = Py.Returned []
  ∧ snd (retrieve_by_paper_id (C:=store_down) "paper-1" "user1" 10 two_users)
    = Py.Returned []
  ∧ snd (retrieve_by_paper_id (C:=healthy) "paper-1" "user1" 10 (world_of []))
    = Py.Returned [].
Proof. by vm_compute. Qed.

(** The amended C2 at work: the store holds thirteen chunks and fails two
    requests, then answers again. *)
Lemma retrieval_swallows_backend_failure_witness :
  backend_fault (Collaborators:=store_blip) 2 = None
  ∧ (snd (retrieve_relevant_chunks (C:=store_blip) "x" "user1" 5 two_users)
     = Py.Returned []
     ∧ ∃ msg,
         stdout (fst (retrieve_relevant_chunks (C:=store_blip) "x" "user1" 5
                        two_users))
         = stdout two_users ++ ["Error retrieving chunks: " +:+ msg])
  ∧ retrieve_by_paper_id (C:=store_blip) "paper-1" "user1" 5 two_users
    = (print ("Error retrieving chunks by paper ID: "
              +:+ Py.exn_msg outage) (tick two_users),
       Py.Returned []).
Proof.
  pose proof (retrieval_swallows_backend_failure (C:=store_blip)
                "x" "user1" "paper-1" 5 two_users outage)
    as (Hsearch & Hpaper & _).
  split; [reflexivity|].
  split; [exact (proj1 (Hsearch eq_refl)) | exact (Hpaper eq_refl)].
Defined.





(** C8 at work: a user without chunks asks a question against a store that
    holds the chunks of two other users. *)
Lemma empty_retrieval_short_circuits_witness :
  snd (retrieve_relevant_chunks (C:=healthy) "x" "user3" 5 two_users)
  = Py.Returned []
  ∧ snd (generate_response (C:=healthy) "x" "Student" "user3" two_users)
    = Py.Returned (Response.mk no_information [])
  ∧ llm_log (fst (generate_response (C:=healthy) "x" "Student" "user3"
                    two_users)) = [].
Proof.
  split; [reflexivity|].
  destruct (proj1 (empty_retrieval_short_circuits (C:=healthy)
                     "x" "Student" "user3" "paper-1" two_users) eq_refl)
    as [Hresponse Hlog].
  split; [by rewrite Hresponse | exact Hlog].
Defined.

(** C10: [get_user_papers] asks for at most 1000 objects of the user and
    builds the listing from those alone.  In the store [two_papers] the user
    owns 1001 chunks; the one chunk of the second paper exists, is found by
    [retrieve_by_paper_id], lies outside the first 1000, and the paper is
    missing from the listing. *)
Theorem get_user_papers_window :
  (∀ (Vec Dist : Type) (C : Collaborators Vec Dist) (user_id : string)
     (w : World Vec) (objs : list (Obj Vec)),
     backend_fault (clock w) = None → paper_chunks w = Some objs →
     snd (get_user_papers user_id w)
     = Py.Returned (distinct_papers (first_window user_id objs)))
  ∧ ∃ (w : World nat) (user_id paper_id : string),
      let owned :=
        List.filter
          (λ o, bool_decide (PaperChunk.user_id (data_object o) = user_id))
          (stored w) in
      1000 < length owned
      ∧ Exists (λ o, PaperChunk.paper_id (data_object o) = paper_id) owned
      ∧ Forall (λ r, PaperChunk.paper_id r ≠ paper_id)
               (first_window (C:=healthy) user_id (stored w))
      ∧ (∃ w' found,
           retrieve_by_paper_id (C:=healthy) paper_id user_id 10 w
           = (w', Py.Returned found)
           ∧ found ≠ [])
      ∧ ∃ w' papers,
          get_user_papers (C:=healthy) user_id w = (w', Py.Returned papers)
          ∧ Forall (λ p, PaperInfo.paper_id p ≠ paper_id) papers.
Proof.
  split.
  { intros Vec Dist C user_id w objs Hup Hobjs.
    by rewrite (get_user_papers_spec user_id w objs). }
  exists two_papers, "user1", "paper-2". cbv zeta.
  split; [by vm_compute|].
  split; [by apply (bool_decide_unpack _); vm_compute|].
  split; [by apply (bool_decide_unpack _); vm_compute|].
  split.
  { eexists _, _. split; [by vm_compute|]. done. }
  eexists _, _. split; [by vm_compute|].
  by apply (bool_decide_unpack _).
Qed.

(** * More properties *)

(** ** Stripping twice *)

Lemma lstrip_lstripped s : lstripped (Py.lstrip s).
Proof.
  induction s as [|c s IH]; simpl; [done|].
  by destruct (Py.isspace c) eqn:Hc.
Qed.

Lemma lstrip_id s : lstripped s → Py.lstrip s = s.
Proof. destruct s as [|c s]; simpl; [done|]. by intros ->. Qed.

Lemma rstrip_lstripped s : lstripped s → lstripped (Py.rstrip s).
Proof.
  destruct s as [|c s]; simpl; [done|]. intros Hc.
  destruct (Py.rstrip s); [by rewrite Hc|done].
Qed.

Lemma rstrip_cons c s :
  Py.rstrip (String c s)
  = match Py.rstrip s with
    | EmptyString => if Py.isspace c then EmptyString else String c EmptyString
    | r => String c r
    end.
Proof. reflexivity. Qed.

Lemma rstrip_idemp s : Py.rstrip (Py.rstrip s) = Py.rstrip s.
Proof.
  induction s as [|c s IH]; [done|]. rewrite rstrip_cons.
  destruct (Py.rstrip s) as [|c' r] eqn:Hr.
  - destruct (Py.isspace c) eqn:Hc; [done|]. simpl. by rewrite Hc.
  - by rewrite rstrip_cons, IH.
Qed.

Lemma strip_idemp s : Py.strip (Py.strip s) = Py.strip s.
Proof.
  unfold Py.strip.
  rewrite (lstrip_id (Py.rstrip (Py.lstrip s)))
    by apply rstrip_lstripped, lstrip_lstripped.
  apply rstrip_idemp.
Qed.

Lemma blank_lstrip s : Py.blank s = true → Py.lstrip s = EmptyString.
Proof.
  induction s as [|c s IH]; simpl; [done|].
  intros [Hc Hs]%andb_true_iff. rewrite Hc. by apply IH.
Qed.

Lemma blank_strip s : Py.blank s = true → Py.strip s = EmptyString.
Proof. intros Hs. unfold Py.strip. by rewrite blank_lstrip. Qed.

(** ** Extraction and chunk contents *)

Section ExtractionFacts.

Context {Vec Dist : Type} {C : Collaborators Vec Dist}.

Lemma extract_loop_elem k doc p :
  p ∈ extract_loop k doc →
  ∃ i text, doc !! i = Some text
            ∧ Page.page_number p = (Z.of_nat (k + i) + 1)%Z
            ∧ Page.text p = Py.strip text
            ∧ Py.truthy (Page.text p) = true.
Proof.
  revert k. induction doc as [|text doc IH]; intros k; simpl.
  - by intros ?%elem_of_nil.
  - assert (p ∈ extract_loop (S k) doc →
            ∃ i t, (text :: doc) !! i = Some t
                   ∧ Page.page_number p = (Z.of_nat (k + i) + 1)%Z
                   ∧ Page.text p = Py.strip t
                   ∧ Py.truthy (Page.text p) = true) as Hrest.
    { intros (i & t & Hi & Hn & Ht)%IH. exists (S i), t.
      split; [done|]. split; [|done]. rewrite Hn. f_equal. lia. }
    destruct (Py.truthy (Py.strip text)) eqn:Htruthy; [|done].
    intros [->|Hp]%elem_of_cons; [|by apply Hrest].
    exists 0, text. simpl. rewrite Nat.add_0_r. done.
Qed.

Lemma extract_loop_increasing k doc :
  Forall (λ p, Z.of_nat k < Page.page_number p)%Z (extract_loop k doc)
  ∧ StronglySorted Z.lt (map Page.page_number (extract_loop k doc)).
Proof.
  revert k. induction doc as [|text doc IH]; intros k; simpl.
  - split; constructor.
  - destruct (IH (S k)) as [Hlow Hsorted].
    assert (Forall (λ p, Z.of_nat k < Page.page_number p)%Z
                   (extract_loop (S k) doc)) as Hlow'.
    { eapply Forall_impl; [exact Hlow|]. intros p Hp. simpl in Hp. lia. }
    destruct (Py.truthy (Py.strip text)); [|done]. split.
    + constructor; [simpl; lia | done].
    + simpl. constructor; [done|]. apply Forall_map.
      eapply Forall_impl; [exact Hlow|]. intros p Hp. simpl in *. lia.
Qed.

(** X1: the pages [extract_text_from_pdf] returns are the non-blank pages
    of the document in order: each carries its position in the document
    counted from 1 and the stripped text of that page, which is not empty
    and has no white space left at either end; the page numbers increase
    strictly.  A failure to open the document is raised to the caller. *)
Theorem extract_text_pages (pdf_path : string) :
  match fitz_pages pdf_path with
  | Py.Raised e => extract_text_from_pdf pdf_path = Py.Raised e
  | Py.Returned doc =>
      ∃ pages,
        extract_text_from_pdf pdf_path = Py.Returned pages
        ∧ Forall (λ p, ∃ i text,
                     doc !! i = Some text
                     ∧ Page.page_number p = (Z.of_nat i + 1)%Z
                     ∧ Page.text p = Py.strip text
                     ∧ Page.text p ≠ EmptyString
                     ∧ Py.strip (Page.text p) = Page.text p) pages
        ∧ StronglySorted Z.lt (map Page.page_number pages)
        ∧ (length pages ≤ length doc)%nat
        ∧ (∀ i text, doc !! i = Some text → Py.strip text ≠ EmptyString →
                     Page.mk (Z.of_nat i + 1)%Z (Py.strip text) ∈ pages)
  end.
Proof.
  unfold extract_text_from_pdf. destruct (fitz_pages pdf_path) as [doc|e]; [|done].
  exists (extract_loop 0 doc). split; [done|]. split; [|split; [|split]].
  - apply Forall_forall. intros p (i & text & Hi & Hn & Ht & Hne)%extract_loop_elem.
    exists i, text. repeat split; try done.
    + intros Hempty. by rewrite Hempty in Hne.
    + rewrite Ht. apply strip_idemp.
  - apply extract_loop_increasing.
  - generalize 0. induction doc as [|t doc IH]; intros k; simpl; [done|].
    specialize (IH (S k)). destruct (Py.truthy _); simpl; lia.
  - assert (∀ k i text, doc !! i = Some text → Py.strip text ≠ EmptyString →
              Page.mk (Z.of_nat (k + i) + 1)%Z (Py.strip text)
              ∈ extract_loop k doc) as Hall.
    { induction doc as [|t doc IH]; intros k i text; [done|].
      destruct i as [|i]; simpl.
      - intros [= ->] Hne. rewrite Nat.add_0_r.
        destruct (Py.strip text); [done|]. by left.
      - intros Hi Hne. specialize (IH (S k) i text Hi Hne).
        replace (Z.of_nat (k + S i)) with (Z.of_nat (S k + i)) by lia.
        destruct (Py.truthy (Py.strip t)); [by right | done]. }
    intros i text. apply (Hall 0).
Qed.

(** X2: whatever the splitter returns, both chunkers emit only chunks whose
    content is not empty and has no white space at either end. *)
Theorem chunk_contents_stripped (pages : list Page.t) :
  Forall (λ c, Chunk.content c ≠ EmptyString
               ∧ Py.strip (Chunk.content c) = Chunk.content c)
         (chunk_text pages)
  ∧ Forall (λ c, Chunk.content c ≠ EmptyString
                 ∧ Py.strip (Chunk.content c) = Chunk.content c)
           (alt_chunk_text pages).
Proof.
  assert (Forall (λ c, Chunk.content c ≠ EmptyString
                       ∧ Py.strip (Chunk.content c) = Chunk.content c)
                 (chunk_text pages)) as Hall; [|by split].
  apply Forall_forall. intros c Hc. rewrite chunk_text_spec in Hc.
  apply number_from_elem, emitted_elem in Hc
    as (page & piece & _ & _ & _ & Hs & Ht).
  rewrite Hs in *. split; [|apply strip_idemp].
  intros Hempty. by rewrite Hempty in Ht.
Qed.

End ExtractionFacts.

(** ** More on retrieval *)

Section RetrieverMore.

Context {Vec Dist : Type} {C : Collaborators Vec Dist}.

Lemma answer_length q (objs : list (Obj Vec)) n :
  q_limit q = Some n → (length (answer q objs) ≤ n)%nat.
Proof.
  intros Hn. unfold answer. rewrite Hn, length_map, length_take. lia.
Qed.

Lemma vector_search_length text U1 top_k (w w' : World Vec) chunks :
  vector_search text U1 top_k w = (w', Py.Returned chunks) →
  (length chunks ≤ top_k)%nat.
Proof.
  unfold vector_search. destruct (embed_query _ _) as [v|e]; [|by intros [=]].
  destruct (with_limit top_k _) as [q|e] eqn:Hq; [|by intros [=]].
  apply with_limit_returned in Hq as [_ ->].
  destruct (do _ (tick w)) as [w1 [items|e]] eqn:Hdo; [|by intros [=]].
  intros [= _ <-]. unfold do in Hdo.
  destruct (backend_fault _); [done|].
  destruct (paper_chunks _) as [objs|]; [|done]. injection Hdo as _ <-.
  match goal with
  | |- context [answer ?q objs] =>
      pose proof (answer_length q objs top_k eq_refl) as Hlen;
      destruct (answer q objs)
  end; [simpl; lia|].
  cbn [Py.nonempty]. by rewrite length_map.
Qed.

(** What a caller of [retrieve_by_paper_id] can rely on. *)
Lemma retrieve_by_paper_id_facts paper_id U1 top_k (w w1 : World Vec) r :
  retrieve_by_paper_id paper_id U1 top_k w = (w1, r) →
  ∃ chunks,
    r = Py.Returned chunks
    ∧ Forall (λ c, ∃ o, o ∈ stored w
                        ∧ equal_text paper_id
                            (PaperChunk.paper_id (data_object o)) = true
                        ∧ equal_text U1
                            (PaperChunk.user_id (data_object o)) = true
                        ∧ c = retrieved_of_record (data_object o)) chunks
    ∧ (length chunks ≤ top_k)%nat
    ∧ llm_log w1 = llm_log w.
Proof.
  pose proof (retrieve_by_paper_id_llm_log paper_id U1 top_k w) as Hlog.
  unfold retrieve_by_paper_id in *.
  destruct (with_limit top_k _) as [q|e] eqn:Hq.
  2:{ intros [= <- <-]. exists []. split; [done|]. split; [constructor|].
      split; [simpl; lia | done]. }
  apply with_limit_returned in Hq as [_ ->]. unfold do in *.
  destruct (backend_fault _).
  { intros [= <- <-]. exists []. split; [done|]. split; [constructor|].
    split; [simpl; lia | done]. }
  destruct (paper_chunks w) as [objs|] eqn:Hobjs.
  2:{ intros [= <- <-]. exists []. split; [done|]. split; [constructor|].
      split; [simpl; lia | done]. }
  intros [= <- <-]. eexists. split; [done|].
  match goal with |- context [answer ?q objs] => set (q0 := q) in * end.
  pose proof (answer_length q0 objs top_k eq_refl) as Hlen.
  split; [|split; [|done]].
  - destruct (answer q0 objs) as [|it0 items] eqn:Hitems; [constructor|].
    cbn [Py.nonempty]. rewrite <- Hitems. clear Hitems Hlen.
    apply Forall_forall. intros c Hc.
    apply list_elem_of_In, in_map_iff in Hc as (it & <- & Hit).
    apply list_elem_of_In, answer_elem in Hit as (o & Ho & Hitem & Hwhere).
    specialize (Hwhere _ eq_refl).
    rewrite matches_paper_and_user in Hwhere.
    apply andb_true_iff in Hwhere as [Hp Hu].
    exists o. unfold stored. rewrite Hobjs.
    unfold chunk_of_item_exact, retrieved_of_record. by rewrite Hitem.
  - destruct (answer q0 objs); [simpl; lia|].
    cbn [Py.nonempty]. by rewrite length_map.
Qed.


(** X4: every chunk [retrieve_by_paper_id] returns has no distance and is
    the projection of a stored object whose [paper_id] and [user_id] the
    store's filter selects for the requested ones.  When the store compares
    the requested [paper_id] and [user_id] exactly, every chunk carries them:
    knowing the id of another user's paper then gives no access to its
    chunks. *)
Theorem retrieve_by_paper_id_scoped (paper_id user_id : string) (top_k : nat)
    (w : World Vec) :
  ∃ w' chunks,
    retrieve_by_paper_id paper_id user_id top_k w = (w', Py.Returned chunks)
    ∧ Forall (λ c, equal_text paper_id (Retrieved.paper_id c) = true
                   ∧ equal_text user_id (Retrieved.user_id c) = true
                   ∧ Retrieved.distance c = None
                   ∧ ∃ o, o ∈ stored w
                          ∧ c = retrieved_of_record (data_object o)) chunks
    ∧ (exact_on paper_id → exact_on user_id →
       Forall (λ c, Retrieved.paper_id c = paper_id
                    ∧ Retrieved.user_id c = user_id) chunks).
Proof.
  destruct (retrieve_by_paper_id paper_id user_id top_k w) as [w' r] eqn:Hr.
  apply retrieve_by_paper_id_facts in Hr as (chunks & -> & Hall & _ & _).
  exists w', chunks. split; [done|]. split.
  - eapply Forall_impl; [exact Hall|].
    intros c (o & Ho & Hp & Hu & ->). simpl. repeat split; try done.
    by exists o.
  - intros Hexact_p Hexact_u. eapply Forall_impl; [exact Hall|].
    intros c (o & Ho & Hp & Hu & ->). simpl.
    apply Hexact_p in Hp. apply Hexact_u in Hu. done.
Qed.

Lemma first_window_elem user_id (objs : list (Obj Vec)) r :
  r ∈ first_window user_id objs →
  ∃ o, o ∈ objs ∧ r = data_object o
       ∧ equal_text user_id (PaperChunk.user_id (data_object o)) = true.
Proof.
  unfold first_window. rewrite list_elem_of_In, in_map_iff.
  intros (o & <- & Ho). exists o.
  apply list_elem_of_In, subseteq_take, list_elem_of_In, filter_In in Ho
    as [Ho Hu].
  by rewrite list_elem_of_In.
Qed.

(** X5: the listing of [get_user_papers] never repeats a [paper_id], has at
    most 1000 entries, and every entry is taken from one stored object that
    the store's filter selects for the requesting user: its id, title and
    upload date are those of that object.  When the store compares the
    [user_id] exactly, that object is stored under the requesting user. *)
Theorem get_user_papers_sound (user_id : string) (w : World Vec) :
  ∃ w' papers,
    get_user_papers user_id w = (w', Py.Returned papers)
    ∧ NoDup (map PaperInfo.paper_id papers)
    ∧ (length papers ≤ 1000)%nat
    ∧ Forall (λ p, ∃ o, o ∈ stored w
                        ∧ equal_text user_id
                            (PaperChunk.user_id (data_object o)) = true
                        ∧ (exact_on user_id →
                           PaperChunk.user_id (data_object o) = user_id)
                        ∧ p = PaperInfo.mk
                                (PaperChunk.paper_id (data_object o))
                                (PaperChunk.paper_title (data_object o))
                                (PaperChunk.upload_date (data_object o)))
             papers.
Proof.
  destruct (backend_fault (clock w)) as [e|] eqn:Hup.
  { unfold get_user_papers. rewrite with_limit_pos by lia.
    unfold do. rewrite Hup. eexists _, [].
    split; [done|]. split; [constructor|]. split; [simpl; lia|constructor]. }
  destruct (paper_chunks w) as [objs|] eqn:Hobjs.
  2:{ unfold get_user_papers. rewrite with_limit_pos by lia.
      unfold do. rewrite Hup, Hobjs. eexists _, [].
      split; [done|]. split; [constructor|]. split; [simpl; lia|constructor]. }
  rewrite (get_user_papers_spec user_id w objs) by done.
  eexists _, _. split; [done|]. unfold distinct_papers.
  set (kept := first_by PaperChunk.paper_id [] (first_window user_id objs)).
  split; [|split].
  - rewrite map_map. simpl. apply first_by_NoDup.
  - rewrite length_map.
    assert (∀ seen (l : list PaperChunk.t),
              (length (first_by PaperChunk.paper_id seen l) ≤ length l)%nat)
      as Hlen.
    { intros seen l. revert seen. induction l as [|x l IH]; intros seen;
        simpl; [done|].
      destruct (decide _); simpl; [specialize (IH seen) | specialize (IH (PaperChunk.paper_id x :: seen))]; lia. }
    etrans; [apply Hlen|]. unfold first_window.
    rewrite length_map, length_take. lia.
  - apply Forall_forall. intros p Hp.
    apply list_elem_of_In, in_map_iff in Hp as (r & <- & Hr).
    apply list_elem_of_In, first_by_elem in Hr as [Hr _].
    apply first_window_elem in Hr as (o & Ho & -> & Hu).
    exists o. unfold stored. rewrite Hobjs.
    split; [done|]. split; [done|]. split; [|done].
    intros Hexact. by apply Hexact.
Qed.

(** X6: when the store answers and selects at most 1000 stored chunks for
    the user, the listing is complete: every paper of which a stored chunk is
    selected is listed.  When the store compares the [user_id] exactly, these
    are the user's own chunks: every paper of which the user has a stored
    chunk is listed. *)
Theorem get_user_papers_complete (user_id : string) (w : World Vec)
    (objs : list (Obj Vec))
    (Hup : backend_fault (clock w) = None)
    (Hobjs : paper_chunks w = Some objs)
    (Hfew : (length (List.filter
                       (λ o, equal_text user_id
                               (PaperChunk.user_id (data_object o)))
                       objs) ≤ 1000)%nat) :
  ∃ w' papers,
    get_user_papers user_id w = (w', Py.Returned papers)
    ∧ (∀ o, o ∈ objs →
            equal_text user_id (PaperChunk.user_id (data_object o)) = true →
            PaperChunk.paper_id (data_object o)
            ∈ map PaperInfo.paper_id papers)
    ∧ (exact_on user_id →
       ∀ o, o ∈ objs → PaperChunk.user_id (data_object o) = user_id →
            PaperChunk.paper_id (data_object o)
            ∈ map PaperInfo.paper_id papers).
Proof.
  rewrite (get_user_papers_spec user_id w objs) by done.
  eexists _, _. split; [done|].
  assert (∀ o, o ∈ objs →
               equal_text user_id (PaperChunk.user_id (data_object o)) = true →
               PaperChunk.paper_id (data_object o)
               ∈ map PaperInfo.paper_id
                     (distinct_papers (first_window user_id objs))) as Hall.
  { intros o Ho Hu.
    unfold distinct_papers. rewrite map_map. simpl.
    apply (first_by_complete PaperChunk.paper_id []);
      [|by intros ?%elem_of_nil].
    unfold first_window. rewrite take_ge by done.
    apply list_elem_of_In, in_map. apply filter_In.
    split; [by apply list_elem_of_In|done]. }
  split; [done|]. intros Hexact o Ho Hu. apply Hall; [done|].
  by apply Hexact.
Qed.

End RetrieverMore.

(** ** More on ingestion *)

Section IngestMore.

Context {Vec Dist : Type} {C : Collaborators Vec Dist}.

(** When [ingest_pdf] returns, the document had chunks and the records of
    all of them follow what the store held. *)
Lemma ingest_pdf_returned pdf_path user_id (w w' : World Vec) paper_id :
  ingest_pdf pdf_path user_id w = (w', Py.Returned paper_id) →
  paper_id = uuid4 (clock w)
  ∧ document_chunks pdf_path ≠ []
  ∧ stored_records w'
    = stored_records w
      ++ map (make_data_object paper_id (path_stem pdf_path) user_id
                               (utcnow (clock w)))
             (document_chunks pdf_path).
Proof.
  unfold ingest_pdf, document_chunks.
  destruct (extract_text_from_pdf pdf_path) as [pages|e]; [|by intros [=]].
  destruct pages as [|page pages]; [by intros [=]|]. cbn [Py.nonempty negb].
  destruct (chunk_text (page :: pages)) as [|c cs] eqn:Hchunks;
    [by intros [=]|].
  cbn [Py.nonempty negb].
  destruct (store_chunks (c :: cs) _ _ _ w) as [w1 [[]|e]] eqn:Hstore;
    [|by intros [=]].
  intros [= <- <-].
  apply store_chunks_records in Hstore as (n & Hrec & ->).
  split; [done|]. split; [done|].
  rewrite stored_records_print, Hrec. f_equal.
  apply take_ge. by rewrite length_map.
Qed.

Lemma records_of_paper_app paper_id user_id (a b : list PaperChunk.t) :
  records_of_paper paper_id user_id (a ++ b)
  = records_of_paper paper_id user_id a ++ records_of_paper paper_id user_id b.
Proof. apply List.filter_app. Qed.

Lemma records_of_paper_none paper_id user_id (records : list PaperChunk.t) :
  exact_on paper_id →
  Forall (λ r, PaperChunk.paper_id r ≠ paper_id) records →
  records_of_paper paper_id user_id records = [].
Proof.
  intros Hexact. unfold records_of_paper.
  induction 1 as [|r records Hr _ IH]; simpl; [done|].
  destruct (equal_text paper_id (PaperChunk.paper_id r)) eqn:Hp; [|done].
  by apply Hexact in Hp.
Qed.

Lemma records_of_paper_all paper_id paper_title user_id upload_date chunks :
  exact_on paper_id → exact_on user_id →
  records_of_paper paper_id user_id
    (map (make_data_object paper_id paper_title user_id upload_date) chunks)
  = map (make_data_object paper_id paper_title user_id upload_date) chunks.
Proof.
  intros Hp Hu. unfold records_of_paper.
  induction chunks as [|c chunks IH]; simpl; [done|].
  rewrite (proj2 (Hp paper_id) eq_refl), (proj2 (Hu user_id) eq_refl).
  simpl. by rewrite IH.
Qed.

(** When the store answers, [get_paper_info] reports the first stored
    record the store selects for the paper, whoever owns it. *)
Lemma get_paper_info_spec paper_id (w : World Vec) objs :
  backend_fault (clock w) = None → paper_chunks w = Some objs →
  get_paper_info paper_id w
  = (tick w,
     Py.Returned
       (head (map meta_of_record
                  (List.filter
                     (λ r, equal_text paper_id (PaperChunk.paper_id r))
                     (stored_records w))))).
Proof.
  intros Hup Hobjs. unfold get_paper_info.
  rewrite with_limit_pos by lia. unfold do. rewrite Hup, Hobjs.
  set (q := mkQuery _ _ _ _ _ _).
  assert (map item (answer q objs)
          = take 1 (List.filter
                      (λ r, equal_text paper_id (PaperChunk.paper_id r))
                      (stored_records w))) as Hitems.
  { rewrite (answer_exact_scan q objs (Equal "paper_id" paper_id) 1) by done.
    unfold stored_records, stored. rewrite Hobjs.
    change (default [] (Some objs)) with objs.
    by rewrite filter_map_records, firstn_map. }
  destruct (answer q objs) as [|it items];
    destruct (List.filter _ (stored_records w)) as [|r rs]; simpl in Hitems;
    try done.
  injection Hitems as Hit _. simpl. by rewrite Hit.
Qed.

(** X7: a paper that has been ingested can be read back.  When [ingest_pdf]
    returns a [paper_id] no stored record carried before, the store compares
    that [paper_id] and the [user_id] exactly, and the store answers,
    [retrieve_by_paper_id] for that paper and user returns the first [top_k]
    chunks of the document in the order they were stored, which is the order
    of the document, with their content, page number and index, and
    [get_paper_info] reports the file's stem, the uploading user and the
    upload date. *)
Theorem ingest_then_retrieve (pdf_path user_id paper_id : string)
    (top_k : nat) (w w' : World Vec)
    (Hingest : ingest_pdf pdf_path user_id w = (w', Py.Returned paper_id))
    (Hfresh : Forall (λ r, PaperChunk.paper_id r ≠ uuid4 (clock w))
                     (stored_records w))
    (Hexact_paper : exact_on paper_id)
    (Hexact_user : exact_on user_id)
    (Hup : backend_fault (clock w') = None) :
  snd (retrieve_by_paper_id paper_id user_id top_k w')
  = Py.Returned
      (take top_k
         (map (retrieved_of_chunk paper_id (path_stem pdf_path) user_id)
              (document_chunks pdf_path)))
  ∧ snd (get_paper_info paper_id w')
    = Py.Returned
        (Some (PaperMeta.mk (path_stem pdf_path) user_id (utcnow (clock w)))).
Proof.
  apply ingest_pdf_returned in Hingest as (-> & Hchunks & Hrec).
  destruct (paper_chunks w') as [objs|] eqn:Hobjs.
  2:{ unfold stored_records at 1, stored in Hrec. rewrite Hobjs in Hrec.
      simpl in Hrec. symmetry in Hrec.
      apply app_eq_nil in Hrec as [_ Hnil].
      by destruct (document_chunks pdf_path). }
  split.
  - destruct top_k as [|k].
    { unfold retrieve_by_paper_id. by rewrite with_limit_zero. }
    rewrite (retrieve_by_paper_id_spec _ _ _ _ objs) by (done || lia). simpl.
    f_equal. rewrite Hrec, records_of_paper_app.
    rewrite records_of_paper_none by done.
    rewrite records_of_paper_all by done. cbn [app].
    by rewrite firstn_map, map_map, <- firstn_map.
  - rewrite (get_paper_info_spec _ _ objs) by done. simpl. f_equal.
    rewrite Hrec, List.filter_app.
    assert (List.filter
              (λ r, equal_text (uuid4 (clock w)) (PaperChunk.paper_id r))
              (stored_records w) = []) as ->.
    { clear -Hfresh Hexact_paper.
      induction Hfresh as [|r rs Hr _ IH]; simpl; [done|].
      destruct (equal_text _ (PaperChunk.paper_id r)) eqn:Hp; [|done].
      by apply Hexact_paper in Hp. }
    destruct (document_chunks pdf_path) as [|c cs]; [done|]. simpl.
    by rewrite (proj2 (Hexact_paper (uuid4 (clock w))) eq_refl).
Qed.

(** X8: a document without text is refused before anything is sent.  When
    the document cannot be opened the exception is raised as it is; when all
    its pages are blank [ingest_pdf] raises a [ValueError]; and whenever the
    document yields no chunk the world is left exactly as it was: no
    request, nothing stored, nothing printed. *)
Theorem ingest_pdf_rejects_empty (pdf_path user_id : string) (w : World Vec) :
  (∀ e, fitz_pages pdf_path = Py.Raised e →
        ingest_pdf pdf_path user_id w = (w, Py.Raised e))
  ∧ (∀ doc, fitz_pages pdf_path = Py.Returned doc →
            Forall (λ text, Py.blank text = true) doc →
            ingest_pdf pdf_path user_id w
            = (w, Py.Raised (Py.ValueError "No text content found in PDF")))
  ∧ (document_chunks pdf_path = [] →
     fst (ingest_pdf pdf_path user_id w) = w
     ∧ Py.raised (snd (ingest_pdf pdf_path user_id w)) = true).
Proof.
  split; [|split].
  - intros e He. unfold ingest_pdf, extract_text_from_pdf. by rewrite He.
  - intros doc Hdoc Hblank. unfold ingest_pdf, extract_text_from_pdf.
    rewrite Hdoc. clear Hdoc.
    assert (∀ k, extract_loop k doc = []) as Hnil.
    { induction Hblank as [|text doc Ht _ IH]; intros k; simpl; [done|].
      rewrite (blank_strip text Ht). simpl. apply IH. }
    by rewrite Hnil.
  - unfold document_chunks, ingest_pdf.
    destruct (extract_text_from_pdf pdf_path) as [pages|e]; [|done].
    destruct pages as [|page pages]; [done|]. intros ->. done.
Qed.

(** X12: [get_paper_info] lets a store failure through to its caller, and
    when the store answers it reports the first stored record the store
    selects for the given [paper_id], or [None] when it selects none; the
    user is no part of the question.  When the store compares the [paper_id]
    exactly, a paper with a stored record is reported whoever owns it. *)
Theorem get_paper_info_unscoped (paper_id : string) (w : World Vec) :
  (∀ e, backend_fault (clock w) = Some e →
        get_paper_info paper_id w = (tick w, Py.Raised e))
  ∧ (∀ objs, backend_fault (clock w) = None → paper_chunks w = Some objs →
       snd (get_paper_info paper_id w)
       = Py.Returned
           (head (map meta_of_record
                      (List.filter
                         (λ r, equal_text paper_id (PaperChunk.paper_id r))
                         (stored_records w)))))
  ∧ (∀ o, backend_fault (clock w) = None → o ∈ stored w →
          equal_text paper_id (PaperChunk.paper_id (data_object o)) = true →
          ∃ meta, snd (get_paper_info paper_id w) = Py.Returned (Some meta))
  ∧ (exact_on paper_id →
     (∀ objs, backend_fault (clock w) = None → paper_chunks w = Some objs →
        snd (get_paper_info paper_id w)
        = Py.Returned
            (head (map meta_of_record
                       (List.filter
                          (λ r, bool_decide (PaperChunk.paper_id r = paper_id))
                          (stored_records w)))))
     ∧ ∀ o, backend_fault (clock w) = None → o ∈ stored w →
            PaperChunk.paper_id (data_object o) = paper_id →
            ∃ meta, snd (get_paper_info paper_id w) = Py.Returned (Some meta)).
Proof.
  assert (∀ o, backend_fault (clock w) = None → o ∈ stored w →
            equal_text paper_id (PaperChunk.paper_id (data_object o)) = true →
            ∃ meta, snd (get_paper_info paper_id w) = Py.Returned (Some meta))
    as Hfound.
  { intros o Hup Ho Hid. unfold stored in Ho.
    destruct (paper_chunks w) as [objs|] eqn:Hobjs;
      [|by apply elem_of_nil in Ho].
    rewrite (get_paper_info_spec _ _ objs) by done. simpl.
    assert (data_object o
            ∈ List.filter
                (λ r, equal_text paper_id (PaperChunk.paper_id r))
                (stored_records w)) as Hin.
    { apply list_elem_of_In, filter_In. split; [|done].
      unfold stored_records, stored. rewrite Hobjs.
      by apply in_map, list_elem_of_In. }
    destruct (List.filter _ (stored_records w)) as [|r rs];
      [by apply elem_of_nil in Hin|]. by eexists. }
  split; [|split; [|split]].
  - intros e He. unfold get_paper_info. rewrite with_limit_pos by lia.
    unfold do. by rewrite He.
  - intros objs Hup Hobjs. by rewrite (get_paper_info_spec _ _ objs).
  - exact Hfound.
  - intros Hexact. split.
    + intros objs Hup Hobjs. rewrite (get_paper_info_spec _ _ objs) by done.
      simpl. do 3 f_equal. apply filter_ext. intros r.
      apply eq_true_iff_eq. rewrite bool_decide_eq_true. apply Hexact.
    + intros o Hup Ho Hid. apply (Hfound o Hup Ho). by apply Hexact.
Qed.

End IngestMore.

(** ** More on answer generation *)

Lemma first_by_length {A K} `{EqDecision K} (key : A → K) seen (l : list A) :
  (length (first_by key seen l) ≤ length l)%nat.
Proof.
  revert seen. induction l as [|x l IH]; intros seen; simpl; [done|].
  destruct (decide _); simpl.
  - specialize (IH seen). lia.
  - specialize (IH (key x :: seen)). lia.
Qed.

Section ChainMore.

Context {Vec Dist : Type} {C : Collaborators Vec Dist}.

(** What a caller of [retrieve_relevant_chunks] can rely on. *)
Lemma retrieve_relevant_chunks_facts query U1 top_k (w w1 : World Vec) r :
  retrieve_relevant_chunks query U1 top_k w = (w1, r) →
  ∃ chunks, r = Py.Returned chunks
            ∧ Forall (selected_for w U1) chunks
            ∧ (length chunks ≤ top_k)%nat
            ∧ llm_log w1 = llm_log w.
Proof.
  pose proof (vector_search_llm_log query U1 top_k w) as Hlog.
  unfold retrieve_relevant_chunks.
  destruct (vector_search query U1 top_k w) as [w' [chunks|e]] eqn:Hs;
    intros [= <- <-].
  - exists chunks. split; [done|]. split; [by eapply vector_search_selected|].
    split; [by eapply vector_search_length | done].
  - exists []. split; [done|]. split; [constructor|]. split; [simpl; lia|done].
Qed.

(** Citations inherit what holds of the chunks they are taken from. *)
Lemma extract_sources_from (P : Retrieved.t Dist → Prop) (Q : Source.t → Prop)
    (chunks : list (Retrieved.t Dist)) :
  (∀ c, P c → Q (source_of c)) → Forall P chunks →
  NoDup (_extract_sources chunks)
  ∧ (length (_extract_sources chunks) ≤ length chunks)%nat
  ∧ Forall Q (_extract_sources chunks).
Proof.
  intros HPQ Hall. rewrite extract_sources_spec. unfold citations_spec.
  split; [|split].
  - rewrite <- (map_id (first_by id [] _)). apply first_by_NoDup.
  - etrans; [apply first_by_length|]. by rewrite length_map.
  - apply Forall_forall. intros s [Hs _]%first_by_elem.
    apply list_elem_of_In, in_map_iff in Hs as (c & <- & Hc).
    apply HPQ. rewrite Forall_forall in Hall. by apply Hall, list_elem_of_In.
Qed.

(** The citations of chunks selected for a user: no repeat, no more than
    the chunks, each the title and page of a stored object selected for the
    user. *)
Lemma extract_sources_selected (w : World Vec) U1
    (chunks : list (Retrieved.t Dist)) :
  Forall (selected_for w U1) chunks →
  NoDup (_extract_sources chunks)
  ∧ (length (_extract_sources chunks) ≤ length chunks)%nat
  ∧ Forall (λ s, ∃ o, o ∈ stored w
                      ∧ equal_text U1 (PaperChunk.user_id (data_object o))
                        = true
                      ∧ (exact_on U1 →
                         PaperChunk.user_id (data_object o) = U1)
                      ∧ PaperChunk.paper_title (data_object o) = Source.paper s
                      ∧ PaperChunk.page_number (data_object o) = Source.page s)
           (_extract_sources chunks).
Proof.
  apply extract_sources_from. intros c [Hsel (o & Ho & Hc)].
  exists o. rewrite Hc in Hsel |- *. simpl in *.
  split; [done|]. split; [done|]. split; [|done].
  intros Hexact. by apply Hexact.
Qed.

(** X9: [generate_response] always hands a response to its caller.  Its
    sources never repeat, are at most five, and each names the title and page
    of a stored chunk that the store's filter selects for the asking user,
    which is a chunk stored under the asking user when the store compares the
    [user_id] exactly; and the language model is called at most once, with
    the question as the human message. *)
Theorem generate_response_sources (query persona user_id : string)
    (w : World Vec) :
  ∃ w' r,
    generate_response query persona user_id w = (w', Py.Returned r)
    ∧ NoDup (Response.sources r)
    ∧ (length (Response.sources r) ≤ 5)%nat
    ∧ Forall (λ s, ∃ o, o ∈ stored w
                        ∧ equal_text user_id
                            (PaperChunk.user_id (data_object o)) = true
                        ∧ (exact_on user_id →
                           PaperChunk.user_id (data_object o) = user_id)
                        ∧ PaperChunk.paper_title (data_object o)
                          = Source.paper s
                        ∧ PaperChunk.page_number (data_object o)
                          = Source.page s)
             (Response.sources r)
    ∧ (llm_log w' = llm_log w
       ∨ ∃ system_prompt, llm_log w' = llm_log w ++ [(system_prompt, query)]).
Proof.
  unfold generate_response, generate_response_try.
  destruct (retrieve_relevant_chunks query user_id 5 w) as [w1 r1] eqn:Hr.
  apply retrieve_relevant_chunks_facts in Hr
    as (chunks & -> & Hsel & Hlen & Hlog).
  destruct chunks as [|c cs].
  { eexists _, _. split; [done|]. simpl.
    split; [constructor|]. split; [lia|]. split; [constructor|]. by left. }
  cbn [Py.nonempty negb]. unfold invoke.
  destruct (llm_invoke (clock w1) _ query) as [answer|e].
  - eexists _, _. split; [done|]. simpl.
    destruct (extract_sources_selected w user_id (c :: cs) Hsel)
      as (Hnodup & Hle & Hall).
    split; [done|]. split; [lia|]. split; [done|].
    right. eexists. by rewrite Hlog.
  - eexists _, _. split; [done|]. simpl.
    split; [constructor|]. split; [lia|]. split; [constructor|].
    right. eexists. by rewrite Hlog.
Qed.

(** X10: when the language model fails, none of the three generators
    raises: the response has no source and its answer is either the fixed
    answer for an empty retrieval or the apology that quotes the exception. *)
Theorem llm_failure_is_reported (query persona user_id paper_id : string)
    (w : World Vec) (e : Py.exn)
    (Hllm : ∀ t system_prompt human,
              llm_invoke t system_prompt human = Py.Raised e) :
  (∃ w' answer,
     generate_response query persona user_id w
     = (w', Py.Returned (Response.mk answer []))
     ∧ (answer = no_information
        ∨ answer = "I encountered an error while processing your question: "
                   +:+ Py.exn_msg e +:+ ". Please try again."))
  ∧ (∃ w' answer,
       generate_summary paper_id user_id persona w
       = (w', Py.Returned (Response.mk answer []))
       ∧ (answer = no_paper
          ∨ answer = "I encountered an error while summarizing the paper: "
                     +:+ Py.exn_msg e +:+ ". Please try again."))
  ∧ (∃ w' answer,
       generate_comparison query user_id persona w
       = (w', Py.Returned (Response.mk answer []))
       ∧ (answer = no_comparison
          ∨ answer = "I encountered an error while generating the comparison: "
                     +:+ Py.exn_msg e +:+ ". Please try again.")).
Proof.
  split; [|split].
  - unfold generate_response, generate_response_try.
    destruct (retrieve_relevant_chunks query user_id 5 w) as [w1 r1] eqn:Hr.
    apply retrieve_relevant_chunks_facts in Hr as (chunks & -> & _).
    destruct chunks as [|c cs]; [eexists _, _; split; [done|by left]|].
    cbn [Py.nonempty negb]. unfold invoke. rewrite Hllm.
    eexists _, _. split; [done|by right].
  - unfold generate_summary, generate_summary_try.
    destruct (retrieve_by_paper_id paper_id user_id 20 w) as [w1 r1] eqn:Hr.
    apply retrieve_by_paper_id_facts in Hr as (chunks & -> & _).
    destruct chunks as [|c cs]; [eexists _, _; split; [done|by left]|].
    unfold invoke. rewrite Hllm. eexists _, _. split; [done|by right].
  - unfold generate_comparison, generate_comparison_try.
    destruct (retrieve_relevant_chunks query user_id 10 w) as [w1 r1] eqn:Hr.
    apply retrieve_relevant_chunks_facts in Hr as (chunks & -> & _).
    destruct chunks as [|c cs]; [eexists _, _; split; [done|by left]|].
    cbn [Py.nonempty negb]. unfold invoke. rewrite Hllm.
    eexists _, _. split; [done|by right].
Qed.

(** X11: a persona that is neither [Student] nor [Professor] is served as
    [General User]: [generate_response] does exactly what it does for
    [General User], prompt included. *)
Theorem unknown_persona_is_general_user (query persona user_id : string)
    (w : World Vec)
    (Hstudent : persona ≠ "Student") (Hprofessor : persona ≠ "Professor") :
  generate_response query persona user_id w
  = generate_response query "General User" user_id w.
Proof.
  assert (persona_prompts_get persona = persona_prompts_get "General User")
    as Hprompt.
  { unfold persona_prompts_get.
    rewrite (decide_False (P := persona = "Student")) by done.
    rewrite (decide_False (P := persona = "Professor")) by done.
    by destruct (decide (persona = "General User")). }
  unfold generate_response, generate_response_try. by rewrite Hprompt.
Qed.

End ChainMore.

(** ** The alternative extractor *)

Section AlternativeExtractorFacts.

Variable pdfplumber_pages : string → Py.outcome (list (Py.outcome (option string))).
Variable pypdf2_pages : string → Py.outcome (list (Py.outcome (option string))).

(** The loop only appends to the pages it is given. *)
Lemma alt_extract_loop_acc k doc pages :
  alt_extract_loop k doc pages
  = (pages ++ fst (alt_extract_loop k doc []), snd (alt_extract_loop k doc [])).
Proof.
  revert k pages. induction doc as [|[[text|]|e] doc IH]; intros k pages; simpl.
  - by rewrite app_nil_r.
  - destruct (_ && _).
    + rewrite (IH (S k) (pages ++ _)), (IH (S k) [_]). simpl.
      by rewrite <- app_assoc.
    + apply IH.
  - apply IH.
  - by rewrite app_nil_r.
Qed.

Lemma alt_attempt_acc opened pages :
  alt_attempt opened pages
  = (pages ++ fst (alt_attempt opened []), snd (alt_attempt opened [])).
Proof.
  destruct opened as [doc|e]; simpl.
  - apply alt_extract_loop_acc.
  - by rewrite app_nil_r.
Qed.

(** On pages that do not raise, the loop is the loop of
    [PDFIngester.extract_text_from_pdf]. *)
Lemma alt_extract_loop_clean k doc :
  Forall (λ page, Py.raised page = false) doc →
  alt_extract_loop k doc [] = (extract_loop k (map page_text doc), None).
Proof.
  intros Hclean. revert k.
  induction Hclean as [|[[text|]|e] doc Hpage _ IH]; intros k; simpl;
    [done | | apply IH | done].
  destruct text as [|c text]; [apply IH|]. cbn [Py.truthy andb].
  destruct (Py.truthy (Py.strip (String c text))); [|apply IH].
  rewrite alt_extract_loop_acc, IH. done.
Qed.

(** X13: on a document that pdfplumber reads without an exception, the
    alternative extractor prints nothing and returns exactly the pages
    [PDFIngester.extract_text_from_pdf] computes from the same page texts,
    a page without text ([None]) counting as blank. *)
Theorem alt_extractor_agrees (pdf_path : string)
    (doc : list (Py.outcome (option string)))
    (Hopen : pdfplumber_pages pdf_path = Py.Returned doc)
    (Hclean : Forall (λ page, Py.raised page = false) doc) :
  alt_extract_text_from_pdf pdfplumber_pages pypdf2_pages pdf_path
  = ([], Py.Returned (extract_loop 0 (map page_text doc))).
Proof.
  unfold alt_extract_text_from_pdf, alt_attempt. rewrite Hopen.
  by rewrite alt_extract_loop_clean.
Qed.

(** X14: when pdfplumber fails, at opening or on some page, the pages it
    had read before the failure are kept and the pages PyPDF2 reads are
    appended to them, so such pages come twice; when PyPDF2 fails as well, a
    [ValueError] quoting its exception is raised. *)
Theorem alt_extractor_fallback (pdf_path : string) (read : list Page.t)
    (e : Py.exn)
    (Hplumber : alt_attempt (pdfplumber_pages pdf_path) [] = (read, Some e)) :
  (∀ pages2,
     alt_attempt (pypdf2_pages pdf_path) [] = (pages2, None) →
     alt_extract_text_from_pdf pdfplumber_pages pypdf2_pages pdf_path
     = (["Error extracting text with pdfplumber: " +:+ Py.exn_msg e],
        Py.Returned (read ++ pages2)))
  ∧ (∀ pages2 e2,
       alt_attempt (pypdf2_pages pdf_path) [] = (pages2, Some e2) →
       alt_extract_text_from_pdf pdfplumber_pages pypdf2_pages pdf_path
       = (["Error extracting text with pdfplumber: " +:+ Py.exn_msg e;
           "Error extracting text with PyPDF2: " +:+ Py.exn_msg e2],
          Py.Raised (Py.ValueError
                       ("Could not extract text from PDF: "
                        +:+ Py.exn_msg e2)))).
Proof.
  split.
  - intros pages2 Hpypdf. unfold alt_extract_text_from_pdf.
    rewrite Hplumber, alt_attempt_acc, Hpypdf. done.
  - intros pages2 e2 Hpypdf. unfold alt_extract_text_from_pdf.
    rewrite Hplumber, alt_attempt_acc, Hpypdf. done.
Qed.

End AlternativeExtractorFacts.

(** ** The fallback accounts *)

(** X15: [signup] succeeds exactly when the email has no account.  After a
    successful signup the new user can log in with the chosen password and is
    found by email; a refused signup changes nothing, so the password of the
    existing account stands; and in both cases what every other email can do
    is unchanged. *)
Theorem signup_then_login (email password : string)
    (users : gmap string SimpleAuthService.user) :
  let users' := fst (SimpleAuthService.signup email password users) in
  let ok := snd (SimpleAuthService.signup email password users) in
  (ok = true ↔ users !! email = None)
  ∧ (ok = true →
     SimpleAuthService.login email password users' = true
     ∧ SimpleAuthService.get_user_by_email email users'
       = Some (SimpleAuthService.mk_user password email))
  ∧ (ok = false → users' = users)
  ∧ ∀ other pw,
      other ≠ email →
      SimpleAuthService.login other pw users'
      = SimpleAuthService.login other pw users
      ∧ SimpleAuthService.get_user_by_email other users'
        = SimpleAuthService.get_user_by_email other users.
Proof.
  unfold SimpleAuthService.signup, SimpleAuthService.login,
    SimpleAuthService.get_user_by_email.
  destruct (users !! email) as [u|] eqn:Hu; simpl.
  - split; [done|]. split; [done|]. split; [done|]. by intros other pw Hne.
  - split; [done|]. split.
    { intros _. rewrite lookup_insert_eq. simpl.
      split; [by apply bool_decide_eq_true | done]. }
    split; [done|]. intros other pw Hne. by rewrite lookup_insert_ne.
Qed.

(** X16: in every state the fallback accounts can reach, each account is
    filed under its own email, and the demo account is still there with its
    password: no signup can take over an existing account. *)
Theorem accounts_invariant (users : gmap string SimpleAuthService.user)
    (Hreach : reachable_users users) :
  (∀ key u, users !! key = Some u → SimpleAuthService.email u = key)
  ∧ SimpleAuthService.login "demo@example.com" "demo123" users = true.
Proof.
  induction Hreach as [|users email password _ [IHkey IHdemo]].
  - split; [|by vm_compute]. intros key u.
    unfold SimpleAuthService.init.
    by intros [<- <-]%lookup_singleton_Some.
  - unfold SimpleAuthService.signup.
    destruct (users !! email) as [u0|] eqn:Hu; simpl; [done|]. split.
    + intros key u. destruct (decide (email = key)) as [->|Hne].
      * rewrite lookup_insert_eq. by intros [= <-].
      * rewrite lookup_insert_ne by done. apply IHkey.
    + unfold SimpleAuthService.login in *.
      destruct (decide (email = "demo@example.com")) as [->|Hne].
      * by rewrite Hu in IHdemo.
      * by rewrite lookup_insert_ne.
Qed.

(** ** Utilities *)

Section PasswordFacts.

Variable unicode_decimal : N → bool.

(** X17: [validate_password] reports a password valid exactly when it
    lists no error, which is exactly when the password has at least eight
    characters and holds an uppercase letter of [A-Z], a lowercase letter of
    [a-z], a decimal digit of any script and one of the special characters.
    It lists at most five errors; a password rated strong has at least twelve
    characters; and the strength of a valid password depends on its length
    alone. *)
Theorem validate_password_report (password : list N) :
  let r := validate_password unicode_decimal password in
  let n := length password in
  (valid r = true ↔ errors r = [])
  ∧ (valid r = true
     ↔ (8 ≤ n)%nat
       ∧ re_search_class (char_between "A" "Z") password = true
       ∧ re_search_class (char_between "a" "z") password = true
       ∧ re_search_class unicode_decimal password = true
       ∧ re_search_class (char_among special_characters) password = true)
  ∧ (length (errors r) ≤ 5)%nat
  ∧ (strength r = "strong" → (12 ≤ n)%nat)
  ∧ (valid r = true →
     strength r = if Nat.leb 12 n then "strong"
                  else if Nat.leb 10 n then "medium" else "weak").
Proof.
  cbv zeta. unfold validate_password.
  destruct (Nat.ltb_spec (length password) 8) as [Hshort|Hlong];
    destruct (re_search_class (char_between "A" "Z") password);
    destruct (re_search_class (char_between "a" "z") password);
    destruct (re_search_class unicode_decimal password);
    destruct (re_search_class (char_among special_characters) password);
    cbn [negb app Py.nonempty valid errors strength length];
    destruct (Nat.leb_spec 12 (length password));
    destruct (Nat.leb_spec 10 (length password));
    cbn [andb Nat.leb];
    (split; [split; intros; done || lia|]);
    (split; [split; [intros; done || lia | intros (? & ? & ? & ? & ?); done || lia]|]);
    (split; [lia|]); (split; [intros; done || lia|]); intros; done || lia.
Qed.

End PasswordFacts.

Lemma str_prefix_length n s :
  String.length (str_prefix n s) = (n `min` String.length s)%nat.
Proof.
  revert s. induction n as [|n IH]; intros [|c s]; simpl; try done.
  by rewrite IH.
Qed.

Lemma str_prefix_all s : str_prefix (String.length s) s = s.
Proof. induction s as [|c s IH]; simpl; [done | by rewrite IH]. Qed.

(** The binary search stays between its bounds, ends on a length that fits
    when it starts on one, and, when fitting is inherited by shorter
    lengths, ends on the largest length in range that fits. *)
Lemma truncate_loop_spec (fits : nat → bool) (lo hi : nat) :
  (lo ≤ hi)%nat →
  (lo ≤ truncate_loop fits lo hi ≤ hi)%nat
  ∧ (fits lo = true → fits (truncate_loop fits lo hi) = true)
  ∧ ((∀ i j, (i ≤ j)%nat → fits j = true → fits i = true) →
     ∀ m, (lo ≤ m ≤ hi)%nat → fits m = true →
          (m ≤ truncate_loop fits lo hi)%nat).
Proof.
  funelim (truncate_loop fits lo hi); intros Hle.
  - pose proof (Nat.div_mod_eq (lo + hi + 1) 2) as Hdiv.
    pose proof (Nat.mod_upper_bound (lo + hi + 1) 2) as Hmod.
    set (mid := ((lo + hi + 1) `div` 2)%nat) in *.
    destruct (fits mid) eqn:Hmid.
    + destruct H as (Hrange & Hfit & Hmax); [lia|].
      split; [lia|]. split; [by intros _; apply Hfit|].
      intros Hanti m Hm Hfm. destruct (decide (mid ≤ m)%nat).
      * apply Hmax; [done | lia | done].
      * lia.
    + destruct H0 as (Hrange & Hfit & Hmax); [lia|].
      split; [lia|]. split; [done|].
      intros Hanti m Hm Hfm. apply Hmax; [done| |done].
      destruct (decide (mid ≤ m)%nat); [|lia].
      rewrite (Hanti mid m) in Hmid; done.
  - split; [lia|]. split; [done|]. intros _ m Hm _. lia.
Qed.

Section TruncateFacts.

Variable tiktoken_count : string → string → Py.outcome nat.

(** X18: [count_tokens] falls back to a quarter of the length when the
    tokenizer raises.  [truncate_text] returns a prefix of the text.  When
    the empty text is within the limit, so is the result; when a longer
    prefix never counts fewer tokens than a shorter one, the result is the
    longest prefix within the limit; and when the tokenizer always raises and
    the limit is not negative, the result has four characters for each token
    of the limit and three more, or is the whole text when that is shorter. *)
Theorem truncate_text_fits (text : string) (max_tokens : Z) (model : string) :
  let count := λ t, Z.of_nat (count_tokens tiktoken_count t model) in
  let result := truncate_text tiktoken_count text max_tokens model in
  (∀ t, Py.raised (tiktoken_count model t) = true →
        count_tokens tiktoken_count t model = Nat.div (String.length t) 4)
  ∧ result = str_prefix (String.length result) text
  ∧ (String.length result ≤ String.length text)%nat
  ∧ ((count EmptyString ≤ max_tokens)%Z → (count result ≤ max_tokens)%Z)
  ∧ ((∀ i j, (i ≤ j)%nat →
             (count (str_prefix i text) ≤ count (str_prefix j text))%Z) →
     ∀ n, (n ≤ String.length text)%nat →
          (count (str_prefix n text) ≤ max_tokens)%Z →
          (n ≤ String.length result)%nat)
  ∧ ((∀ t, Py.raised (tiktoken_count model t) = true) →
     (0 ≤ max_tokens)%Z →
     String.length result
     = Nat.min (String.length text) (4 * Z.to_nat max_tokens + 3)).
Proof.
  intros count result.
  assert (∀ t, Py.raised (tiktoken_count model t) = true →
               count_tokens tiktoken_count t model
               = Nat.div (String.length t) 4) as Hfallback.
  { intros t Ht. unfold count_tokens. by destruct (tiktoken_count model t). }
  assert (result = str_prefix (String.length result) text
          ∧ (String.length result ≤ String.length text)%nat
          ∧ ((count EmptyString ≤ max_tokens)%Z →
             (count result ≤ max_tokens)%Z)
          ∧ ((∀ i j, (i ≤ j)%nat →
                     (count (str_prefix i text)
                      ≤ count (str_prefix j text))%Z) →
             ∀ n, (n ≤ String.length text)%nat →
                  (count (str_prefix n text) ≤ max_tokens)%Z →
                  (n ≤ String.length result)%nat))
    as (Hprefix & Hlen & Hfit & Hmax).
  { unfold result, truncate_text.
    destruct (Z.leb_spec (Z.of_nat (count_tokens tiktoken_count text model))
                         max_tokens) as [Hfit|Hover].
    { rewrite str_prefix_all. repeat split; try done. }
    set (fits := λ mid, Z.leb (Z.of_nat (count_tokens tiktoken_count
                                           (str_prefix mid text) model))
                              max_tokens).
    destruct (truncate_loop_spec fits 0 (String.length text))
      as (Hrange & Hfits & Hmax); [lia|].
    set (left_ := truncate_loop fits 0 (String.length text)) in *.
    assert (String.length (str_prefix left_ text) = left_) as Hlen.
    { rewrite str_prefix_length. lia. }
    rewrite Hlen. split; [done|]. split; [lia|]. split.
    - intros Hempty. apply Z.leb_le. apply Hfits. apply Z.leb_le.
      by destruct text.
    - intros Hmono n Hn Hfn. apply Hmax; [|lia|by apply Z.leb_le].
      intros i j Hij Hj. unfold fits in *. apply Z.leb_le.
      apply Z.leb_le in Hj. specialize (Hmono i j Hij). unfold count in Hmono.
      lia. }
  split; [done|]. split; [done|]. split; [done|]. split; [done|].
  split; [done|]. intros Hraises Hlimit.
  assert (∀ t, count t = Z.of_nat (Nat.div (String.length t) 4)) as Hcount.
  { intros t. unfold count. by rewrite Hfallback. }
  set (cap := (4 * Z.to_nat max_tokens + 3)%nat).
  assert (∀ n, (Z.of_nat (Nat.div n 4) ≤ max_tokens)%Z ↔ (n ≤ cap)%nat)
    as Hcap.
  { intros n. unfold cap.
    pose proof (Nat.div_mod_eq n 4). pose proof (Nat.mod_upper_bound n 4).
    lia. }
  assert (String.length result ≤ cap)%nat as Hupper.
  { apply Hcap. rewrite <- Hcount. apply Hfit. rewrite Hcount. simpl. lia. }
  assert (Nat.min (String.length text) cap ≤ String.length result)%nat
    as Hlower.
  { apply Hmax.
    - intros i j Hij. rewrite !Hcount, !str_prefix_length.
      apply inj_le, Nat.Div0.div_le_mono. lia.
    - lia.
    - rewrite Hcount, str_prefix_length. apply Hcap. lia. }
  lia.
Qed.

End TruncateFacts.

(** ** Sources of summaries and comparisons *)

Section SummaryFacts.

Context {Vec Dist : Type} {C : Collaborators Vec Dist}.

(** X19: [generate_summary] and [generate_comparison] always hand a
    response to their caller and call the language model at most once.  The
    sources of a summary never repeat, are at most twenty, and each names the
    title and a page of a stored chunk that the store's filter selects for
    the requested paper and the asking user; those of a comparison never
    repeat, are at most ten, and each names a stored chunk selected for the
    asking user.  When the store compares the ids exactly, these are chunks
    of the requested paper stored under the asking user. *)
Theorem summary_and_comparison_sources (query paper_id user_id persona : string)
    (w : World Vec) :
  (∃ w' r,
     generate_summary paper_id user_id persona w = (w', Py.Returned r)
     ∧ NoDup (Response.sources r)
     ∧ (length (Response.sources r) ≤ 20)%nat
     ∧ Forall (λ s, ∃ o, o ∈ stored w
                         ∧ equal_text paper_id
                             (PaperChunk.paper_id (data_object o)) = true
                         ∧ equal_text user_id
                             (PaperChunk.user_id (data_object o)) = true
                         ∧ (exact_on paper_id → exact_on user_id →
                            PaperChunk.paper_id (data_object o) = paper_id
                            ∧ PaperChunk.user_id (data_object o) = user_id)
                         ∧ PaperChunk.paper_title (data_object o)
                           = Source.paper s
                         ∧ PaperChunk.page_number (data_object o)
                           = Source.page s)
              (Response.sources r)
     ∧ (length (llm_log w') ≤ S (length (llm_log w)))%nat)
  ∧ (∃ w' r,
       generate_comparison query user_id persona w = (w', Py.Returned r)
       ∧ NoDup (Response.sources r)
       ∧ (length (Response.sources r) ≤ 10)%nat
       ∧ Forall (λ s, ∃ o, o ∈ stored w
                           ∧ equal_text user_id
                               (PaperChunk.user_id (data_object o)) = true
                           ∧ (exact_on user_id →
                              PaperChunk.user_id (data_object o) = user_id)
                           ∧ PaperChunk.paper_title (data_object o)
                             = Source.paper s
                           ∧ PaperChunk.page_number (data_object o)
                             = Source.page s)
                (Response.sources r)
       ∧ (length (llm_log w') ≤ S (length (llm_log w)))%nat).
Proof.
  split.
  - unfold generate_summary, generate_summary_try.
    destruct (retrieve_by_paper_id paper_id user_id 20 w) as [w1 r1] eqn:Hr.
    apply retrieve_by_paper_id_facts in Hr
      as (chunks & -> & Hall & Hlen & Hlog).
    destruct chunks as [|c cs].
    { eexists _, _. split; [done|]. simpl. rewrite Hlog.
      split; [constructor|]. split; [lia|]. split; [constructor|lia]. }
    unfold invoke.
    destruct (llm_invoke (clock w1) _ _) as [answer|e];
      (eexists _, _; split; [done|]); simpl;
      rewrite ?length_app, Hlog; simpl.
    + pose proof (λ HPQ, extract_sources_from _
                  (λ s, ∃ o, o ∈ stored w
                             ∧ equal_text paper_id
                                 (PaperChunk.paper_id (data_object o)) = true
                             ∧ equal_text user_id
                                 (PaperChunk.user_id (data_object o)) = true
                             ∧ (exact_on paper_id → exact_on user_id →
                                PaperChunk.paper_id (data_object o) = paper_id
                                ∧ PaperChunk.user_id (data_object o) = user_id)
                             ∧ PaperChunk.paper_title (data_object o)
                               = Source.paper s
                             ∧ PaperChunk.page_number (data_object o)
                               = Source.page s)
                  (c :: cs) HPQ Hall) as Hsrc.
      destruct Hsrc as (Hnodup & Hle & Hq).
      { intros c0 (o & Ho & Hp & Hu & ->). exists o.
        split; [done|]. split; [done|]. split; [done|]. split; [|done].
        intros Hexact_p Hexact_u. split; [by apply Hexact_p|by apply Hexact_u]. }
      split; [done|]. split; [lia|]. split; [done|lia].
    + split; [constructor|]. split; [lia|]. split; [constructor|lia].
  - unfold generate_comparison, generate_comparison_try.
    destruct (retrieve_relevant_chunks query user_id 10 w) as [w1 r1] eqn:Hr.
    apply retrieve_relevant_chunks_facts in Hr
      as (chunks & -> & Hsel & Hlen & Hlog).
    destruct chunks as [|c cs].
    { eexists _, _. split; [done|]. simpl. rewrite Hlog.
      split; [constructor|]. split; [lia|]. split; [constructor|lia]. }
    cbn [Py.nonempty negb]. unfold invoke.
    destruct (llm_invoke (clock w1) _ query) as [answer|e];
      (eexists _, _; split; [done|]); simpl;
      rewrite ?length_app, Hlog; simpl.
    + destruct (extract_sources_selected w user_id (c :: cs) Hsel)
        as (Hnodup & Hle & Hall).
      split; [done|]. split; [lia|]. split; [done|lia].
    + split; [constructor|]. split; [lia|]. split; [constructor|lia].
Qed.

End SummaryFacts.

(** ** Sentence chunks *)

Lemma string_length_app (a b : string) :
  String.length (a +:+ b) = String.length a + String.length b.
Proof. induction a as [|c a IH]; [done|]. rewrite app_String. simpl. lia. Qed.

Lemma spaced_app (l1 l2 : list string) :
  spaced (l1 ++ l2) = spaced l1 +:+ spaced l2.
Proof.
  induction l1 as [|p l1 IH]; [done|]. simpl.
  by rewrite IH, !string_app_assoc.
Qed.

Lemma space_cancel (a b : string) : a +:+ " " = b +:+ " " → a = b.
Proof.
  revert b. induction a as [|c a IH]; intros [|d b]; try done.
  - rewrite app_Empty, app_String. intros [= _ Hb]. by destruct b.
  - rewrite app_Empty, app_String. intros [= _ Ha]. by destruct a.
  - rewrite !app_String. intros [= -> Hab]. f_equal. by apply IH.
Qed.

Lemma spaced_join (l : list string) :
  l ≠ [] → spaced l = join " " l +:+ " ".
Proof.
  induction l as [|p l IH]; [done|]. intros _. destruct l as [|q l].
  - simpl. by rewrite app_Empty_r.
  - change (spaced (p :: q :: l)) with (p +:+ " " +:+ spaced (q :: l)).
    change (join " " (p :: q :: l)) with (p +:+ " " +:+ join " " (q :: l)).
    rewrite IH by done. by rewrite !string_app_assoc.
Qed.

Lemma spaced_nil (l : list string) : spaced l = EmptyString → l = [].
Proof.
  destruct l as [|p l]; [done|]. simpl. intros H.
  apply (f_equal String.length) in H.
  rewrite !string_length_app in H. simpl in H. lia.
Qed.

(** Equal rows are equal when joined. *)
Lemma spaced_inj_join (l1 l2 : list string) :
  spaced l1 = spaced l2 → join " " l1 = join " " l2.
Proof.
  intros H. destruct l1 as [|p l1].
  { symmetry in H. apply spaced_nil in H. by subst. }
  destruct l2 as [|q l2].
  { by apply spaced_nil in H. }
  rewrite !spaced_join in H by done. by apply space_cancel.
Qed.

Lemma rstrip_app_blank (a b : string) :
  Py.blank b = true → Py.rstrip (a +:+ b) = Py.rstrip a.
Proof.
  intros Hb. induction a as [|c a IH].
  - rewrite app_Empty. clear -Hb. induction b as [|c b IH]; [done|].
    simpl in *. apply andb_true_iff in Hb as [Hc Hb].
    by rewrite (IH Hb), Hc.
  - by rewrite app_String, !rstrip_cons, IH.
Qed.

Lemma rstrip_ends (a : string) (c : ascii) :
  Py.isspace c = false →
  Py.rstrip (a +:+ String c EmptyString) = a +:+ String c EmptyString.
Proof.
  intros Hc. induction a as [|d a IH].
  - rewrite app_Empty. simpl. by rewrite Hc.
  - rewrite app_String, rstrip_cons, IH. by destruct a.
Qed.

Lemma lstripped_app (a b : string) :
  a ≠ EmptyString → lstripped a → lstripped (a +:+ b).
Proof. by destruct a. Qed.

(** A sentence of the loop, with its full stop, is tight. *)
Lemma tight_sentence (s : string) :
  Py.truthy (Py.strip s) = true → tight (Py.strip s +:+ ".").
Proof.
  intros Hs. split.
  { destruct (Py.strip s); [done|]. by rewrite app_String. }
  unfold Py.strip at 1. rewrite lstrip_id.
  - by apply rstrip_ends.
  - apply lstripped_app; [by destruct (Py.strip s)|].
    apply rstrip_lstripped, lstrip_lstripped.
Qed.

Lemma tight_lstripped (a : string) : tight a → lstripped a.
Proof.
  intros [_ <-]. apply rstrip_lstripped, lstrip_lstripped.
Qed.

Lemma tight_rstrip (a : string) : tight a → Py.rstrip a = a.
Proof.
  intros Ha. pose proof (tight_lstripped _ Ha) as Hl.
  destruct Ha as [_ Ha]. unfold Py.strip in Ha. by rewrite lstrip_id in Ha.
Qed.

(** Tight strings with a space between them make a tight string. *)
Lemma tight_app (a b : string) : tight a → tight b → tight (a +:+ " " +:+ b).
Proof.
  intros Ha Hb. pose proof (tight_lstripped _ Ha) as Hla.
  split; [destruct Ha as [Ha _]; by destruct a|].
  unfold Py.strip. rewrite lstrip_id
    by (apply lstripped_app; [by destruct Ha|done]).
  pose proof (tight_rstrip _ Hb) as Hrb. destruct Hb as [Hb _].
  clear Ha Hla. induction a as [|c a IH].
  - rewrite app_Empty. change (" " +:+ b) with (String " " b).
    rewrite rstrip_cons, Hrb. by destruct b.
  - rewrite app_String, rstrip_cons, IH.
    destruct (a +:+ " " +:+ b) eqn:Hab; [|done].
    apply (f_equal String.length) in Hab.
    rewrite !string_length_app in Hab. simpl in Hab. lia.
Qed.

(** Stripping a tight string followed by a space gives it back. *)
Lemma strip_tight_space (a : string) : tight a → Py.strip (a +:+ " ") = a.
Proof.
  intros Ha. unfold Py.strip.
  rewrite lstrip_id
    by (apply lstripped_app; [by destruct Ha|by apply tight_lstripped]).
  rewrite rstrip_app_blank by done. by apply tight_rstrip.
Qed.

Section SentenceFacts.

Variable max_chunk_size : Z.

Lemma sentence_inv_mono (done more : list string) (c : string) :
  (Z.of_nat (String.length c) ≤ max_chunk_size)%Z ∨ c ∈ done →
  (Z.of_nat (String.length c) ≤ max_chunk_size)%Z ∨ c ∈ done ++ more.
Proof. intros [H|H]; [by left|right]. apply elem_of_app. by left. Qed.

Lemma sentence_step_inv (done : list string) (st : list string * string)
    (sentence : string) :
  sentence_inv max_chunk_size done st →
  sentence_inv max_chunk_size (done ++ kept_sentences [sentence])
               (sentence_step max_chunk_size st sentence).
Proof.
  destruct st as [chunks current]. intros (Hrow & Hcur & Hchunks).
  simpl in Hrow, Hcur, Hchunks.
  unfold sentence_step, kept_sentences. simpl.
  destruct (Py.truthy (Py.strip sentence)) eqn:Hs; simpl.
  2:{ rewrite app_nil_r. by split. }
  pose proof (tight_sentence _ Hs) as Htight.
  set (s := Py.strip sentence +:+ ".") in *.
  assert (s ∈ done ++ [s]) as Hin by (apply elem_of_app; right; by left).
  destruct (Z.leb_spec (Z.of_nat (String.length current + String.length s))
                       max_chunk_size) as [Hfit|Hover].
  - split; [|split]; simpl.
    + rewrite spaced_app. simpl. rewrite app_Empty_r.
      by rewrite <- Hrow, !string_app_assoc.
    + right. destruct Hcur as [->|(x & -> & Hx & Hsize)].
      * exists s. rewrite app_Empty. split; [done|]. split; [done|by right].
      * exists (x +:+ " " +:+ s). split; [by rewrite !string_app_assoc|].
        split; [by apply tight_app|]. left.
        rewrite !string_length_app in *. simpl in *. lia.
    + eapply Forall_impl; [done|]. intros c [Hc Hsize].
      split; [done|]. by apply sentence_inv_mono.
  - destruct Hcur as [->|(x & -> & Hx & Hsize)].
    + split; [|split]; simpl.
      * rewrite spaced_app. simpl. rewrite app_Empty_r in *.
        by rewrite <- Hrow.
      * right. exists s. split; [done|]. split; [done|by right].
      * eapply Forall_impl; [done|]. intros c [Hc Hsize].
        split; [done|]. by apply sentence_inv_mono.
    + assert (Py.truthy (x +:+ " ") = true) as ->.
      { destruct x; [by destruct Hx|done]. }
      rewrite strip_tight_space by done.
      split; [|split]; simpl.
      * rewrite !spaced_app. simpl. rewrite !app_Empty_r.
        by rewrite <- Hrow.
      * right. exists s. split; [done|]. split; [done|by right].
      * apply Forall_app. split.
        -- eapply Forall_impl; [done|]. intros c [Hc Hsz].
           split; [done|]. by apply sentence_inv_mono.
        -- constructor; [|constructor]. split; [done|].
           by apply sentence_inv_mono.
Qed.

Lemma kept_sentences_cons (s : string) (l : list string) :
  kept_sentences (s :: l) = kept_sentences [s] ++ kept_sentences l.
Proof.
  unfold kept_sentences. simpl. by destruct (Py.truthy (Py.strip s)).
Qed.

Lemma sentence_loop_inv (sentences done : list string)
    (st : list string * string) :
  sentence_inv max_chunk_size done st →
  sentence_inv max_chunk_size (done ++ kept_sentences sentences)
               (fold_left (sentence_step max_chunk_size) sentences st).
Proof.
  revert done st. induction sentences as [|s l IH]; intros done st Hinv.
  - simpl. unfold kept_sentences. simpl. by rewrite app_nil_r.
  - simpl. rewrite kept_sentences_cons, app_assoc.
    by apply IH, sentence_step_inv.
Qed.

(** X20: [chunk_text_by_sentences] loses no sentence and keeps their
    order: its chunks joined with spaces are the kept sentences, each
    stripped and closed by a full stop, joined with spaces.  No chunk is empty
    or starts or ends with white space, and a chunk is longer than
    [max_chunk_size] only when it is a single sentence. *)
Theorem chunk_text_by_sentences_covers (text : string) :
  let sentences := kept_sentences (re_split sentence_end text) in
  let chunks := chunk_text_by_sentences text max_chunk_size in
  join " " chunks = join " " sentences
  ∧ Forall (λ c, c ≠ EmptyString
                 ∧ Py.strip c = c
                 ∧ ((Z.of_nat (String.length c) ≤ max_chunk_size)%Z
                    ∨ c ∈ sentences)) chunks.
Proof.
  intros sentences chunks. subst sentences chunks.
  unfold chunk_text_by_sentences.
  pose proof (sentence_loop_inv (re_split sentence_end text) []
                ([], EmptyString)) as Hinv.
  destruct (fold_left _ _ _) as [chunks current].
  destruct Hinv as (Hrow & Hcur & Hchunks).
  { split; [done|]. split; [by left|constructor]. }
  simpl in Hrow, Hcur, Hchunks.
  assert (Forall (λ c, c ≠ EmptyString
                       ∧ Py.strip c = c
                       ∧ ((Z.of_nat (String.length c) ≤ max_chunk_size)%Z
                          ∨ c ∈ kept_sentences (re_split sentence_end text)))
                 chunks) as Hall.
  { eapply Forall_impl; [done|]. by intros c [[? ?] ?]. }
  destruct Hcur as [->|(x & -> & Hx & Hsize)]; simpl.
  - rewrite app_Empty_r in Hrow. split; [|done]. by apply spaced_inj_join.
  - assert (Py.truthy (x +:+ " ") = true) as ->.
    { destruct x; [by destruct Hx|done]. }
    rewrite strip_tight_space by done. split.
    + apply spaced_inj_join. rewrite spaced_app. simpl.
      by rewrite app_Empty_r.
    + apply Forall_app. split; [done|].
      constructor; [|constructor]. by destruct Hx.
Qed.

End SentenceFacts.

(** ** File names *)

Lemma has_char_str_prefix (c : ascii) (n : nat) (s : string) :
  Py.has_char c (str_prefix n s) = true → Py.has_char c s = true.
Proof.
  revert n. induction s as [|d s IH]; intros [|n]; simpl; try done.
  intros [H|H]%orb_true_iff; apply orb_true_iff; [by left|right].
  by eapply IH.
Qed.

Lemma has_char_str_slice_to (c : ascii) (k : Z) (s : string) :
  Py.has_char c (str_slice_to k s) = true → Py.has_char c s = true.
Proof.
  unfold str_slice_to. destruct (k <? 0)%Z; apply has_char_str_prefix.
Qed.

Lemma has_char_lstrip_chars (c : ascii) (chars s : string) :
  Py.has_char c (lstrip_chars chars s) = true → Py.has_char c s = true.
Proof.
  induction s as [|d s IH]; simpl; [done|].
  destruct (Py.has_char d chars); [|done].
  intros H. apply orb_true_iff. right. by apply IH.
Qed.

Lemma has_char_rstrip_chars (c : ascii) (chars s : string) :
  Py.has_char c (rstrip_chars chars s) = true → Py.has_char c s = true.
Proof.
  induction s as [|d s IH]; simpl; [done|].
  destruct (rstrip_chars chars s) as [|e r].
  - destruct (Py.has_char d chars); [done|]. simpl.
    rewrite orb_false_r. intros ->. done.
  - intros [H|H]%orb_true_iff; apply orb_true_iff; [by left|right].
    by apply IH.
Qed.

Lemma rsplit1_app (sep : ascii) (s name ext : string) :
  rsplit1 sep s = Some (name, ext) →
  s = name +:+ String sep ext.
Proof.
  revert name. induction s as [|c s IH]; intros name; simpl; [done|].
  destruct (rsplit1 sep s) as [[n e]|].
  - intros [= <- <-]. rewrite app_String. f_equal. by apply IH.
  - case_bool_decide as Hc; [|done]. intros [= <- <-]. by subst.
Qed.

Lemma name_and_ext_chars (c : ascii) (s name ext : string) :
  name_and_ext s = (name, ext) →
  (Py.has_char c name = true → Py.has_char c s = true)
  ∧ (Py.has_char c ext = true → Py.has_char c s = true).
Proof.
  unfold name_and_ext. destruct (Py.has_char "." s).
  2:{ by intros [= <- <-]. }
  destruct (rsplit1 "." s) as [[n e]|] eqn:Hsplit; simpl.
  2:{ by intros [= <- <-]. }
  intros [= <- <-]. apply rsplit1_app in Hsplit. subst s.
  rewrite has_char_app. simpl. split; intros ->; [done|].
  by rewrite !orb_true_r.
Qed.

Lemma name_and_ext_length (s name ext : string) :
  name_and_ext s = (name, ext) →
  (String.length name ≤ String.length s)%nat.
Proof.
  unfold name_and_ext. destruct (Py.has_char "." s).
  2:{ by intros [= <- <-]. }
  destruct (rsplit1 "." s) as [[n e]|] eqn:Hsplit; simpl.
  2:{ by intros [= <- <-]. }
  intros [= <- <-]. apply rsplit1_app in Hsplit. subst s.
  rewrite string_length_app. lia.
Qed.

Lemma re_sub_class_chars (cls : ascii → bool) (repl c : ascii) (s : string) :
  cls repl = false →
  Py.has_char c (re_sub_class cls repl s) = true → cls c = false.
Proof.
  intros Hrepl. induction s as [|d s IH]; simpl; [done|].
  intros [H|H]%orb_true_iff; [|by apply IH].
  apply bool_decide_eq_true in H. subst c.
  by destruct (cls d) eqn:Hd.
Qed.

Lemma str_slice_to_length (k : Z) (s : string) :
  (0 ≤ k)%Z → (String.length (str_slice_to k s) ≤ Z.to_nat k)%nat.
Proof.
  intros Hk. unfold str_slice_to.
  destruct (Z.ltb_spec k 0) as [?|_]; [lia|].
  rewrite str_prefix_length. lia.
Qed.

Lemma name_and_ext_app (s name ext : string) :
  name_and_ext s = (name, ext) →
  ext = EmptyString ∨ s = name +:+ "." +:+ ext.
Proof.
  unfold name_and_ext. destruct (Py.has_char "." s).
  2:{ intros [= <- <-]. by left. }
  destruct (rsplit1 "." s) as [[n e]|] eqn:Hsplit; simpl.
  2:{ intros [= <- <-]. by left. }
  intros [= <- <-]. right. by apply rsplit1_app.
Qed.

(** X21: the result of [sanitize_filename] holds none of the nine
    characters the function replaces ([unsafe_characters]), whatever the file
    name.  It has at most 255 characters exactly when what follows the last
    dot of the cleaned name is shorter than 255 characters. *)
Theorem sanitize_filename_safe (filename : string) :
  (∀ c, Py.has_char c (sanitize_filename filename) = true →
        Py.has_char c unsafe_characters = false)
  ∧ ((String.length (sanitize_filename filename) ≤ 255)%nat
     ↔ (String.length (name_and_ext (cleaned_filename filename)).2 < 255)%nat).
Proof.
  unfold sanitize_filename, cleaned_filename.
  set (subbed := re_sub_class _ _ filename).
  assert (∀ c, Py.has_char c (strip_chars ". " subbed) = true →
               Py.has_char c unsafe_characters = false) as Hclean.
  { intros c Hc. unfold strip_chars in Hc.
    apply has_char_rstrip_chars, has_char_lstrip_chars in Hc.
    by apply (re_sub_class_chars (λ c, Py.has_char c unsafe_characters))
      in Hc. }
  set (cleaned := strip_chars ". " subbed) in *.
  destruct (name_and_ext cleaned) as [name ext] eqn:Hsplit.
  pose proof (name_and_ext_app _ _ _ Hsplit) as Happ.
  destruct (Nat.ltb_spec 255 (String.length cleaned)) as [Hlong|Hshort].
  2:{ split; [done|]. simpl. split; [|lia]. intros _.
      destruct Happ as [->|Happ]; [simpl; lia|].
      rewrite Happ, !string_length_app in Hshort. simpl in Hshort. lia. }
  split.
  - intros c Hc.
    destruct (name_and_ext_chars c _ _ _ Hsplit) as [Hname Hext].
    destruct (Py.truthy ext).
    + rewrite !has_char_app in Hc.
      apply orb_true_iff in Hc as [Hc|Hc].
      * by apply Hclean, Hname, (has_char_str_slice_to _ _ _ Hc).
      * apply orb_true_iff in Hc as [Hc|Hc]; [|by apply Hclean, Hext].
        simpl in Hc. rewrite orb_false_r in Hc.
        apply bool_decide_eq_true in Hc. by subst c.
    + by apply Hclean, Hname, (has_char_str_slice_to _ _ _ Hc).
  - simpl. destruct ext as [|e ext]; simpl.
    + pose proof (str_slice_to_length 255 name). lia.
    + rewrite !string_length_app. simpl. split.
      * lia.
      * intros Hext.
        pose proof (str_slice_to_length
                      (255 - Z.of_nat (S (String.length ext)) - 1) name).
        lia.
Qed.

(** * More scenarios, checked *)

(** X4 at work: [user1] reads the paper of [user1]; the store compares
    both ids exactly, and the three chunks carry them. *)
Lemma retrieve_by_paper_id_scoped_witness :
  ∃ w' chunks,
    retrieve_by_paper_id (C:=healthy) "paper-1" "user1" 10 two_users
    = (w', Py.Returned chunks)
    ∧ length chunks = 3
    ∧ Forall (λ c, Retrieved.paper_id c = "paper-1"
                   ∧ Retrieved.user_id c = "user1") chunks.
Proof.
  destruct (retrieve_by_paper_id_scoped (C:=healthy) "paper-1" "user1" 10
              two_users) as (w' & chunks & Hread & _ & Hexact).
  exists w', chunks. split; [exact Hread|].
  split; [|by apply Hexact; apply lab_exact_on].
  assert (snd (retrieve_by_paper_id (C:=healthy) "paper-1" "user1" 10
                 two_users) = Py.Returned chunks) as Hs by (by rewrite Hread).
  vm_compute in Hs. by injection Hs as <-.
Defined.

(** X5 at work: the listing of [user1] is taken from objects stored under
    [user1]. *)
Lemma get_user_papers_sound_witness :
  ∃ w' papers,
    get_user_papers (C:=healthy) "user1" two_users = (w', Py.Returned papers)
    ∧ length papers = 1
    ∧ Forall (λ p, ∃ o, o ∈ stored two_users
                        ∧ PaperChunk.user_id (data_object o) = "user1"
                        ∧ PaperInfo.paper_id p
                          = PaperChunk.paper_id (data_object o)) papers.
Proof.
  destruct (get_user_papers_sound (C:=healthy) "user1" two_users)
    as (w' & papers & Hlist & _ & _ & Hall).
  exists w', papers. split; [exact Hlist|]. split.
  - assert (snd (get_user_papers (C:=healthy) "user1" two_users)
            = Py.Returned papers) as Hs by (by rewrite Hlist).
    vm_compute in Hs. by injection Hs as <-.
  - eapply Forall_impl; [exact Hall|].
    intros p (o & Ho & _ & Hexact & ->). exists o.
    split; [done|]. split; [|done]. by apply Hexact, lab_exact_on.
Defined.

(** X6 at work: [user1] owns three chunks of one paper. *)
Lemma get_user_papers_complete_witness :
  ∃ w' papers,
    get_user_papers (C:=healthy) "user1" two_users = (w', Py.Returned papers)
    ∧ ∀ o, o ∈ stored two_users →
           PaperChunk.user_id (data_object o) = "user1" →
           PaperChunk.paper_id (data_object o)
           ∈ map PaperInfo.paper_id papers.
Proof.
  destruct (get_user_papers_complete (C:=healthy) "user1" two_users
              (stored two_users)) as (w' & papers & Hlist & _ & Hexact);
    [reflexivity | reflexivity | vm_compute; lia |].
  exists w', papers. split; [exact Hlist|]. by apply Hexact, lab_exact_on.
Defined.

(** X7 at work: the 51 pages of [long.pdf] are ingested into an empty store
    and the first three chunks are read back, under the title [long]. *)
Lemma ingest_then_retrieve_witness :
  let after := fst (ingest_pdf (C:=healthy) "long.pdf" "user1" (world_of [])) in
  snd (retrieve_by_paper_id (C:=healthy) "uuid-0" "user1" 3 after)
  = Py.Returned
      [Retrieved.mk "alpha" "uuid-0" "long" 1 0 None "user1";
       Retrieved.mk "alpha" "uuid-0" "long" 2 1 None "user1";
       Retrieved.mk "alpha" "uuid-0" "long" 3 2 None "user1"]
  ∧ snd (get_paper_info (C:=healthy) "uuid-0" after)
    = Py.Returned
        (Some (PaperMeta.mk "long" "user1" "2026-01-01T00:00:00+00:00")).
Proof.
  apply (ingest_then_retrieve (C:=healthy) "long.pdf" "user1" "uuid-0" 3
           (world_of [])).
  - by vm_compute.
  - constructor.
  - by apply lab_exact_on.
  - by apply lab_exact_on.
  - reflexivity.
Defined.

(** X8 at work: a scanned document is refused and the thirteen stored
    chunks are untouched. *)
Lemma ingest_pdf_rejects_empty_witness :
  ingest_pdf (C:=blank_document) "scan.pdf" "user1" two_users
  = (two_users, Py.Raised (Py.ValueError "No text content found in PDF")).
Proof.
  apply (proj1 (proj2 (ingest_pdf_rejects_empty (C:=blank_document)
                         "scan.pdf" "user1" two_users))
           ["   "; EmptyString; String (ascii_of_nat 10) " "]).
  - reflexivity.
  - repeat constructor.
Defined.

(** X9 at work: the sources of an answer to [user1] name a chunk stored
    under [user1]. *)
Lemma generate_response_sources_witness :
  ∃ w' r,
    generate_response (C:=healthy) "x" "Student" "user1" two_users
    = (w', Py.Returned r)
    ∧ Response.sources r = [Source.mk "paper-1" 1]
    ∧ Forall (λ s, ∃ o, o ∈ stored two_users
                        ∧ PaperChunk.user_id (data_object o) = "user1"
                        ∧ PaperChunk.paper_title (data_object o)
                          = Source.paper s) (Response.sources r).
Proof.
  destruct (generate_response_sources (C:=healthy) "x" "Student" "user1"
              two_users) as (w' & r & Hanswer & _ & _ & Hall & _).
  exists w', r. split; [exact Hanswer|]. split.
  - assert (snd (generate_response (C:=healthy) "x" "Student" "user1"
                   two_users) = Py.Returned r) as Hs by (by rewrite Hanswer).
    vm_compute in Hs. by injection Hs as <-.
  - eapply Forall_impl; [exact Hall|].
    intros s (o & Ho & _ & Hexact & Htitle & _). exists o.
    split; [done|]. split; [|done]. by apply Hexact, lab_exact_on.
Defined.

(** X10 at work: [user1] has chunks, the language model is out of quota. *)
Lemma llm_failure_is_reported_witness :
  ∃ w' answer,
    generate_response (C:=llm_down) "x" "Student" "user1" two_users
    = (w', Py.Returned (Response.mk answer []))
    ∧ (answer = no_information
       ∨ answer = "I encountered an error while processing your question: "
                  +:+ "quota exceeded" +:+ ". Please try again.").
Proof.
  exact (proj1 (llm_failure_is_reported (C:=llm_down)
                  "x" "Student" "user1" "paper-1" two_users
                  (Py.Exn "ResourceExhausted" "quota exceeded")
                  (λ _ _ _, eq_refl))).
Defined.

(** X11 at work: the persona [Reviewer] is not one of the three. *)
Lemma unknown_persona_is_general_user_witness :
  generate_response (C:=healthy) "x" "Reviewer" "user1" two_users
  = generate_response (C:=healthy) "x" "General User" "user1" two_users.
Proof.
  apply (unknown_persona_is_general_user (C:=healthy)); by intros [=].
Defined.

(** X12 at work: the question names no user, and the paper of [user2] is
    reported. *)
Lemma get_paper_info_unscoped_witness :
  snd (get_paper_info (C:=healthy) "paper-2" two_users)
  = Py.Returned
      (Some (PaperMeta.mk "paper-2" "user2" "2026-01-01T00:00:00+00:00")).
Proof.
  apply (proj1 (proj2 (get_paper_info_unscoped (C:=healthy)
                         "paper-2" two_users)) (stored two_users));
    reflexivity.
Defined.

(** X13 at work: three pages, the second without text. *)
Lemma alt_extractor_agrees_witness :
  alt_extract_text_from_pdf plumber_reads pypdf2_reads "paper.pdf"
  = ([], Py.Returned [Page.mk 1 "one"; Page.mk 3 "three"]).
Proof.
  apply (alt_extractor_agrees plumber_reads pypdf2_reads "paper.pdf"
           [Py.Returned (Some " one "); Py.Returned None;
            Py.Returned (Some "three")]).
  - reflexivity.
  - repeat constructor.
Defined.

(** X14 at work: pdfplumber reads the first page and breaks on the second;
    the first page comes twice. *)
Lemma alt_extractor_fallback_witness :
  alt_extract_text_from_pdf plumber_breaks pypdf2_reads "paper.pdf"
  = (["Error extracting text with pdfplumber: bad page"],
     Py.Returned [Page.mk 1 "one"; Page.mk 1 "one"; Page.mk 2 "two"]).
Proof.
  apply (proj1 (alt_extractor_fallback plumber_breaks pypdf2_reads "paper.pdf"
                  [Page.mk 1 "one"] (Py.Exn "PDFSyntaxError" "bad page")
                  eq_refl)
           [Page.mk 1 "one"; Page.mk 2 "two"]).
  reflexivity.
Defined.

(** X15 at work: a new email signs up beside the demo account and logs
    in. *)
Lemma signup_then_login_witness :
  SimpleAuthService.login "new@example.com" "secret"
    (fst (SimpleAuthService.signup "new@example.com" "secret"
            SimpleAuthService.init)) = true.
Proof.
  destruct (signup_then_login "new@example.com" "secret"
              SimpleAuthService.init) as (_ & Hok & _).
  apply Hok. by vm_compute.
Defined.

(** X16 at work: a signup under the demo account's email does not take it
    over. *)
Lemma accounts_invariant_witness :
  SimpleAuthService.login "demo@example.com" "demo123"
    (fst (SimpleAuthService.signup "demo@example.com" "stolen"
            SimpleAuthService.init)) = true.
Proof.
  exact (proj2 (accounts_invariant _
                  (reachable_signup _ "demo@example.com" "stolen"
                     reachable_init))).
Defined.

(** X17 at work: the only digit of the password is an Arabic-Indic three;
    the password is valid, and weak at nine characters. *)
Lemma validate_password_report_witness :
  valid (validate_password two_scripts_decimal arabic_digit_password) = true
  ∧ strength (validate_password two_scripts_decimal arabic_digit_password)
    = "weak".
Proof.
  destruct (validate_password_report two_scripts_decimal
              arabic_digit_password) as (_ & Hvalid & _ & _ & Hstrength).
  assert (valid (validate_password two_scripts_decimal arabic_digit_password)
          = true) as Hv.
  { apply Hvalid. vm_compute. repeat split; lia. }
  split; [done|]. by rewrite (Hstrength Hv).
Defined.

(** X18 at work: without a tokenizer a token is four characters, and forty
    characters cut to five tokens leave twenty-three characters. *)
Lemma truncate_text_fits_witness :
  String.length
    (truncate_text no_tiktoken "The quick brown fox jumps over the dog.." 5
                   "gpt-4") = 23.
Proof.
  destruct (truncate_text_fits no_tiktoken
              "The quick brown fox jumps over the dog.." 5 "gpt-4")
    as (_ & _ & _ & _ & _ & Hlength).
  by rewrite Hlength.
Defined.

(** X19 at work: the sources of a summary for [user1] name the requested
    paper as stored under [user1]. *)
Lemma summary_and_comparison_sources_witness :
  ∃ w' r,
    generate_summary (C:=healthy) "paper-1" "user1" "Student" two_users
    = (w', Py.Returned r)
    ∧ Response.sources r = [Source.mk "paper-1" 1]
    ∧ Forall (λ s, ∃ o, o ∈ stored two_users
                        ∧ PaperChunk.paper_id (data_object o) = "paper-1"
                        ∧ PaperChunk.user_id (data_object o) = "user1"
                        ∧ PaperChunk.paper_title (data_object o)
                          = Source.paper s) (Response.sources r).
Proof.
  destruct (proj1 (summary_and_comparison_sources (C:=healthy) "x" "paper-1"
                     "user1" "Student" two_users))
    as (w' & r & Hanswer & _ & _ & Hall & _).
  exists w', r. split; [exact Hanswer|]. split.
  - assert (snd (generate_summary (C:=healthy) "paper-1" "user1" "Student"
                   two_users) = Py.Returned r) as Hs by (by rewrite Hanswer).
    vm_compute in Hs. by injection Hs as <-.
  - eapply Forall_impl; [exact Hall|].
    intros s (o & Ho & _ & _ & Hexact & Htitle & _). exists o.
    destruct Hexact as [Hp Hu]; [by apply lab_exact_on..|]. done.
Defined.

(** X21 at work: 300 letters before [.pdf] are cut down to 255
    characters. *)
Lemma sanitize_filename_safe_witness :
  (String.length (sanitize_filename long_name) ≤ 255)%nat.
Proof.
  apply (proj2 (proj2 (sanitize_filename_safe long_name))).
  vm_compute. lia.
Defined.
